(** * TraderOptimizer: the commission calculator and the backtester

    A shallow embedding of [src/src/utils.py] (fee-schedule merging),
    [src/src/commission.py] ([CommissionCalculator]) and
    [src/src/backtester.py] ([Backtester]).

    Numbers are modelled as exact rationals [Q]; Python floats are not
    modelled bit for bit.  JSON configuration values are the inductive
    [jval]; a Python dict is an association list kept in insertion order,
    with assignment to an existing key updating it in place.  Python
    exceptions are the constructors of [exn] and fallible code returns
    [res].  Division by a zero closing price (an IEEE infinity in the
    source) is outside the model: closing prices are quotes. *)

From Stdlib Require Import QArith Qround Qabs Lqa ZArith Lia Bool List String Ascii.
From Stdlib Require Import Reals Qreals.
Import ListNotations.
Open Scope Q_scope.
Open Scope string_scope.
#[local] Set Warnings "-register-all".

(** ** JSON values, dicts and Python exceptions *)

Inductive jval : Type :=
| JNull
| JBool (b : bool)
| JNum (q : Q)
| JStr (s : string)
| JArr (l : list jval)
| JObj (d : list (string * jval)).

Definition dict := list (string * jval).

(** [d.get(k)] *)
Fixpoint dget (d : dict) (k : string) : option jval :=
  match d with
  | [] => None
  | (k', v) :: d' => if String.eqb k k' then Some v else dget d' k
  end.

Definition dmem (d : dict) (k : string) : bool :=
  match dget d k with Some _ => true | None => false end.

(** [d[k] = v]: an existing key keeps its place, a new key goes last. *)
Fixpoint dset (d : dict) (k : string) (v : jval) : dict :=
  match d with
  | [] => [(k, v)]
  | (k', v') :: d' =>
      if String.eqb k k' then (k', v) :: d' else (k', v') :: dset d' k v
  end.

(** [del d[k]] *)
Definition ddel (d : dict) (k : string) : dict :=
  filter (fun kv => negb (String.eqb (fst kv) k)) d.

(** [d.update(e)] *)
Definition dupdate (d e : dict) : dict :=
  fold_left (fun acc kv => dset acc (fst kv) (snd kv)) e d.

(** Python truthiness of a configuration value. *)
Definition truthy (v : jval) : bool :=
  match v with
  | JNull => false
  | JBool b => b
  | JNum q => negb (Qeq_bool q 0)
  | JStr s => negb (String.eqb s "")
  | JArr l => negb (match l with [] => true | _ => false end)
  | JObj d => negb (match d with [] => true | _ => false end)
  end.

Inductive exn : Type :=
| ValueError (msg : string)
| TypeError (msg : string)
| KeyError (key : string)
| AttributeError (msg : string).

Inductive res (A : Type) : Type :=
| Ok (a : A)
| Raise (e : exn).
Arguments Ok {A} a.
Arguments Raise {A} e.

Definition res_bind {A B} (m : res A) (k : A -> res B) : res B :=
  match m with Ok a => k a | Raise e => Raise e end.

Notation "x <- m ;; k" := (res_bind m (fun x => k))
  (at level 61, m at next level, right associativity).

Definition is_value_error (e : exn) : bool :=
  match e with ValueError _ => true | _ => false end.

(** The fee schedule: [Dict[str, dict]], broker id to its section. *)
Definition schedule := list (string * dict).

Fixpoint sget (cfg : schedule) (k : string) : option dict :=
  match cfg with
  | [] => None
  | (k', s) :: cfg' => if String.eqb k k' then Some s else sget cfg' k
  end.

Definition smem (cfg : schedule) (k : string) : bool :=
  match sget cfg k with Some _ => true | None => false end.

(** ** [UtilsJson.get_merged_section] *)

Module Merge.

Definition max_depth : nat := 50.

(** Result of the [while True] loop that walks the inheritance chain:
    [LBreak chain] leaves the loop by [break], [LRaise] by an exception,
    and [LFuel] means the unrolling given was too short to reach either. *)
Inductive loop_out : Type :=
| LBreak (chain : list string)
| LRaise (e : exn)
| LFuel.

(** One iteration per unit of [fuel]; [depth] is the loop's counter
    before the iteration increments it.  A parent id that is a string
    names a section; other scalars are never keys of the dict ([not in]
    is true); a list or object parent id is unhashable and makes the
    [not in] test raise [TypeError]. *)
Fixpoint chain_loop (fuel : nat) (cfg : schedule) (ident : string)
    (chain_ids : list string) (current_id : string) (depth : nat) : loop_out :=
  match fuel with
  | O => LFuel
  | S fuel' =>
      let current_section :=
        match sget cfg current_id with Some s => s | None => [] end in
      let depth := S depth in
      if Nat.ltb max_depth depth then
        LRaise (ValueError "Inheritance chain exceeded max depth of 50.")
      else if existsb (String.eqb current_id) (removelast chain_ids) then
        LRaise (ValueError "Inheritance loop detected.")
      else
        match dget current_section ident with
        | None | Some JNull => LBreak chain_ids
        | Some (JStr parent_id) =>
            if smem cfg parent_id then
              chain_loop fuel' cfg ident (chain_ids ++ [parent_id]) parent_id depth
            else LRaise (ValueError "Parent ID not found in the configuration.")
        | Some (JArr _) | Some (JObj _) => LRaise (TypeError "unhashable type")
        | Some _ => LRaise (ValueError "Parent ID not found in the configuration.")
        end
  end.

(** Merge the sections of [merge_order] base first, then drop the
    inheritance key. *)
Definition merge_chain (cfg : schedule) (ident : string) (chain_ids : list string) : dict :=
  let merged :=
    fold_left (fun acc key_id =>
                 dupdate acc (match sget cfg key_id with Some s => s | None => [] end))
              (rev chain_ids) [] in
  if dmem merged ident then ddel merged ident else merged.

(** A Python [str | None] used as a condition ([if base_key_id:]). *)
Definition str_truthy (o : option string) : bool :=
  match o with Some s => negb (String.eqb s "") | None => false end.

(** Step 3 and 4 of [get_merged_section]: the inheritance chain, or the
    derived section itself when no identifier is given. *)
Definition chain_merge (fuel : nat) (cfg : schedule) (derived_key_id : string)
    (derived_section : dict) (base_key_identifier : option string) : option (res dict) :=
  match base_key_identifier with
  | Some ident =>
      if str_truthy base_key_identifier then
        match chain_loop fuel cfg ident [derived_key_id] derived_key_id 0 with
        | LBreak chain => Some (Ok (merge_chain cfg ident chain))
        | LRaise e => Some (Raise e)
        | LFuel => None
        end
      else Some (Ok derived_section)
  | None => Some (Ok derived_section)
  end.

(** [get_merged_section] with the [while True] loop unrolled [fuel]
    times; [None] means the unrolling did not reach the loop's exit. *)
Definition get_merged_section_fuel (fuel : nat) (cfg : schedule) (derived_key_id : string)
    (base_key_id base_key_identifier : option string) : option (res dict) :=
  match sget cfg derived_key_id with
  | None => Some (Raise (ValueError "Derived ID not found in the configuration."))
  | Some derived_section =>
      match base_key_id with
      | Some bk =>
          if str_truthy base_key_id then
            match sget cfg bk with
            | None => Some (Raise (ValueError "Base ID not found in the configuration."))
            | Some base_section => Some (Ok (dupdate base_section derived_section))
            end
          else chain_merge fuel cfg derived_key_id derived_section base_key_identifier
      | None => chain_merge fuel cfg derived_key_id derived_section base_key_identifier
      end
  end.

(** The loop runs at most [max_depth + 1] iterations (proved below), so
    this unrolling is the function itself. *)
Definition get_merged_section (cfg : schedule) (derived_key_id : string)
    (base_key_id base_key_identifier : option string) : res dict :=
  match get_merged_section_fuel (S max_depth) cfg derived_key_id base_key_id
          base_key_identifier with
  | Some r => r
  | None => Raise (ValueError "unreachable")
  end.

End Merge.

(** ** [UtilsJson.deep_merge] *)

Fixpoint deep_merge_v (bv ov : jval) {struct ov} : jval :=
  match ov with
  | JObj o =>
      match bv with
      | JObj b =>
          JObj ((fix go (merged : dict) (o : dict) {struct o} : dict :=
                   match o with
                   | [] => merged
                   | (key, value) :: o' =>
                       go (dset merged key
                             (match dget merged key with
                              | Some old => deep_merge_v old value
                              | None => value
                              end)) o'
                   end) b o)
      | _ => ov
      end
  | _ => ov
  end.

Definition deep_merge (base_dict override_dict : dict) : dict :=
  match deep_merge_v (JObj base_dict) (JObj override_dict) with
  | JObj d => d
  | _ => base_dict
  end.

(** ** Enumerations of [src/src/constant.py] *)

Inductive AssetType : Type := STOCKS | OPTIONS | CURRENCY | CRYPTO.

Definition asset_value (a : AssetType) : string :=
  match a with
  | STOCKS => "stocks" | OPTIONS => "options"
  | CURRENCY => "currency" | CRYPTO => "crypto"
  end.

Inductive TradeSide : Type := TS_NOT_HELD | TS_BUY | TS_SELL.

(** [str(trade_side.value)]: the enum values are the integers 0, 1, 2. *)
Definition side_value (s : TradeSide) : string :=
  match s with TS_NOT_HELD => "0" | TS_BUY => "1" | TS_SELL => "2" end.

Definition side_eqb (a b : TradeSide) : bool :=
  match a, b with
  | TS_NOT_HELD, TS_NOT_HELD | TS_BUY, TS_BUY | TS_SELL, TS_SELL => true
  | _, _ => false
  end.

Inductive HoldingType : Type := DELIVERY | INTRADAY | UNKNOWN.

Definition holding_eqb (a b : HoldingType) : bool :=
  match a, b with
  | DELIVERY, DELIVERY | INTRADAY, INTRADAY | UNKNOWN, UNKNOWN => true
  | _, _ => false
  end.

(** ** [CommissionCalculator._get_effective_fees] *)

(** [needle in hay] for strings. *)
Definition str_contains (needle hay : string) : bool :=
  match String.index 0 needle hay with Some _ => true | None => false end.

(** A dict-valued [.get(key, {})]; a present value that is not a dict
    makes the following dict operation ([.copy], [.items], [.get]) raise. *)
Definition get_dict (d : dict) (key : string) : res dict :=
  match dget d key with
  | None => Ok []
  | Some (JObj d') => Ok d'
  | Some _ => Raise (AttributeError "section is not a dict")
  end.

Definition get_effective_fees (cfg : schedule) (broker_key : string)
    (asset_type : AssetType) : res dict :=
  let asset_key := asset_value asset_type in
  merged_broker_config <-
    match Merge.get_merged_section cfg broker_key None (Some "inherits_from") with
    | Raise (ValueError m) =>
        if str_contains "not found" m
        then Raise (ValueError "Broker key not found in master schedule.")
        else Raise (ValueError m)
    | r => r
    end ;;
  base <- match sget cfg "base" with
          | Some b => Ok b
          | None => Raise (KeyError "base")
          end ;;
  base_asset_config <- get_dict base asset_key ;;
  merged_asset_config <- get_dict merged_broker_config asset_key ;;
  let effective_config := deep_merge base_asset_config merged_asset_config in
  let present k := match dget effective_config k with
                   | Some v => truthy v
                   | None => false
                   end in
  if negb (present "broker") && negb (present "regulatory")
  then Raise (ValueError "Asset type configuration not found in schedule.")
  else Ok effective_config.

(** ** [datetime] values and [CommissionCalculator._determine_holding_type] *)

(** A [datetime.datetime]: the proleptic Gregorian ordinal of its date,
    the microseconds since midnight, and the UTC offset in seconds of an
    aware value ([None] for a naive one). *)
Record datetime : Type := mkDatetime {
  dt_ordinal : Z;
  dt_usec : Z;
  dt_offset : option Z
}.

Definition usec_per_day : Z := 86400 * 1000000.

Definition local_usec (d : datetime) : Z := dt_ordinal d * usec_per_day + dt_usec d.

Definition utc_usec (d : datetime) (off : Z) : Z := local_usec d - off * 1000000.

(** [a <= b]: naive and aware values cannot be ordered. *)
Definition dt_le (a b : datetime) : res bool :=
  match dt_offset a, dt_offset b with
  | None, None => Ok (local_usec a <=? local_usec b)%Z
  | Some oa, Some ob => Ok (utc_usec a oa <=? utc_usec b ob)%Z
  | _, _ => Raise (TypeError "can't compare offset-naive and offset-aware datetimes")
  end.

(** [a - b] as a [timedelta] in microseconds. *)
Definition dt_sub (a b : datetime) : res Z :=
  match dt_offset a, dt_offset b with
  | None, None => Ok (local_usec a - local_usec b)%Z
  | Some oa, Some ob => Ok (utc_usec a oa - utc_usec b ob)%Z
  | _, _ => Raise (TypeError "can't subtract offset-naive and offset-aware datetimes")
  end.

(** Python truthiness of a [str | None] argument. *)
Definition opt_str_truthy (o : option string) : bool :=
  match o with Some s => negb (String.eqb s "") | None => false end.

Section HoldingType.

(** [datetime.datetime.fromisoformat]: [None] when it raises [ValueError]. *)
Variable fromisoformat : string -> option datetime.

Definition determine_holding_type (buy_datetime sell_datetime : option string)
    : res HoldingType :=
  if negb (opt_str_truthy buy_datetime) || negb (opt_str_truthy sell_datetime)
  then Ok UNKNOWN
  else
    match buy_datetime, sell_datetime with
    | Some b, Some s =>
        match fromisoformat b, fromisoformat s with
        | Some buy_dt, Some sell_dt =>
            le <- dt_le sell_dt buy_dt ;;
            if le then Ok INTRADAY
            else
              time_difference <- dt_sub sell_dt buy_dt ;;
              if (dt_ordinal buy_dt =? dt_ordinal sell_dt)%Z
                 || (time_difference <? usec_per_day)%Z
              then Ok INTRADAY
              else Ok DELIVERY
        | _, _ => Ok UNKNOWN
        end
    | _, _ => Ok UNKNOWN
    end.

End HoldingType.

(** A parser for the ISO 8601 forms [YYYY-MM-DD], [YYYY-MM-DDTHH:MM] and
    [YYYY-MM-DDTHH:MM:SS], optionally followed by a [+HH:MM] or [-HH:MM]
    UTC offset: the forms produced by [Timestamp.isoformat()] for daily
    bars, on which it agrees with [datetime.fromisoformat].  Date
    arithmetic follows CPython's [_ymd2ord]. *)
Module IsoFormat.

Definition is_leap (y : Z) : bool :=
  ((y mod 4 =? 0) && negb (y mod 100 =? 0) || (y mod 400 =? 0))%Z.

Definition days_in_month (y m : Z) : Z :=
  if (m =? 2)%Z then (if is_leap y then 29 else 28)
  else if (m =? 4)%Z || (m =? 6)%Z || (m =? 9)%Z || (m =? 11)%Z then 30
  else 31.

Definition days_before_year (y : Z) : Z :=
  let y' := (y - 1)%Z in (y' * 365 + y' / 4 - y' / 100 + y' / 400)%Z.

Definition days_before_month (y m : Z) : Z :=
  let base := match m with
              | 1 => 0 | 2 => 31 | 3 => 59 | 4 => 90 | 5 => 120 | 6 => 151
              | 7 => 181 | 8 => 212 | 9 => 243 | 10 => 273 | 11 => 304
              | _ => 334
              end%Z in
  if (2 <? m)%Z && is_leap y then (base + 1)%Z else base.

Definition ymd2ord (y m d : Z) : Z :=
  (days_before_year y + days_before_month y m + d)%Z.

Definition digit (c : ascii) : option Z :=
  let n := nat_of_ascii c in
  if (48 <=? n)%nat && (n <=? 57)%nat then Some (Z.of_nat (n - 48)) else None.

(** Exactly [n] decimal digits. *)
Fixpoint digits (n : nat) (acc : Z) (l : list ascii) : option (Z * list ascii) :=
  match n with
  | O => Some (acc, l)
  | S n' =>
      match l with
      | c :: l' =>
          match digit c with
          | Some v => digits n' (acc * 10 + v)%Z l'
          | None => None
          end
      | [] => None
      end
  end.

Definition expect (c : ascii) (l : list ascii) : option (list ascii) :=
  match l with
  | c' :: l' => if Ascii.eqb c c' then Some l' else None
  | [] => None
  end.

Definition opt_bind {A B} (m : option A) (k : A -> option B) : option B :=
  match m with Some a => k a | None => None end.

(** [HH:MM] of an offset, in seconds, with its sign. *)
Definition parse_offset (l : list ascii) : option Z :=
  match l with
  | [] => Some 0%Z
  | sg :: l' =>
      let sign := if Ascii.eqb sg "+"%char then Some 1%Z
                  else if Ascii.eqb sg "-"%char then Some (-1)%Z else None in
      opt_bind sign (fun sign =>
      opt_bind (digits 2 0 l') (fun '(hh, l1) =>
      opt_bind (expect ":"%char l1) (fun l2 =>
      opt_bind (digits 2 0 l2) (fun '(mm, l3) =>
        match l3 with
        | [] => if (hh <? 24)%Z && (mm <? 60)%Z
                then Some (sign * (hh * 3600 + mm * 60))%Z else None
        | _ => None
        end))))
  end.

Definition parse (s : string) : option datetime :=
  let l := list_ascii_of_string s in
  opt_bind (digits 4 0 l) (fun '(y, l1) =>
  opt_bind (expect "-"%char l1) (fun l2 =>
  opt_bind (digits 2 0 l2) (fun '(m, l3) =>
  opt_bind (expect "-"%char l3) (fun l4 =>
  opt_bind (digits 2 0 l4) (fun '(d, l5) =>
  if negb ((1 <=? y)%Z && (1 <=? m)%Z && (m <=? 12)%Z
           && (1 <=? d)%Z && (d <=? days_in_month y m)%Z) then None else
  let ord := ymd2ord y m d in
  match l5 with
  | [] => Some (mkDatetime ord 0 None)
  | sep :: l6 =>
      if negb (Ascii.eqb sep "T"%char || Ascii.eqb sep " "%char) then None else
      opt_bind (digits 2 0 l6) (fun '(hh, l7) =>
      opt_bind (expect ":"%char l7) (fun l8 =>
      opt_bind (digits 2 0 l8) (fun '(mi, l9) =>
      let '(ss, l10) :=
        match l9 with
        | c :: l' => if Ascii.eqb c ":"%char
                     then match digits 2 0 l' with
                          | Some (ss, l'') => (Some ss, l'')
                          | None => (None, l9)
                          end
                     else (Some 0%Z, l9)
        | [] => (Some 0%Z, l9)
        end in
      opt_bind ss (fun ss =>
      if negb ((hh <? 24)%Z && (mi <? 60)%Z && (ss <? 60)%Z) then None else
      let usec := ((hh * 3600 + mi * 60 + ss) * 1000000)%Z in
      match l10 with
      | [] => Some (mkDatetime ord usec None)
      | _ => opt_bind (parse_offset l10) (fun off => Some (mkDatetime ord usec (Some off)))
      end))))
  end))))).

End IsoFormat.


(** ** [CommissionCalculator._calculate_stocks_fees] *)

(** [a < b] on numbers. *)
Definition qlt (a b : Q) : bool := negb (Qle_bool b a).

(** Python's [round(x, 2)]: round half to even at the second decimal. *)
Definition round_half_even (x : Q) : Z :=
  let f := Qfloor x in
  match Qcompare (x - inject_Z f) (1 # 2) with
  | Lt => f
  | Gt => (f + 1)%Z
  | Eq => if Z.even f then f else (f + 1)%Z
  end.

Definition round2 (x : Q) : Q := inject_Z (round_half_even (x * 100)) / 100.

(** A numeric [.get(key, default)] whose result is multiplied or
    compared; a bool counts as 0 or 1, any other non-number raises. *)
Definition num_get (d : dict) (key : string) (default : Q) : res Q :=
  match dget d key with
  | None => Ok default
  | Some (JNum q) => Ok q
  | Some (JBool b) => Ok (if b then 1 else 0)
  | Some _ => Raise (TypeError "unsupported operand type")
  end.

(** [.get(cap_key)] compared with [> ] when it is not [None]. *)
Definition cap_get (d : dict) (key : string) : res (option Q) :=
  match dget d key with
  | None | Some JNull => Ok None
  | Some (JNum q) => Ok (Some q)
  | Some (JBool b) => Ok (Some (if b then 1 else 0))
  | Some _ => Raise (TypeError "'>' not supported")
  end.

(** The six unrounded fee components of one stock transaction. *)
Record components : Type := mkComponents {
  c_brokerage : Q;
  c_etc : Q;
  c_sebi : Q;
  c_stamp : Q;
  c_gst : Q;
  c_stt : Q
}.

(** [total_fees = brokerage + etc_charges + sebi_fee + stamp_duty + gst_tax + stt_tax] *)
Definition c_total (c : components) : Q :=
  c_brokerage c + c_etc c + c_sebi c + c_stamp c + c_gst c + c_stt c.

(** The returned [fees_breakdown]; every amount is rounded to 2 places. *)
Record breakdown : Type := mkBreakdown {
  bd_side : TradeSide;
  bd_holding : HoldingType;
  bd_principal : Q;
  bd_brokerage : Q;
  bd_etc : Q;
  bd_sebi : Q;
  bd_stamp : Q;
  bd_gst : Q;
  bd_stt : Q;
  bd_total : Q
}.

(** The body of [_calculate_stocks_fees] up to [total_fees]. *)
Definition stocks_components (principal_value : Q) (trade_side : TradeSide)
    (holding_type : HoldingType) (rates : dict) : res components :=
  broker_rates <- get_dict rates "broker" ;;
  regulatory_rates <- get_dict rates "regulatory" ;;
  let rate_key := "rate_" ++ side_value trade_side in
  let const_key := "const_" ++ side_value trade_side in
  let cap_key := "cap_" ++ side_value trade_side in
  rate <- num_get broker_rates rate_key 0 ;;
  let percentage_brokerage := principal_value * rate in
  constant_fee <- num_get broker_rates const_key 0 ;;
  let brokerage := if qlt percentage_brokerage constant_fee
                   then constant_fee else percentage_brokerage in
  brokerage_cap <- cap_get broker_rates cap_key ;;
  let brokerage := match brokerage_cap with
                   | Some cap => if qlt cap brokerage then cap else brokerage
                   | None => brokerage
                   end in
  etc_rate <- num_get regulatory_rates "etc_rate" 0 ;;
  let etc_charges := principal_value * etc_rate in
  sebi_rate <- num_get regulatory_rates "sebi_rate" 0 ;;
  let sebi_fee := principal_value * sebi_rate in
  stamp_duty <- (if side_eqb trade_side TS_BUY
                 then r <- num_get regulatory_rates "stamp_duty_rate" 0 ;;
                      Ok (principal_value * r)
                 else Ok 0) ;;
  let gst_base := brokerage + etc_charges + sebi_fee in
  gst_rate <- num_get regulatory_rates "gst_rate" 0 ;;
  let gst_tax := gst_base * gst_rate in
  stt_tax <- (if holding_eqb holding_type DELIVERY && side_eqb trade_side TS_SELL
              then r <- num_get regulatory_rates "stt_delivery" 0 ;;
                   Ok (principal_value * r)
              else if holding_eqb holding_type INTRADAY
              then r <- num_get regulatory_rates "stt_intraday" 0 ;;
                   Ok (principal_value * r)
              else Ok 0) ;;
  Ok (mkComponents brokerage etc_charges sebi_fee stamp_duty gst_tax stt_tax).

Definition calculate_stocks_fees (principal_value : Q) (trade_side : TradeSide)
    (holding_type : HoldingType) (rates : dict) : res breakdown :=
  c <- stocks_components principal_value trade_side holding_type rates ;;
  Ok (mkBreakdown trade_side holding_type
        (round2 principal_value)
        (round2 (c_brokerage c)) (round2 (c_etc c)) (round2 (c_sebi c))
        (round2 (c_stamp c)) (round2 (c_gst c)) (round2 (c_stt c))
        (round2 (c_total c))).

(** ** [CommissionCalculator.calculate_commission_fees] *)

(** The returned dict: a fee breakdown, or a dict with an ["error"] key. *)
Inductive fee_result : Type :=
| FeeBreakdown (b : breakdown)
| FeeError (msg : string).

Definition calculate_commission_fees (fromisoformat : string -> option datetime)
    (master_schedule : schedule) (broker_key : string) (principal_value : Q)
    (trade_side : TradeSide) (asset_type : AssetType)
    (buy_datetime sell_datetime : option string) : res fee_result :=
  if Qle_bool principal_value 0
  then Ok (FeeError "Principal value must be positive.")
  else
    match get_effective_fees master_schedule broker_key asset_type with
    | Raise (ValueError m) => Ok (FeeError m)
    | Raise e => Raise e
    | Ok effective_rates =>
        holding_type <- determine_holding_type fromisoformat buy_datetime sell_datetime ;;
        match asset_type with
        | STOCKS =>
            b <- calculate_stocks_fees principal_value trade_side holding_type effective_rates ;;
            Ok (FeeBreakdown b)
        | OPTIONS | CURRENCY | CRYPTO =>
            Ok (FeeError "Fee calculation is not yet implemented. Only Stocks are currently supported.")
        end
    end.

(** ** [Backtester] *)

Inductive SIGNAL : Type := NO_ACTION | BUY_ENTRY | BUY_EXIT | SELL_ENTRY | SELL_EXIT.

(** [POSITION]: [P_BUY] is a long and [P_SELL] a short position. *)
Inductive POSITION : Type := P_NOT_HELD | P_BUY | P_SELL.

Definition position_eqb (a b : POSITION) : bool :=
  match a, b with
  | P_NOT_HELD, P_NOT_HELD | P_BUY, P_BUY | P_SELL, P_SELL => true
  | _, _ => false
  end.

(** One row of [df_with_signals]: [index[i].isoformat()], ['Close'] and
    ['Signal']. *)
Record bar : Type := mkBar {
  b_ts : string;
  b_close : Q;
  b_signal : SIGNAL
}.

Inductive trade_type : Type := Long | Short.

(** The exit fields ['Exit_Date'], ['Exit_Price'], ['Fees_Exit']. *)
Record exit_info : Type := mkExit {
  x_date : string;
  x_price : Q;
  x_fees : Q
}.

(** A trade dict; [t_exit = None] when it has no ['Exit_Date'] yet. *)
Record trade : Type := mkTrade {
  t_entry_date : string;
  t_entry_price : Q;
  t_type : trade_type;
  t_shares : Q;
  t_fees_entry : Q;
  t_exit : option exit_info
}.

Definition has_exit (t : trade) : bool :=
  match t_exit t with Some _ => true | None => false end.

Fixpoint last_opt {A} (l : list A) : option A :=
  match l with
  | [] => None
  | [x] => Some x
  | _ :: l' => last_opt l'
  end.

(** [not self.trades or 'Exit_Date' in self.trades[-1]] *)
Definition no_open_last (trades : list trade) : bool :=
  match last_opt trades with None => true | Some t => has_exit t end.

(** [self.trades[-1].update(...)] *)
Fixpoint update_last {A} (f : A -> A) (l : list A) : list A :=
  match l with
  | [] => []
  | [x] => [f x]
  | x :: l' => x :: update_last f l'
  end.

Definition close_trade (e : exit_info) (t : trade) : trade :=
  mkTrade (t_entry_date t) (t_entry_price t) (t_type t) (t_shares t)
          (t_fees_entry t) (Some e).

(** The variables the loop of [run] threads: [self.cash], [self.shares],
    [self.position], [self.trades] and the local [current_entry_date]. *)
Record sim : Type := mkSim {
  cash : Q;
  shares : Q;
  position : POSITION;
  trades : list trade;
  current_entry_date : option string
}.

(** The equity valuation at the top of each iteration. *)
Definition valuation (st : sim) (price : Q) : Q :=
  if position_eqb (position st) P_SELL
  then cash st - Qabs (shares st) * price
  else cash st + shares st * price.

(** [self.__dict__] of a [Backtester] that matters to [run]. *)
Record backtester : Type := mkBacktester {
  initial_capital : Q;
  bt_cash : Q;
  bt_shares : Q;
  bt_position : POSITION;
  bt_trades : list trade;
  equity_curve : option (list Q);
  final_equity : Q
}.

Section Simulator.

(** [self.calculator.calculate_commission_fees] with [self.broker_key] and
    [self.asset_type] fixed; [Raise] is an exception escaping it. *)
Variable calc : Q -> TradeSide -> option string -> option string -> res fee_result.

Definition get_trade_fees (principal_value : Q) (trade_side : TradeSide)
    (buy_date sell_date : option string) : Q :=
  match calc principal_value trade_side buy_date sell_date with
  | Ok (FeeBreakdown b) => bd_total b
  | Ok (FeeError _) => 0
  | Raise _ => 0
  end.

(** The trade logic of one iteration of the loop of [run]. *)
Definition transition (st : sim) (b : bar) : sim :=
  let signal := b_signal b in
  let price := b_close b in
  let current_date_str := b_ts b in
  match position st with
  | P_NOT_HELD =>
      match signal with
      | BUY_ENTRY =>
          let principal_value := cash st in
          let fees := get_trade_fees principal_value TS_BUY (Some current_date_str) None in
          let shares_capital := principal_value - fees in
          if qlt 0 shares_capital then
            let sh := shares_capital / price in
            mkSim 0 sh P_BUY
                  (trades st ++ [mkTrade current_date_str price Long sh fees None])
                  (Some current_date_str)
          else st
      | SELL_ENTRY =>
          let shares_to_short := cash st / price in
          let principal_value := shares_to_short * price in
          let fees := get_trade_fees principal_value TS_SELL None (Some current_date_str) in
          mkSim (cash st + (principal_value - fees)) (- shares_to_short) P_SELL
                (trades st ++ [mkTrade current_date_str price Short shares_to_short fees None])
                (Some current_date_str)
      | _ => st
      end
  | P_BUY =>
      match signal with
      | BUY_EXIT =>
          match last_opt (trades st) with
          | Some last =>
              if has_exit last then st else
              let principal_value := shares st * price in
              let fees := get_trade_fees principal_value TS_SELL
                            (Some (t_entry_date last)) (Some current_date_str) in
              mkSim (cash st + (principal_value - fees)) 0 P_NOT_HELD
                    (update_last (close_trade (mkExit current_date_str price fees)) (trades st))
                    None
          | None => st
          end
      | _ => st
      end
  | P_SELL =>
      match signal with
      | SELL_EXIT =>
          match last_opt (trades st) with
          | Some last =>
              if has_exit last then st else
              let shares_to_cover := Qabs (shares st) in
              let principal_value := shares_to_cover * price in
              let fees := get_trade_fees principal_value TS_BUY
                            (Some (t_entry_date last)) (Some current_date_str) in
              mkSim (cash st - (principal_value + fees)) 0 P_NOT_HELD
                    (update_last (close_trade (mkExit current_date_str price fees)) (trades st))
                    None
          | None => st
          end
      | _ => st
      end
  end.

(** The loop [for i in range(1, len(signals_copy))] over the bars from
    index 1: each iteration records [equity.iloc[i]], then runs the trade
    logic.  Returns the final variables and the recorded equity values. *)
Fixpoint sim_loop (st : sim) (bars : list bar) : sim * list Q :=
  match bars with
  | [] => (st, [])
  | b :: bars' =>
      let e := valuation st (b_close b) in
      let '(st', es) := sim_loop (transition st b) bars' in
      (st', e :: es)
  end.

(** [_reset_state] *)
Definition reset_state (bt : backtester) : backtester :=
  mkBacktester (initial_capital bt) (initial_capital bt) 0 P_NOT_HELD [] None 0.

Definition sim_of (bt : backtester) : sim :=
  mkSim (bt_cash bt) (bt_shares bt) (bt_position bt) (bt_trades bt) None.

(** [run]: [equity.iloc[0]] stays NaN, so [equity.dropna()] is exactly the
    values recorded by the loop. *)
Definition run (bt : backtester) (df : list bar) : backtester :=
  let bt0 := reset_state bt in
  let '(st, es) := sim_loop (sim_of bt0) (tl df) in
  let curve := es in
  let fe := match last_opt curve with
            | Some v => v
            | None => initial_capital bt0
            end in
  let fe := if negb (position_eqb (position st) P_NOT_HELD)
               && negb (match curve with [] => true | _ => false end)
            then match last_opt es with Some v => v | None => fe end
            else fe in
  mkBacktester (initial_capital bt0) (cash st) (shares st) (position st) (trades st)
               (Some curve) fe.

End Simulator.

(** ** [Backtester._calculate_sharpe_ratio] *)

Module Sharpe.

(** A float as pandas sees it: finite, NaN, or an infinity. *)
Inductive fl : Type :=
| Fin (q : Q)
| NaN
| Inf (negative : bool).

(** [a / b - 1], the step of [pct_change]. *)
Definition pct (a b : Q) : fl :=
  if Qeq_bool b 0
  then (if Qeq_bool a 0 then NaN else Inf (qlt a 0))
  else Fin (a / b - 1).

Fixpoint pct_change_from (prev : Q) (l : list Q) : list fl :=
  match l with
  | [] => []
  | x :: l' => pct x prev :: pct_change_from x l'
  end.

(** [Series.pct_change()]: the first entry is NaN. *)
Definition pct_change (l : list Q) : list fl :=
  match l with
  | [] => []
  | x :: l' => NaN :: pct_change_from x l'
  end.

Definition dropna (l : list fl) : list fl :=
  filter (fun x => match x with NaN => false | _ => true end) l.

Definition fadd (a b : fl) : fl :=
  match a, b with
  | Fin x, Fin y => Fin (x + y)
  | NaN, _ | _, NaN => NaN
  | Inf n, Fin _ | Fin _, Inf n => Inf n
  | Inf n, Inf m => if Bool.eqb n m then Inf n else NaN
  end.

(** [Series.mean()] *)
Definition mean (l : list fl) : fl :=
  match l with
  | [] => NaN
  | _ => match fold_left fadd l (Fin 0) with
         | Fin s => Fin (s / inject_Z (Z.of_nat (List.length l)))
         | x => x
         end
  end.

Fixpoint all_fin (l : list fl) : option (list Q) :=
  match l with
  | [] => Some []
  | Fin x :: l' => match all_fin l' with Some xs => Some (x :: xs) | None => None end
  | _ :: _ => None
  end.

Definition qsum (l : list Q) : Q := fold_left Qplus l 0.

(** The sample variance ([ddof=1]) of at least two finite values. *)
Definition sample_variance (xs : list Q) : Q :=
  let n := inject_Z (Z.of_nat (List.length xs)) in
  let avg := qsum xs / n in
  qsum (map (fun x => (x - avg) * (x - avg)) xs) / (n - 1).

(** [Series.std()] as the variance it is the square root of; [None] is
    NaN: fewer than two values, or a non-finite one. *)
Definition std_sq (l : list fl) : option Q :=
  if (List.length l <=? 1)%nat then None
  else match all_fin l with
       | Some xs => Some (sample_variance xs)
       | None => None
       end.

Inductive sharpe_out : Type :=
| SNum (r : R)
| SNaN.

Definition calculate_sharpe_ratio (curve : option (list Q)) (risk_free_rate : Q) : sharpe_out :=
  match curve with
  | None | Some [] => SNum 0%R
  | Some c =>
      let daily_returns := dropna (pct_change c) in
      let std_is_zero := match std_sq daily_returns with
                         | Some v => Qeq_bool v 0
                         | None => false
                         end in
      if std_is_zero || (List.length daily_returns =? 0)%nat then SNum 0%R
      else match std_sq daily_returns, mean daily_returns with
           | Some v, Fin m =>
               SNum (Q2R (m - risk_free_rate) / sqrt (Q2R v) * sqrt 252)%R
           | _, _ => SNaN
           end
  end.

End Sharpe.

(** ** Predicates and inputs used by the statements below *)

(** Trade records without exit fields. *)
Definition open_count (l : list trade) : nat :=
  List.length (filter (fun t => negb (has_exit t)) l).

(** A calculator whose failures (error dict or exception) are replaced by
    a successful breakdown with zero fees. *)
Definition zero_breakdown (s : TradeSide) : breakdown :=
  mkBreakdown s UNKNOWN 0 0 0 0 0 0 0 0.

Definition fee_failed (r : res fee_result) : bool :=
  match r with Ok (FeeBreakdown _) => false | _ => true end.

Definition with_zero_fallback
    (calc : Q -> TradeSide -> option string -> option string -> res fee_result)
    : Q -> TradeSide -> option string -> option string -> res fee_result :=
  fun p s b d =>
    match calc p s b d with
    | Ok (FeeBreakdown x) => Ok (FeeBreakdown x)
    | _ => Ok (FeeBreakdown (zero_breakdown s))
    end.

(** Every [inherits_from]-style value in the schedule is hashable. *)
Definition hashable_parents (cfg : schedule) (ident : string) : bool :=
  forallb (fun ks => match dget (snd ks) ident with
                     | Some (JArr _) | Some (JObj _) => false
                     | _ => true
                     end) cfg.

(** Numeric leaves of a rates section, and non-negative ones. *)
Definition jnumeric (v : jval) : bool :=
  match v with JNum _ | JBool _ => true | _ => false end.

Definition jnonneg (v : jval) : bool :=
  match v with JNum q => Qle_bool 0 q | JBool _ => true | _ => false end.

Definition section_all (f : jval -> bool) (v : option jval) : bool :=
  match v with
  | None => true
  | Some (JObj d) => forallb (fun kv => f (snd kv)) d
  | Some _ => false
  end.

(** The ["broker"] and ["regulatory"] sections are absent or dicts of
    numbers. *)
Definition rates_numeric (rates : dict) : bool :=
  section_all jnumeric (dget rates "broker") && section_all jnumeric (dget rates "regulatory").

(** ... and every configured rate, constant fee and cap is non-negative. *)
Definition rates_nonneg (rates : dict) : bool :=
  section_all jnonneg (dget rates "broker") && section_all jnonneg (dget rates "regulatory").

(** The value [.get(key, default)] reads from a numeric section. *)
Definition jnum_val (v : option jval) (default : Q) : Q :=
  match v with
  | Some (JNum q) => q
  | Some (JBool b) => if b then 1 else 0
  | _ => default
  end.

Definition section_of (rates : dict) (k : string) : dict :=
  match dget rates k with Some (JObj d) => d | _ => [] end.

(** The STT rule as the specification states it (step 5 of the stocks fee
    algorithm), with a missing rate read as 0. *)
Definition spec_stt (principal_value : Q) (side : TradeSide) (holding : HoldingType)
    (rates : dict) : Q :=
  let reg := section_of rates "regulatory" in
  match holding with
  | UNKNOWN => 0
  | DELIVERY =>
      match side with
      | TS_SELL => principal_value * jnum_val (dget reg "stt_delivery") 0
      | _ => 0
      end
  | INTRADAY => principal_value * jnum_val (dget reg "stt_intraday") 0
  end.

(** [max(percentage, constant)] then the cap, as in step 4.1. *)
Definition clamp_brokerage (pct cst : Q) (cap : option Q) : Q :=
  let m := if qlt pct cst then cst else pct in
  match cap with
  | Some c => if qlt c m then c else m
  | None => m
  end.

(** The fee components of [stocks_components] in closed form, for rates
    whose sections hold numbers only. *)
Definition components_of (p : Q) (side : TradeSide) (holding : HoldingType)
    (rates : dict) : components :=
  let br := section_of rates "broker" in
  let reg := section_of rates "regulatory" in
  let rd d k := jnum_val (dget d k) 0 in
  let cap := match dget br ("cap_" ++ side_value side) with
             | Some v => Some (jnum_val (Some v) 0)
             | None => None
             end in
  let brokerage := clamp_brokerage (p * rd br ("rate_" ++ side_value side))
                     (rd br ("const_" ++ side_value side)) cap in
  let etc := p * rd reg "etc_rate" in
  let sebi := p * rd reg "sebi_rate" in
  let stamp := match side with TS_BUY => p * rd reg "stamp_duty_rate" | _ => 0 end in
  let gst := (brokerage + etc + sebi) * rd reg "gst_rate" in
  let stt := match holding, side with
             | DELIVERY, TS_SELL => p * rd reg "stt_delivery"
             | INTRADAY, _ => p * rd reg "stt_intraday"
             | _, _ => 0
             end in
  mkComponents brokerage etc sebi stamp gst stt.

(** A small schedule: 0.1% brokerage on buys, a flat 20 on sells. *)
Definition demo_schedule : schedule :=
  [("base",
    [("stocks",
      JObj [("broker", JObj [("rate_1", JNum (1 # 1000)); ("const_2", JNum 20)]);
            ("regulatory", JObj [("stt_delivery", JNum (1 # 1000));
                                 ("stt_intraday", JNum (1 # 4000))])])]);
   ("zerodha", [("inherits_from", JStr "base")])].

Definition demo_calc : Q -> TradeSide -> option string -> option string -> res fee_result :=
  fun p s b d => calculate_commission_fees IsoFormat.parse demo_schedule "zerodha" p s STOCKS b d.

Definition demo_rates : dict :=
  [("broker", JObj [("rate_1", JNum (1 # 1000)); ("const_2", JNum 20)]);
   ("regulatory", JObj [("stt_delivery", JNum (1 # 1000)); ("stt_intraday", JNum (1 # 4000))])].

Definition fresh_backtester (capital : Q) : backtester :=
  mkBacktester capital capital 0 P_NOT_HELD [] None 0.

Definition demo_bars : list bar :=
  [mkBar "2025-10-01T00:00:00" 100 NO_ACTION;
   mkBar "2025-10-02T00:00:00" 100 BUY_ENTRY;
   mkBar "2025-10-03T00:00:00" 110 NO_ACTION;
   mkBar "2025-10-06T00:00:00" 105 BUY_EXIT;
   mkBar "2025-10-07T00:00:00" 105 BUY_EXIT].

Definition flat_bars : list bar :=
  [mkBar "2025-10-01T00:00:00" 100 NO_ACTION;
   mkBar "2025-10-02T00:00:00" 100 NO_ACTION;
   mkBar "2025-10-03T00:00:00" 100 NO_ACTION].

(** ** [UtilsDict.get_val_list] *)

(** [ret_val[idx] = ...] inside the bounds of [ret_val]. *)
Fixpoint list_set {A} (l : list A) (idx : nat) (v : A) : list A :=
  match l, idx with
  | [], _ => []
  | _ :: l', O => v :: l'
  | x :: l', S idx' => x :: list_set l' idx' v
  end.

(** The [for idx, val in enumerate(key_list)] loop; [my_dict[val]]
    raises [KeyError] on a missing key. *)
Fixpoint get_val_list_loop (my_dict : dict) (ret_val : list jval) (idx : nat)
    (keys : list string) : res (list jval) :=
  match keys with
  | [] => Ok ret_val
  | val :: keys' =>
      match dget my_dict val with
      | Some v => get_val_list_loop my_dict (list_set ret_val idx v) (S idx) keys'
      | None => Raise (KeyError val)
      end
  end.

Definition get_val_list (my_dict : dict) (key_list : list string) : res (list jval) :=
  get_val_list_loop my_dict (repeat JNull (List.length key_list)) 0 key_list.

(** A Python dict has no repeated key. *)
Fixpoint nodup_keys (d : dict) : bool :=
  match d with
  | [] => true
  | (k, _) :: d' => negb (dmem d' k) && nodup_keys d'
  end.

Definition sched_nodup (cfg : schedule) : bool :=
  forallb (fun ks => nodup_keys (snd ks)) cfg.

(** ** [ConfigManager] ([src/src/config_manager.py])

    The three configuration files are read as [Dict[str, dict]].  The
    [print] calls are not modelled.  The interactive debugger that
    [_get_merged_section] enters before raising is the section variable
    [set_trace]: the outcome of the debugger session. *)

Module ConfigManager.

(** [config_data.get(section_id, {})] for an id read from a configuration
    value: a string names a section, a list or object is unhashable, and
    no other value is a key of the dict. *)
Definition section_get (config_data : schedule) (section_id : jval) : res dict :=
  match section_id with
  | JStr s => Ok (match sget config_data s with Some d => d | None => [] end)
  | JArr _ | JObj _ => Raise (TypeError "unhashable type")
  | _ => Ok []
  end.

Section Debugger.

(** [pdb.set_trace()]: the debugger session it opens ends by continuing
    ([Ok tt]) or by an exception ([Raise e]; [bdb.BdbQuit] when stdin is
    not interactive). *)
Variable set_trace : res unit.

(** [_get_merged_section] *)
Definition get_merged_section (config_data : schedule) (section_id : jval)
    (default_key : string) : res dict :=
  let default_section := match sget config_data default_key with Some d => d | None => [] end in
  specific_section <- section_get config_data section_id ;;
  match specific_section with
  | [] =>
      _ <- set_trace ;;
      Raise (ValueError "Section ID not found in the configuration.")
  | _ => Ok (dupdate default_section specific_section)
  end.

(** [for indicator_id in indicator_ids]: a list yields its items, a string
    its characters, a dict its keys; anything else is not iterable. *)
Definition iter_ids (v : jval) : res (list jval) :=
  match v with
  | JArr l => Ok l
  | JStr s => Ok (map (fun c => JStr (String c EmptyString)) (list_ascii_of_string s))
  | JObj d => Ok (map (fun kv => JStr (fst kv)) d)
  | _ => Raise (TypeError "object is not iterable")
  end.

(** [_merge_indicator_params] without the final wrapping: the loop that
    fills [merged_params].  A non-string id never gets past
    [_get_merged_section]. *)
Fixpoint merge_indicator_loop (indicator_ids : list jval) (indicators_config : schedule)
    (merged_params : dict) : res dict :=
  match indicator_ids with
  | [] => Ok merged_params
  | indicator_id :: ids' =>
      indicator_params <- get_merged_section indicators_config indicator_id "default_indicator" ;;
      match indicator_id with
      | JStr s => merge_indicator_loop ids' indicators_config
                    (dset merged_params s (JObj indicator_params))
      | _ => Raise (ValueError "Section ID not found in the configuration.")
      end
  end.

Definition merge_indicator_params (indicator_ids : list jval) (indicators_config : schedule)
    : res dict :=
  merged_params <- merge_indicator_loop indicator_ids indicators_config [] ;;
  Ok [("indicators", JObj merged_params)].

(** [_validate_and_setdefault] *)
Definition validate_and_setdefault (config : dict) : res dict :=
  if negb (dmem config "ticker") then
    Raise (ValueError "Configuration error: 'ticker' is a required field.")
  else if negb (dmem config "strategy_id") then
    Raise (ValueError "Configuration error: 'strategy_id' is a required field.")
  else Ok config.

(** The [while config_id is not None] loop of [recursive_add_config],
    unrolled [fuel] times ([None]: the unrolling was too short).  Ids that
    are not strings are never keys of the dict; [visited_ids] only ever
    holds strings that pass the membership test. *)
Fixpoint recursive_add_loop (fuel : nat) (config_dict : schedule)
    (visited_ids : list string) (merged_config : dict) (config_id : jval)
    : option (res dict) :=
  match fuel with
  | O => None
  | S fuel' =>
      match config_id with
      | JNull => Some (Ok merged_config)
      | JArr _ | JObj _ => Some (Raise (TypeError "unhashable type"))
      | JStr s =>
          if existsb (String.eqb s) visited_ids then Some (Ok merged_config)
          else
            match sget config_dict s with
            | None => Some (Raise (ValueError "Config ID not found"))
            | Some current_config =>
                let merged_config := dupdate current_config merged_config in
                recursive_add_loop fuel' config_dict (s :: visited_ids) merged_config
                  (match dget merged_config "base_id" with Some v => v | None => JNull end)
            end
      | _ => Some (Raise (ValueError "Config ID not found"))
      end
  end.

(** The loop runs at most three iterations (proved below). *)
Definition recursive_add_config (config_dict : schedule) (config_id : option string)
    : res dict :=
  match recursive_add_loop 3 config_dict [] []
          (match config_id with Some s => JStr s | None => JNull end) with
  | Some r => r
  | None => Raise (ValueError "unreachable")
  end.

(** [load_combined_config] *)
Definition load_combined_config (run_configs strategies_configs indicators_configs : schedule)
    (run_id : string) : res dict :=
  run_config <- recursive_add_config run_configs (Some run_id) ;;
  let strategy_id := match dget run_config "strategy_id" with Some v => v | None => JNull end in
  if negb (truthy strategy_id)
  then Raise (ValueError "'strategy_id' not specified for run.")
  else
    merged_strategy_config <- get_merged_section strategies_configs strategy_id "default_strategy" ;;
    indicator_ids <- iter_ids (match dget merged_strategy_config "indicator_ids" with
                               | Some v => v
                               | None => JArr []
                               end) ;;
    merged_indicator_params <- merge_indicator_params indicator_ids indicators_configs ;;
    let combined_config :=
      dupdate (dupdate (dupdate [] run_config) merged_strategy_config) merged_indicator_params in
    validate_and_setdefault combined_config.

End Debugger.

End ConfigManager.

(** ** [Backtester.get_trades] *)

(** One row of the completed-trades frame: the trade, its exit fields and
    the columns [get_trades] adds ([Shares] is replaced by its absolute
    value). *)
Record completed_trade : Type := mkCompleted {
  ct_trade : trade;
  ct_exit : exit_info;
  ct_shares : Q;
  ct_gross_pl : Q;
  ct_total_fees : Q;
  ct_net_pl : Q
}.

Definition complete (t : trade) (x : exit_info) : completed_trade :=
  let sh := Qabs (t_shares t) in
  let gross := match t_type t with
               | Long => (x_price x - t_entry_price t) * sh
               | Short => (t_entry_price t - x_price x) * sh
               end in
  let fees := t_fees_entry t + x_fees x in
  mkCompleted t x sh gross fees (gross - fees).

(** [dropna(subset=['Exit_Price', 'Fees_Entry', 'Fees_Exit'])] keeps the
    records with exit fields. *)
Fixpoint completed_rows (ts : list trade) : list completed_trade :=
  match ts with
  | [] => []
  | t :: ts' =>
      match t_exit t with
      | Some x => complete t x :: completed_rows ts'
      | None => completed_rows ts'
      end
  end.

(** [get_trades]: [pd.DataFrame()] for an empty ledger.  The frame built
    from the records has the columns ['Exit_Price'] and ['Fees_Exit'] only
    when some record has exit fields; otherwise [dropna(subset=...)] raises
    [KeyError] on the missing columns. *)
Definition get_trades (ts : list trade) : res (list completed_trade) :=
  match ts with
  | [] => Ok []
  | _ => if existsb has_exit ts then Ok (completed_rows ts)
         else Raise (KeyError "['Exit_Price', 'Fees_Exit']")
  end.

(** The sum of the ['P/L'] column. *)
Definition total_net_pl (ts : list trade) : Q :=
  fold_left (fun acc c => acc + ct_net_pl c) (completed_rows ts) 0.

(** ** [Backtester._calculate_max_drawdown] *)

Definition qmax (a b : Q) : Q := if qlt a b then b else a.
Definition qmin (a b : Q) : Q := if qlt b a then b else a.

Fixpoint cummax_from (m : Q) (l : list Q) : list Q :=
  match l with
  | [] => []
  | x :: l' => let m' := qmax m x in m' :: cummax_from m' l'
  end.

(** [Series.cummax()] *)
Definition cummax (l : list Q) : list Q :=
  match l with
  | [] => []
  | x :: l' => x :: cummax_from x l'
  end.

Fixpoint map2 {A B C} (f : A -> B -> C) (l1 : list A) (l2 : list B) : list C :=
  match l1, l2 with
  | x :: l1', y :: l2' => f x y :: map2 f l1' l2'
  | _, _ => []
  end.

(** [Series.min()] of a non-empty series. *)
Definition series_min (l : list Q) : Q :=
  match l with
  | [] => 0
  | x :: l' => fold_left qmin l' x
  end.

(** Equity values are account values in the currency; a non-positive
    running maximum (a division by zero or a sign flip in the source) is
    outside the model. *)
Definition calculate_max_drawdown (curve : option (list Q)) : Q :=
  match curve with
  | None | Some [] => 0
  | Some c =>
      let rolling_max := cummax c in
      let drawdown := map2 (fun e m => (e - m) / m) c rolling_max in
      series_min drawdown * 100
  end.

(** ** [Strategy._apply_four_state_strategy_logic] ([src/src/strategy.py]) *)

(** Row [i] of the four boolean series. *)
Record signal_row : Type := mkRow {
  buy_entry : bool;
  sell_entry : bool;
  long_exit : bool;
  short_exit : bool
}.

(** One iteration of [for i in range(1, len(df))]. *)
Definition four_state_step (position : POSITION) (r : signal_row) : POSITION * SIGNAL :=
  match position with
  | P_NOT_HELD =>
      if buy_entry r then (P_BUY, BUY_ENTRY)
      else if sell_entry r then (P_SELL, SELL_ENTRY)
      else (P_NOT_HELD, NO_ACTION)
  | P_BUY => if long_exit r then (P_NOT_HELD, BUY_EXIT) else (P_BUY, NO_ACTION)
  | P_SELL => if short_exit r then (P_NOT_HELD, SELL_EXIT) else (P_SELL, NO_ACTION)
  end.

Fixpoint four_state_loop (position : POSITION) (rows : list signal_row) : list SIGNAL :=
  match rows with
  | [] => []
  | r :: rows' =>
      let '(position', s) := four_state_step position r in
      s :: four_state_loop position' rows'
  end.

(** The position the loop ends in. *)
Fixpoint four_state_position (position : POSITION) (rows : list signal_row) : POSITION :=
  match rows with
  | [] => position
  | r :: rows' => four_state_position (fst (four_state_step position r)) rows'
  end.

(** The ['Signal'] column: [pd.Series(0, ...)], then the loop from row 1.
    The initial [0] is [NO_ACTION] to the backtester, which acts on no
    other value than the four entry and exit signals. *)
Definition apply_four_state_strategy_logic (rows : list signal_row) : list SIGNAL :=
  match rows with
  | [] => []
  | _ :: rows' => NO_ACTION :: four_state_loop P_NOT_HELD rows'
  end.

(** The boolean series of [apply_rsi_ema_crossover] on the rows left by
    [dropna]: each row is the pair (RSI, moving average of the RSI).
    [shift(1, fill_value=False)] is the previous row's value, [False] on
    the first row. *)
Fixpoint rsi_rows_from (prev_buy prev_sell : bool) (rows : list (Q * Q)) (rsi_threshold : Q)
    : list signal_row :=
  match rows with
  | [] => []
  | (rsi, ma) :: rows' =>
      let be := qlt ma rsi && qlt rsi_threshold rsi in
      let se := qlt rsi ma && qlt rsi rsi_threshold in
      mkRow be se (prev_buy && negb be) (prev_sell && negb se)
        :: rsi_rows_from be se rows' rsi_threshold
  end.

Definition rsi_rows (rows : list (Q * Q)) (rsi_threshold : Q) : list signal_row :=
  rsi_rows_from false false rows rsi_threshold.

(** ** Predicates and inputs of the further properties *)

(** A series that never decreases. *)
Fixpoint nondecreasing (l : list Q) : bool :=
  match l with
  | x :: ((y :: _) as l') => Qle_bool x y && nondecreasing l'
  | _ => true
  end.

(** Four rows of entry and exit conditions: a long entry on row 1, held on
    row 2, exited on row 3. *)
Definition strategy_rows : list signal_row :=
  [mkRow false false false false; mkRow true false false false;
   mkRow true false false false; mkRow false true true false].

(** Bars carrying the ['Signal'] column that [strategy_rows] produces. *)
Definition strategy_bars : list bar :=
  [mkBar "2025-10-01T00:00:00" 100 NO_ACTION;
   mkBar "2025-10-02T00:00:00" 100 BUY_ENTRY;
   mkBar "2025-10-03T00:00:00" 110 NO_ACTION;
   mkBar "2025-10-06T00:00:00" 105 BUY_EXIT].

(** ** [Backtester.analyze_performance] ([src/src/backtester.py]) *)

(** [Series.mean()] of a non-empty column of numbers. *)
Definition qmean (l : list Q) : Q :=
  Sharpe.qsum l / inject_Z (Z.of_nat (List.length l)).

(** A numpy float division [a / b]: IEEE, so no exception on [b = 0]. *)
Definition fl_div (a b : Q) : Sharpe.fl :=
  if Qeq_bool b 0
  then (if Qeq_bool a 0 then Sharpe.NaN else Sharpe.Inf (qlt a 0))
  else Sharpe.Fin (a / b).

Definition fl_mul (a : Sharpe.fl) (k : Q) : Sharpe.fl :=
  match a with
  | Sharpe.Fin x => Sharpe.Fin (x * k)
  | x => x
  end.

(** The metrics dict, each entry as the number it formats with
    [:,.2f] or [:.2f]; the counts are entered as they are. *)
Record metrics : Type := mkMetrics {
  m_initial_capital : Q;
  m_final_equity : Q;
  m_total_net_pl : Q;
  m_total_return_pct : Sharpe.fl;
  m_sharpe_ratio : Sharpe.sharpe_out;
  m_max_drawdown_pct : Q;
  m_number_of_trades : nat;
  m_winning_trades : nat;
  m_losing_trades : nat;
  m_win_rate_pct : Q;
  m_average_winning_trade : Q;
  m_average_losing_trade : Q
}.

(** The outcomes of [analyze_performance]: the ["Error"] dict, an
    exception raised by [get_trades], or the metrics. *)
Inductive perf_out : Type :=
| PerfError (msg : string)
| PerfRaise (e : exn)
| PerfMetrics (m : metrics).

(** With a non-empty curve, [self.final_equity] is the numpy float
    [equity_curve.iloc[-1]] set by [run], so [total_profit_loss] is a numpy
    float and its division by the capital follows [fl_div]. *)
Definition analyze_performance (bt : backtester) : perf_out :=
  match equity_curve bt with
  | None | Some [] =>
      PerfError "Backtest has not been run or generated no equity curve."
  | Some _ =>
      let total_profit_loss := final_equity bt - initial_capital bt in
      let total_return_percentage := fl_mul (fl_div total_profit_loss (initial_capital bt)) 100 in
      match get_trades (bt_trades bt) with
      | Raise e => PerfRaise e
      | Ok trades_df =>
      let num_trades := List.length trades_df in
      let pl := map ct_net_pl trades_df in
      let winning_trades := filter (fun x => qlt 0 x) pl in
      let losing_trades := filter (fun x => Qle_bool x 0) pl in
      let '(win_rate, avg_win, avg_loss, winning_trades_count, losing_trades_count) :=
        if (0 <? num_trades)%nat then
          let winning_trades_count := List.length winning_trades in
          let losing_trades_count := List.length losing_trades in
          (inject_Z (Z.of_nat winning_trades_count) / inject_Z (Z.of_nat num_trades) * 100,
           (if (0 <? winning_trades_count)%nat then qmean winning_trades else 0),
           (if (0 <? losing_trades_count)%nat then qmean losing_trades else 0),
           winning_trades_count, losing_trades_count)
        else (0, 0, 0, 0%nat, 0%nat) in
      PerfMetrics (mkMetrics (initial_capital bt) (final_equity bt) total_profit_loss
        total_return_percentage
        (Sharpe.calculate_sharpe_ratio (equity_curve bt) 0)
        (calculate_max_drawdown (equity_curve bt))
        num_trades winning_trades_count losing_trades_count
        win_rate avg_win avg_loss)
      end
  end.

(** ** Inputs and invariants of the further properties *)

Definition three_level_runs : schedule :=
  [("r2", [("base_id", JStr "r1"); ("ticker", JStr "TCS")]);
   ("r1", [("base_id", JStr "r0"); ("strategy_id", JStr "rsi")]);
   ("r0", [("timeframe", JStr "1d")])].

Definition demo_runs : schedule :=
  [("run1", [("base_id", JStr "run0"); ("ticker", JStr "TCS")]);
   ("run0", [("strategy_id", JStr "rsi"); ("ticker", JStr "INFY")])].

Definition demo_strategies : schedule :=
  [("default_strategy", [("indicator_ids", JArr [JStr "rsi14"]); ("ticker", JStr "SBIN")]);
   ("rsi", [("threshold", JNum 50)])].

Definition demo_indicators : schedule :=
  [("default_indicator", [("window", JNum 14)]); ("rsi14", [("window", JNum 14)])].

(** [d.tzinfo is not None] *)
Definition is_aware (d : datetime) : bool :=
  match dt_offset d with Some _ => true | None => false end.

Definition demo_buy_dt : datetime :=
  match IsoFormat.parse "2025-10-09T10:00:00" with Some d => d | None => mkDatetime 0 0 None end.

Definition demo_sell_dt : datetime :=
  match IsoFormat.parse "2025-10-10T10:00:00" with Some d => d | None => mkDatetime 0 0 None end.

Definition capped_rates : dict :=
  [("broker", JObj [("rate_1", JNum (1 # 1000)); ("const_2", JNum 20); ("cap_1", JNum 20)]);
   ("regulatory", JObj [("stamp_duty_rate", JNum (15 # 100000));
                        ("stt_delivery", JNum (1 # 1000)); ("stt_intraday", JNum (1 # 4000));
                        ("gst_rate", JNum (18 # 100))])].

Definition round_trip_bars : list bar :=
  [mkBar "2025-10-02T00:00:00" 100 BUY_ENTRY; mkBar "2025-10-03T00:00:00" 105 BUY_EXIT].

(** The cash bookkeeping of a run with long trades only (no [SELL_ENTRY]
    signal) at positive prices. *)
Definition long_inv (c0 : Q) (st : sim) : Prop :=
  match position st with
  | P_NOT_HELD => cash st == c0 + total_net_pl (trades st)
  | P_BUY =>
      exists pre t, trades st = (pre ++ [t])%list /\ t_exit t = None /\
        t_type t = Long /\ shares st = t_shares t /\ 0 < t_shares t /\ cash st == 0 /\
        t_shares t * t_entry_price t + t_fees_entry t == c0 + total_net_pl pre
  | P_SELL => False
  end.

(** ** Sanity checks on concrete inputs *)

Example iso_parse_naive :
  IsoFormat.parse "2025-10-09T10:00:00"
  = Some (mkDatetime 739533 (36000 * 1000000) None).
Proof. vm_compute. reflexivity. Qed.

Example demo_fee_buy :
  get_trade_fees demo_calc 1000 TS_BUY (Some "2025-10-02T00:00:00") None == 1.
Proof. vm_compute. reflexivity. Qed.

Example demo_run_trades :
  match bt_trades (run demo_calc (fresh_backtester 1000) demo_bars) with
  | [t] => Qeq_bool (t_shares t) (999 # 100) && Qeq_bool (t_fees_entry t) 1
           && match t_exit t with
              | Some x => Qeq_bool (x_fees x) (2105 # 100) && Qeq_bool (x_price x) 105
              | None => false
              end
  | _ => false
  end = true.
Proof. vm_compute. reflexivity. Qed.

(** A two-row frame whose second row opens a short position: the ledger
    is one open record, and [get_trades] raises [KeyError]. *)
Example demo_open_ledger_key_error :
  match analyze_performance (run demo_calc (fresh_backtester 1000)
          [mkBar "2025-10-01T00:00:00" 100 NO_ACTION;
           mkBar "2025-10-02T00:00:00" 100 SELL_ENTRY]) with
  | PerfRaise e => e = KeyError "['Exit_Price', 'Fees_Exit']"
  | _ => False
  end.
Proof. vm_compute. reflexivity. Qed.

(** ** The simulation loop *)

Section SimulatorFacts.

Variable calc : Q -> TradeSide -> option string -> option string -> res fee_result.

Lemma sim_loop_cons : forall st b l,
  sim_loop calc st (b :: l)
  = (fst (sim_loop calc (transition calc st b) l),
     valuation st (b_close b) :: snd (sim_loop calc (transition calc st b) l)).
Proof.
  intros st b l. simpl. destruct (sim_loop calc (transition calc st b) l); reflexivity.
Qed.

(** The [k]-th recorded value is the valuation of the state reached after
    the first [k] bars of the loop, at the closing price of bar [k]. *)
Lemma sim_loop_equity_nth : forall l st k d,
  (k < List.length l)%nat ->
  nth_error (snd (sim_loop calc st l)) k
  = Some (valuation (fst (sim_loop calc st (firstn k l))) (b_close (nth k l d))).
Proof.
  induction l as [|b l IH]; intros st k d Hk; simpl in Hk; [lia|].
  rewrite sim_loop_cons. destruct k as [|k]; cbn [nth_error firstn nth snd].
  - reflexivity.
  - rewrite sim_loop_cons. cbn [fst]. apply IH. lia.
Qed.

Lemma run_unfold : forall bt df,
  run calc bt df =
  let '(st, es) := sim_loop calc (sim_of (reset_state bt)) (tl df) in
  mkBacktester (initial_capital bt) (cash st) (shares st) (position st) (trades st)
    (Some es)
    (let fe := match last_opt es with Some v => v | None => initial_capital bt end in
     if negb (position_eqb (position st) P_NOT_HELD)
        && negb (match es with [] => true | _ => false end)
     then match last_opt es with Some v => v | None => fe end
     else fe).
Proof. reflexivity. Qed.

Lemma run_curve : forall bt df,
  equity_curve (run calc bt df) = Some (snd (sim_loop calc (sim_of (reset_state bt)) (tl df))).
Proof.
  intros bt df. rewrite run_unfold. destruct (sim_loop _ _ _); reflexivity.
Qed.

Lemma run_trades : forall bt df,
  bt_trades (run calc bt df) = trades (fst (sim_loop calc (sim_of (reset_state bt)) (tl df))).
Proof.
  intros bt df. rewrite run_unfold. destruct (sim_loop _ _ _); reflexivity.
Qed.

Lemma run_initial_capital : forall bt df,
  initial_capital (run calc bt df) = initial_capital bt.
Proof.
  intros bt df. rewrite run_unfold. destruct (sim_loop _ _ _); reflexivity.
Qed.

(** [run] reads nothing of the instance but [initial_capital]. *)
Lemma run_capital_only : forall bt bt' df,
  initial_capital bt' = initial_capital bt -> run calc bt' df = run calc bt df.
Proof.
  intros bt bt' df H. unfold run, reset_state. rewrite H. reflexivity.
Qed.

(** ** The single-open-trade invariant *)

Definition trade_inv (st : sim) : Prop :=
  (open_count (trades st) <= 1)%nat /\
  (position st = P_NOT_HELD -> open_count (trades st) = 0%nat).

Lemma open_count_snoc : forall l t,
  open_count (l ++ [t]) = (open_count l + if has_exit t then 0 else 1)%nat.
Proof.
  intros l t. unfold open_count. rewrite filter_app, length_app.
  simpl. destruct (has_exit t); reflexivity.
Qed.

Lemma open_count_cons : forall t l,
  open_count (t :: l) = ((if has_exit t then 0 else 1) + open_count l)%nat.
Proof. intros t l. unfold open_count. simpl. destruct (has_exit t); reflexivity. Qed.

Lemma open_count_close_last : forall l x e,
  last_opt l = Some x -> has_exit x = false ->
  S (open_count (update_last (close_trade e) l)) = open_count l.
Proof.
  induction l as [|y l IH]; intros x e Hl Hx; [discriminate|].
  destruct l as [|z l].
  - simpl in Hl. injection Hl as ->. unfold open_count. simpl. rewrite Hx. reflexivity.
  - change (update_last (close_trade e) (y :: z :: l))
      with (y :: update_last (close_trade e) (z :: l)).
    change (last_opt (y :: z :: l)) with (last_opt (z :: l)) in Hl.
    specialize (IH x e Hl Hx).
    rewrite !open_count_cons. rewrite open_count_cons in IH. lia.
Qed.

Lemma open_count_pos_last : forall l x,
  last_opt l = Some x -> has_exit x = false -> (1 <= open_count l)%nat.
Proof.
  intros l x Hl Hx. rewrite <- (open_count_close_last l x (mkExit "" 0 0) Hl Hx). lia.
Qed.

Lemma transition_inv : forall st b, trade_inv st -> trade_inv (transition calc st b).
Proof.
  intros st b Hinv. pose proof Hinv as [H1 H2]. unfold transition.
  destruct (position st) eqn:Hp; destruct (b_signal b); try exact Hinv.
  - cbv zeta. match goal with |- context [qlt ?a ?c] => destruct (qlt a c) end.
    + split; simpl; [rewrite open_count_snoc; simpl; rewrite H2 by reflexivity; lia
                    | discriminate].
    + exact Hinv.
  - split; simpl; [rewrite open_count_snoc; simpl; rewrite H2 by reflexivity; lia
                  | discriminate].
  - destruct (last_opt (trades st)) as [x|] eqn:Hl; [|exact Hinv].
    destruct (has_exit x) eqn:Hx; [exact Hinv|].
    pose proof (open_count_close_last (trades st) x
                  (mkExit (b_ts b) (b_close b)
                     (get_trade_fees calc (shares st * b_close b) TS_SELL
                        (Some (t_entry_date x)) (Some (b_ts b)))) Hl Hx).
    split; simpl; lia.
  - destruct (last_opt (trades st)) as [x|] eqn:Hl; [|exact Hinv].
    destruct (has_exit x) eqn:Hx; [exact Hinv|].
    pose proof (open_count_close_last (trades st) x
                  (mkExit (b_ts b) (b_close b)
                     (get_trade_fees calc (Qabs (shares st) * b_close b) TS_BUY
                        (Some (t_entry_date x)) (Some (b_ts b)))) Hl Hx).
    split; simpl; lia.
Qed.

Lemma sim_loop_inv : forall l st, trade_inv st -> trade_inv (fst (sim_loop calc st l)).
Proof.
  induction l as [|b l IH]; intros st H; [exact H|].
  rewrite sim_loop_cons. simpl. apply IH, transition_inv, H.
Qed.

Lemma reset_inv : forall bt, trade_inv (sim_of (reset_state bt)).
Proof. intros bt. split; [apply Nat.le_0_l | reflexivity]. Qed.

(** An exit signal with no open last record leaves every variable as it
    was. *)
Lemma exit_without_open_trade : forall st b,
  (b_signal b = BUY_EXIT \/ b_signal b = SELL_EXIT) ->
  no_open_last (trades st) = true ->
  transition calc st b = st.
Proof.
  intros st b Hs Hn. unfold no_open_last in Hn. unfold transition.
  destruct Hs as [Hs|Hs]; rewrite Hs; destruct (position st); try reflexivity;
    destruct (last_opt (trades st)) as [x|]; try reflexivity; rewrite Hn; reflexivity.
Qed.

End SimulatorFacts.

(** Two calculators that yield the same fee for every transaction give
    the same run. *)
Lemma run_fee_ext : forall calc calc' bt df,
  (forall p s b d, get_trade_fees calc p s b d = get_trade_fees calc' p s b d) ->
  run calc bt df = run calc' bt df.
Proof.
  intros calc calc' bt df H.
  assert (Ht : forall st b, transition calc st b = transition calc' st b).
  { intros st b. unfold transition. cbv zeta.
    destruct (position st); destruct (b_signal b); try reflexivity;
      try (destruct (last_opt (trades st)) as [x|]; [destruct (has_exit x)|]);
      rewrite ?H; reflexivity. }
  assert (Hl : forall l st, sim_loop calc st l = sim_loop calc' st l).
  { induction l as [|b l IH]; intros st; [reflexivity|].
    rewrite !sim_loop_cons, Ht, IH. reflexivity. }
  rewrite !run_unfold, Hl. reflexivity.
Qed.


(** ** Claims about the simulator *)

(** C1 (amended): for every bar [i >= 1], the equity value recorded for
    bar [i] is the valuation rule (cash minus [|shares| * price] when
    short, cash plus [shares * price] otherwise) applied at bar [i]'s
    closing price to the state BEFORE bar [i]'s transition, that is the
    state reached after the bars [1 .. i-1]. *)
Theorem equity_uses_pre_transition_state : forall calc bt df i d,
  (1 <= i < List.length df)%nat ->
  exists curve,
    equity_curve (run calc bt df) = Some curve /\
    nth_error curve (i - 1)
    = Some (valuation (fst (sim_loop calc (sim_of (reset_state bt)) (firstn (i - 1) (tl df))))
                      (b_close (nth i df d))).
Proof.
  intros calc bt df i d Hi. rewrite run_curve. eexists. split; [reflexivity|].
  destruct df as [|b0 df]; simpl in Hi; [lia|].
  destruct i as [|k]; [lia|]. cbn [tl nth]. replace (S k - 1)%nat with k by lia.
  apply sim_loop_equity_nth. lia.
Qed.

Lemma equity_uses_pre_transition_state_witness :
  (1 <= 1 < List.length demo_bars)%nat /\
  exists curve,
    equity_curve (run demo_calc (fresh_backtester 1000) demo_bars) = Some curve /\
    nth_error curve 0
    = Some (valuation (fst (sim_loop demo_calc (sim_of (reset_state (fresh_backtester 1000)))
                              (firstn 0 (tl demo_bars))))
                      (b_close (nth 1 demo_bars (mkBar "" 0 NO_ACTION)))).
Proof.
  split; [unfold demo_bars; simpl; lia|].
  apply (equity_uses_pre_transition_state demo_calc (fresh_backtester 1000) demo_bars 1
           (mkBar "" 0 NO_ACTION)).
  unfold demo_bars; simpl; lia.
Defined.

(** C1 as stated fails: with capital 1000 and a BUY_ENTRY at price 100 on
    bar 1 (entry fee 1), the value recorded for bar 1 is 1000, while the
    valuation of the post-transition state (cash 0, 9.99 shares) at
    price 100 is 999. *)
Lemma equity_post_transition_counterexample :
  match equity_curve (run demo_calc (fresh_backtester 1000) demo_bars) with
  | Some curve =>
      match nth_error curve 0 with
      | Some e =>
          Qeq_bool e
            (valuation (fst (sim_loop demo_calc (sim_of (reset_state (fresh_backtester 1000)))
                               (firstn 1 (tl demo_bars))))
                       (b_close (nth 1 demo_bars (mkBar "" 0 NO_ACTION))))
      | None => true
      end
  | None => true
  end = false.
Proof. vm_compute. reflexivity. Qed.

(** C5: at every point of a run at most one trade record lacks exit
    fields, also in the ledger left by [run]; and an exit signal when the
    last record already has exit fields (or there is none) changes
    nothing: no second close, no change to the closed record. *)
Theorem single_open_trade : forall calc bt df k,
  (open_count (trades (fst (sim_loop calc (sim_of (reset_state bt)) (firstn k (tl df))))) <= 1)%nat /\
  (open_count (bt_trades (run calc bt df)) <= 1)%nat /\
  (forall st b, (b_signal b = BUY_EXIT \/ b_signal b = SELL_EXIT) ->
                no_open_last (trades st) = true ->
                transition calc st b = st).
Proof.
  intros calc bt df k. split; [|split].
  - apply sim_loop_inv, reset_inv.
  - rewrite run_trades. apply sim_loop_inv, reset_inv.
  - apply exit_without_open_trade.
Qed.

Lemma single_open_trade_witness :
  no_open_last (trades (fst (sim_loop demo_calc (sim_of (reset_state (fresh_backtester 1000)))
                              (firstn 3 (tl demo_bars))))) = true /\
  transition demo_calc
    (fst (sim_loop demo_calc (sim_of (reset_state (fresh_backtester 1000)))
            (firstn 3 (tl demo_bars))))
    (nth 3 (tl demo_bars) (mkBar "" 0 NO_ACTION))
  = fst (sim_loop demo_calc (sim_of (reset_state (fresh_backtester 1000)))
           (firstn 3 (tl demo_bars))).
Proof.
  destruct (single_open_trade demo_calc (fresh_backtester 1000) demo_bars 3) as (_ & _ & H).
  split; [vm_compute; reflexivity|].
  apply H; [left; reflexivity | vm_compute; reflexivity].
Defined.

(** C7: a failing fee calculation (an error dict or an exception) counts
    as a fee of exactly 0 and the run goes on: the run is the one obtained
    when every failing calculation is replaced by a zero-fee breakdown. *)
Theorem fee_failure_falls_back_to_zero : forall calc bt df,
  run calc bt df = run (with_zero_fallback calc) bt df /\
  (forall p s b d, fee_failed (calc p s b d) = true -> get_trade_fees calc p s b d = 0).
Proof.
  intros calc bt df. split.
  - apply run_fee_ext. intros p s b d. unfold get_trade_fees, with_zero_fallback.
    destruct (calc p s b d) as [[x|m]|e]; reflexivity.
  - intros p s b d H. unfold get_trade_fees. unfold fee_failed in H.
    destruct (calc p s b d) as [[x|m]|e]; [discriminate | reflexivity | reflexivity].
Qed.

Lemma fee_failure_falls_back_to_zero_witness :
  fee_failed (calculate_commission_fees IsoFormat.parse demo_schedule "unknown_broker"
                1000 TS_BUY STOCKS (Some "2025-10-02T00:00:00") None) = true /\
  get_trade_fees (fun p s b d => calculate_commission_fees IsoFormat.parse demo_schedule
                                   "unknown_broker" p s STOCKS b d)
    1000 TS_BUY (Some "2025-10-02T00:00:00") None = 0.
Proof.
  split; [vm_compute; reflexivity|].
  apply (proj2 (fee_failure_falls_back_to_zero
                  (fun p s b d => calculate_commission_fees IsoFormat.parse demo_schedule
                                    "unknown_broker" p s STOCKS b d)
                  (fresh_backtester 1000) demo_bars)).
  vm_compute. reflexivity.
Defined.

(** C10: [run] starts from cash = initial capital, no shares, no position
    and an empty ledger, so a second run on the same instance gives the
    same result, as does a run on any instance with the same initial
    capital. *)
Theorem run_resets_state : forall calc bt df,
  sim_of (reset_state bt) = mkSim (initial_capital bt) 0 P_NOT_HELD [] None /\
  run calc (run calc bt df) df = run calc bt df /\
  (forall bt', initial_capital bt' = initial_capital bt -> run calc bt' df = run calc bt df).
Proof.
  intros calc bt df. split; [reflexivity|]. split.
  - apply run_capital_only, run_initial_capital.
  - intros bt' H. apply run_capital_only, H.
Qed.

Lemma run_resets_state_witness :
  run demo_calc (mkBacktester 1000 5 3 P_SELL [] (Some [1]) 7) demo_bars
  = run demo_calc (fresh_backtester 1000) demo_bars.
Proof.
  apply (proj2 (proj2 (run_resets_state demo_calc (fresh_backtester 1000) demo_bars))).
  reflexivity.
Defined.

(** ** Termination of the inheritance walk *)

Lemma chain_loop_exits : forall fuel cfg ident chain cur depth,
  (depth <= Merge.max_depth)%nat -> (S Merge.max_depth <= depth + fuel)%nat ->
  Merge.chain_loop fuel cfg ident chain cur depth <> Merge.LFuel.
Proof.
  induction fuel as [|fuel IH]; intros cfg ident chain cur depth Hd Hf;
    [unfold Merge.max_depth in *; lia|].
  simpl. destruct (Nat.ltb Merge.max_depth (S depth)) eqn:Hlt; [discriminate|].
  apply Nat.ltb_ge in Hlt.
  destruct (existsb _ _); [discriminate|].
  destruct (dget _ ident) as [[| | | p | |]|]; try discriminate.
  destruct (smem cfg p); [|discriminate].
  apply IH; lia.
Qed.

Lemma chain_loop_fuel_irrelevant : forall n m cfg ident chain cur depth,
  (depth <= Merge.max_depth)%nat ->
  (S Merge.max_depth <= depth + n)%nat -> (S Merge.max_depth <= depth + m)%nat ->
  Merge.chain_loop n cfg ident chain cur depth = Merge.chain_loop m cfg ident chain cur depth.
Proof.
  induction n as [|n IH]; intros m cfg ident chain cur depth Hd Hn Hm;
    [unfold Merge.max_depth in *; lia|].
  destruct m as [|m]; [unfold Merge.max_depth in *; lia|].
  simpl. destruct (Nat.ltb Merge.max_depth (S depth)) eqn:Hlt; [reflexivity|].
  apply Nat.ltb_ge in Hlt.
  destruct (existsb _ _); [reflexivity|].
  destruct (dget _ ident) as [[| | | p | |]|]; try reflexivity.
  destruct (smem cfg p); [|reflexivity].
  apply IH; lia.
Qed.

Lemma get_merged_section_fuel_stable : forall n cfg key base_id ident,
  (S Merge.max_depth <= n)%nat ->
  Merge.get_merged_section_fuel n cfg key base_id ident
  = Some (Merge.get_merged_section cfg key base_id ident).
Proof.
  intros n cfg key base_id ident Hn.
  unfold Merge.get_merged_section, Merge.get_merged_section_fuel, Merge.chain_merge.
  destruct (sget cfg key) as [ds|]; [|reflexivity].
  assert (Hc : forall id, Merge.chain_loop n cfg id [key] key 0
                          = Merge.chain_loop (S Merge.max_depth) cfg id [key] key 0
                          /\ Merge.chain_loop (S Merge.max_depth) cfg id [key] key 0 <> Merge.LFuel).
  { intros id. split.
    - apply chain_loop_fuel_irrelevant; unfold Merge.max_depth in *; lia.
    - apply chain_loop_exits; unfold Merge.max_depth; lia. }
  destruct base_id as [bk|]; [destruct (Merge.str_truthy (Some bk))|];
    try (destruct (sget cfg bk); reflexivity);
    (destruct ident as [id|]; [|reflexivity]);
    (destruct (Merge.str_truthy (Some id)); [|reflexivity]);
    destruct (Hc id) as [-> Hx];
    destruct (Merge.chain_loop (S Merge.max_depth) cfg id [key] key 0); try reflexivity;
    contradiction.
Qed.

Lemma hashable_parents_sget : forall cfg ident cur,
  hashable_parents cfg ident = true ->
  match dget (match sget cfg cur with Some s => s | None => [] end) ident with
  | Some (JArr _) | Some (JObj _) => False
  | _ => True
  end.
Proof.
  induction cfg as [|[k s] cfg IH]; intros ident cur H; [exact I|].
  simpl in H. apply andb_prop in H as [Hs Hr]. simpl.
  destruct (String.eqb cur k).
  - destruct (dget s ident) as [[| | | | |]|]; try exact I; discriminate.
  - apply IH, Hr.
Qed.

Lemma chain_loop_value_error : forall fuel cfg ident chain cur depth e,
  hashable_parents cfg ident = true ->
  Merge.chain_loop fuel cfg ident chain cur depth = Merge.LRaise e ->
  is_value_error e = true.
Proof.
  induction fuel as [|fuel IH]; intros cfg ident chain cur depth e Hh H; [discriminate|].
  simpl in H. destruct (Nat.ltb _ _); [injection H as <-; reflexivity|].
  destruct (existsb _ _); [injection H as <-; reflexivity|].
  pose proof (hashable_parents_sget cfg ident cur Hh) as Hp.
  destruct (dget _ ident) as [[| | | p | |]|]; try discriminate;
    try (injection H as <-; reflexivity); try contradiction.
  destruct (smem cfg p); [|injection H as <-; reflexivity].
  eapply IH; eassumption.
Qed.

Lemma chain_loop_raise_kinds : forall fuel cfg ident chain cur depth e,
  Merge.chain_loop fuel cfg ident chain cur depth = Merge.LRaise e ->
  is_value_error e = true \/ e = TypeError "unhashable type".
Proof.
  induction fuel as [|fuel IH]; intros cfg ident chain cur depth e H; [discriminate|].
  simpl in H. destruct (Nat.ltb _ _); [injection H as <-; left; reflexivity|].
  destruct (existsb _ _); [injection H as <-; left; reflexivity|].
  destruct (dget _ ident) as [[| | | p | |]|]; try discriminate;
    try (injection H as <-; first [left; reflexivity | right; reflexivity]).
  destruct (smem cfg p); [|injection H as <-; left; reflexivity].
  eapply IH; eassumption.
Qed.

(** C9 (amended): [get_merged_section] terminates on every schedule: the
    [while True] walk of the inheritance chain leaves the loop within
    [max_depth + 1 = 51] iterations, so every longer unrolling gives the
    same result.  It raises only [ValueError] or [TypeError] (unhashable).
    When no [inherits_from] value of the schedule is a list or an object,
    the result is a merged section or a [ValueError].  When the chain is
    followed (no non-empty [base_key_id], a non-empty identifier) and the
    derived section's own [inherits_from] is a list or an object, it
    raises [TypeError] (unhashable). *)
Theorem merged_section_terminates : forall cfg key base_id ident,
  (forall n, (S Merge.max_depth <= n)%nat ->
     Merge.get_merged_section_fuel n cfg key base_id (Some ident)
     = Some (Merge.get_merged_section cfg key base_id (Some ident))) /\
  match Merge.get_merged_section cfg key base_id (Some ident) with
  | Ok _ => True
  | Raise e => is_value_error e = true \/ e = TypeError "unhashable type"
  end /\
  (hashable_parents cfg ident = true ->
     match Merge.get_merged_section cfg key base_id (Some ident) with
     | Ok _ => True
     | Raise e => is_value_error e = true
     end) /\
  (forall ds, Merge.str_truthy base_id = false -> ident <> "" ->
     sget cfg key = Some ds ->
     match dget ds ident with Some (JArr _) | Some (JObj _) => True | _ => False end ->
     Merge.get_merged_section cfg key base_id (Some ident) = Raise (TypeError "unhashable type")).
Proof.
  intros cfg key base_id ident. split; [|split; [|split]].
  - intros n Hn. apply get_merged_section_fuel_stable, Hn.
  - unfold Merge.get_merged_section, Merge.get_merged_section_fuel,
      Merge.chain_merge.
    destruct (sget cfg key) as [ds|]; [|left; reflexivity].
    destruct base_id as [bk|]; [destruct (Merge.str_truthy (Some bk))|];
      try (destruct (sget cfg bk); [exact I | left; reflexivity]);
      (destruct (Merge.str_truthy (Some ident)); [|exact I]);
      destruct (Merge.chain_loop (S Merge.max_depth) cfg ident [key] key 0) as [c|e|] eqn:Hl;
      try exact I;
      try (eapply chain_loop_raise_kinds; eassumption);
      left; reflexivity.
  - intros Hh. unfold Merge.get_merged_section, Merge.get_merged_section_fuel,
      Merge.chain_merge.
    destruct (sget cfg key) as [ds|]; [|reflexivity].
    destruct base_id as [bk|]; [destruct (Merge.str_truthy (Some bk))|];
      try (destruct (sget cfg bk); [exact I | reflexivity]);
      (destruct (Merge.str_truthy (Some ident)); [|exact I]);
      destruct (Merge.chain_loop (S Merge.max_depth) cfg ident [key] key 0) as [c|e|] eqn:Hl;
      try exact I;
      try (eapply chain_loop_value_error; eassumption);
      reflexivity.
  - intros ds Hb Hi Hk Hd.
    assert (Ht : Merge.str_truthy (Some ident) = true).
    { cbn [Merge.str_truthy]. destruct (String.eqb_spec ident ""); [contradiction|reflexivity]. }
    unfold Merge.get_merged_section, Merge.get_merged_section_fuel, Merge.chain_merge.
    rewrite Hk.
    assert (Hl : Merge.chain_loop (S Merge.max_depth) cfg ident [key] key 0
                 = Merge.LRaise (TypeError "unhashable type")).
    { cbn [Merge.chain_loop]. rewrite Hk.
      change (Nat.ltb Merge.max_depth 1) with false. cbn iota.
      change (existsb (String.eqb key) (removelast [key])) with false. cbn iota.
      destruct (dget ds ident) as [[| | | | |]|]; try contradiction; reflexivity. }
    destruct base_id as [bk|]; [rewrite Hb|]; rewrite Ht, Hl; reflexivity.
Qed.

Lemma merged_section_terminates_witness :
  (hashable_parents [("a", [("inherits_from", JStr "b")]); ("b", [("inherits_from", JStr "a")])]
     "inherits_from" = true /\
   match Merge.get_merged_section
           [("a", [("inherits_from", JStr "b")]); ("b", [("inherits_from", JStr "a")])]
           "a" None (Some "inherits_from") with
   | Ok _ => True
   | Raise e => is_value_error e = true
   end) /\
  Merge.get_merged_section [("a", [("inherits_from", JArr [])])] "a" None (Some "inherits_from")
  = Raise (TypeError "unhashable type").
Proof.
  split; [split; [reflexivity|]|].
  - apply (proj1 (proj2 (proj2 (merged_section_terminates
                  [("a", [("inherits_from", JStr "b")]); ("b", [("inherits_from", JStr "a")])]
                  "a" None "inherits_from")))).
    reflexivity.
  - apply (proj2 (proj2 (proj2 (merged_section_terminates
                  [("a", [("inherits_from", JArr [])])] "a" None "inherits_from")))
             [("inherits_from", JArr [])]).
    + reflexivity.
    + discriminate.
    + reflexivity.
    + exact I.
Defined.

(** C9 as stated fails: an [inherits_from] value that is a JSON list is
    unhashable, and the [parent_id not in config_data] test raises
    [TypeError], not [ValueError]. *)
Lemma merged_section_type_error_counterexample :
  Merge.get_merged_section [("a", [("inherits_from", JArr [])])] "a" None (Some "inherits_from")
  = Raise (TypeError "unhashable type").
Proof. vm_compute. reflexivity. Qed.

(** ** Rounding *)

Lemma qlt_true : forall a b, qlt a b = true <-> a < b.
Proof.
  intros a b. unfold qlt. rewrite negb_true_iff. split.
  - intros H. apply Qnot_le_lt. intros Hle. apply Qle_bool_iff in Hle. congruence.
  - intros H. destruct (Qle_bool b a) eqn:E; [|reflexivity].
    apply Qle_bool_iff in E. exfalso. apply (Qlt_not_le a b H E).
Qed.

Lemma qlt_false : forall a b, qlt a b = false <-> b <= a.
Proof.
  intros a b. unfold qlt. rewrite negb_false_iff. apply Qle_bool_iff.
Qed.

Lemma round_half_even_bounds : forall x,
  (Qfloor x <= round_half_even x <= Qfloor x + 1)%Z.
Proof.
  intros x. unfold round_half_even.
  destruct (Qcompare (x - inject_Z (Qfloor x)) (1 # 2)); [destruct (Z.even (Qfloor x))|..]; lia.
Qed.

Lemma round_half_even_mono : forall x y, x <= y ->
  (round_half_even x <= round_half_even y)%Z.
Proof.
  intros x y Hxy. pose proof (Qfloor_resp_le x y Hxy) as Hf.
  destruct (Z.lt_ge_cases (Qfloor x) (Qfloor y)) as [Hlt|Hge].
  - pose proof (round_half_even_bounds x). pose proof (round_half_even_bounds y). lia.
  - assert (Heq : Qfloor y = Qfloor x) by lia.
    unfold round_half_even. rewrite Heq. set (f := Qfloor x).
    destruct (Qcompare_spec (x - inject_Z f) (1 # 2)) as [H1|H1|H1];
    destruct (Qcompare_spec (y - inject_Z f) (1 # 2)) as [H2|H2|H2];
    try (destruct (Z.even f); lia); exfalso; lra.
Qed.

Lemma round2_mono : forall x y, x <= y -> round2 x <= round2 y.
Proof.
  intros x y H. unfold round2, Qdiv.
  apply Qmult_le_compat_r; [|discriminate].
  rewrite <- Zle_Qle. apply round_half_even_mono.
  apply Qmult_le_compat_r; [exact H | discriminate].
Qed.

Lemma round2_nonneg : forall x, 0 <= x -> 0 <= round2 x.
Proof.
  intros x H. apply (round2_mono 0 x) in H.
  eapply Qle_trans; [|exact H]. apply Qle_bool_iff. reflexivity.
Qed.

(** ** Numeric rate sections *)

Lemma dget_forallb : forall (f : jval -> bool) (d : dict) k v,
  forallb (fun kv => f (snd kv)) d = true -> dget d k = Some v -> f v = true.
Proof.
  intros f d k v. induction d as [|[k' v'] d IH]; simpl; [discriminate|].
  rewrite andb_true_iff. intros [H1 H2].
  destruct (String.eqb k k'); [intros E; injection E as <-; exact H1 | exact (IH H2)].
Qed.

Lemma num_get_numeric : forall d k dflt,
  forallb (fun kv => jnumeric (snd kv)) d = true ->
  num_get d k dflt = Ok (jnum_val (dget d k) dflt).
Proof.
  intros d k dflt H. unfold num_get, jnum_val.
  destruct (dget d k) as [v|] eqn:E; [|reflexivity].
  pose proof (dget_forallb _ _ _ _ H E) as Hv. destruct v; try discriminate; reflexivity.
Qed.

Lemma cap_get_numeric : forall d k,
  forallb (fun kv => jnumeric (snd kv)) d = true ->
  cap_get d k = Ok (match dget d k with
                    | Some v => Some (jnum_val (Some v) 0)
                    | None => None
                    end).
Proof.
  intros d k H. unfold cap_get, jnum_val.
  destruct (dget d k) as [v|] eqn:E; [|reflexivity].
  pose proof (dget_forallb _ _ _ _ H E) as Hv. destruct v; try discriminate; reflexivity.
Qed.

Lemma get_dict_numeric : forall rates k,
  section_all jnumeric (dget rates k) = true ->
  get_dict rates k = Ok (section_of rates k) /\
  forallb (fun kv => jnumeric (snd kv)) (section_of rates k) = true.
Proof.
  intros rates k H. unfold get_dict, section_of, section_all in *.
  destruct (dget rates k) as [[]|]; try discriminate; split; auto.
Qed.

Lemma stocks_components_closed : forall p side holding rates,
  rates_numeric rates = true ->
  stocks_components p side holding rates = Ok (components_of p side holding rates).
Proof.
  intros p side holding rates H. unfold rates_numeric in H.
  apply andb_true_iff in H as [Hb Hr].
  destruct (get_dict_numeric _ _ Hb) as [Gb Nb].
  destruct (get_dict_numeric _ _ Hr) as [Gr Nr].
  unfold stocks_components. rewrite Gb, Gr. cbn [res_bind].
  repeat rewrite (num_get_numeric _ _ _ Nb).
  rewrite (cap_get_numeric _ _ Nb).
  repeat rewrite (num_get_numeric _ _ _ Nr).
  unfold components_of, clamp_brokerage.
  destruct side, holding; reflexivity.
Qed.

Lemma calculate_stocks_fees_closed : forall p side holding rates,
  rates_numeric rates = true ->
  calculate_stocks_fees p side holding rates =
  Ok (let c := components_of p side holding rates in
      mkBreakdown side holding (round2 p)
        (round2 (c_brokerage c)) (round2 (c_etc c)) (round2 (c_sebi c))
        (round2 (c_stamp c)) (round2 (c_gst c)) (round2 (c_stt c))
        (round2 (c_total c))).
Proof.
  intros p side holding rates H. unfold calculate_stocks_fees.
  rewrite (stocks_components_closed _ _ _ _ H). reflexivity.
Qed.

Lemma forallb_nonneg_numeric : forall d : dict,
  forallb (fun kv => jnonneg (snd kv)) d = true ->
  forallb (fun kv => jnumeric (snd kv)) d = true.
Proof.
  induction d as [|[k v] d IH]; simpl; [reflexivity|].
  rewrite !andb_true_iff. intros [H1 H2]. split; [|exact (IH H2)].
  destruct v; try discriminate; reflexivity.
Qed.

Lemma section_all_nonneg_numeric : forall v,
  section_all jnonneg v = true -> section_all jnumeric v = true.
Proof.
  intros [[]|]; simpl; try discriminate; auto using forallb_nonneg_numeric.
Qed.

Lemma rates_nonneg_numeric : forall rates,
  rates_nonneg rates = true -> rates_numeric rates = true.
Proof.
  intros rates H. unfold rates_nonneg, rates_numeric in *.
  apply andb_true_iff in H as [H1 H2].
  rewrite (section_all_nonneg_numeric _ H1), (section_all_nonneg_numeric _ H2).
  reflexivity.
Qed.

Lemma section_of_nonneg : forall rates k,
  section_all jnonneg (dget rates k) = true ->
  forallb (fun kv => jnonneg (snd kv)) (section_of rates k) = true.
Proof.
  intros rates k H. unfold section_of, section_all in *.
  destruct (dget rates k) as [[]|]; try discriminate; auto.
Qed.

Lemma jnum_val_nonneg : forall d k,
  forallb (fun kv => jnonneg (snd kv)) d = true -> 0 <= jnum_val (dget d k) 0.
Proof.
  intros d k H. unfold jnum_val.
  destruct (dget d k) as [v|] eqn:E; [|apply Qle_refl].
  pose proof (dget_forallb _ _ _ _ H E) as Hv.
  destruct v as [|b|q| | |]; try discriminate.
  - destruct b; discriminate.
  - apply Qle_bool_iff. exact Hv.
Qed.

Ltac qlt_cases :=
  repeat match goal with
  | |- context [qlt ?x ?y] =>
      lazymatch x with context [qlt _ _] => fail | _ => idtac end;
      lazymatch y with context [qlt _ _] => fail | _ => idtac end;
      let E := fresh "E" in
      destruct (qlt x y) eqn:E;
      [apply qlt_true in E | apply qlt_false in E];
      cbv beta iota zeta in *
  end.

Lemma clamp_brokerage_nonneg : forall pct cst cap,
  0 <= cst -> (forall c, cap = Some c -> 0 <= c) ->
  0 <= clamp_brokerage pct cst cap.
Proof.
  intros pct cst cap Hc Hcap. unfold clamp_brokerage.
  destruct cap as [c|]; [specialize (Hcap c eq_refl)|]; qlt_cases; lra.
Qed.

Lemma clamp_brokerage_mono : forall a b cst cap,
  a <= b -> clamp_brokerage a cst cap <= clamp_brokerage b cst cap.
Proof.
  intros a b cst cap H. unfold clamp_brokerage.
  destruct cap as [c|]; qlt_cases; lra.
Qed.

Lemma components_of_mono : forall p1 p2 side holding rates,
  rates_nonneg rates = true -> p1 <= p2 ->
  0 <= c_brokerage (components_of p1 side holding rates) /\
  c_total (components_of p1 side holding rates) <=
  c_total (components_of p2 side holding rates).
Proof.
  intros p1 p2 side holding rates H Hp.
  unfold rates_nonneg in H. apply andb_true_iff in H as [Hb Hr].
  pose proof (section_of_nonneg _ _ Hb) as Nb.
  pose proof (section_of_nonneg _ _ Hr) as Nr.
  set (br := section_of rates "broker") in *.
  set (reg := section_of rates "regulatory") in *.
  assert (Hcap : forall c, match dget br ("cap_" ++ side_value side) with
                           | Some v => Some (jnum_val (Some v) 0)
                           | None => None
                           end = Some c -> 0 <= c).
  { intros c. pose proof (jnum_val_nonneg br ("cap_" ++ side_value side) Nb) as Hn.
    destruct (dget br ("cap_" ++ side_value side)) as [v|]; [|discriminate].
    intros Ec. injection Ec as <-. exact Hn. }
  assert (Hmul : forall k, p1 * jnum_val (dget reg k) 0 <= p2 * jnum_val (dget reg k) 0).
  { intros k. apply Qmult_le_compat_r; [exact Hp | apply jnum_val_nonneg, Nr]. }
  pose proof (jnum_val_nonneg reg "gst_rate" Nr) as Hg.
  pose proof (clamp_brokerage_nonneg (p1 * jnum_val (dget br ("rate_" ++ side_value side)) 0)
                (jnum_val (dget br ("const_" ++ side_value side)) 0) _
                (jnum_val_nonneg _ _ Nb) Hcap) as HB.
  pose proof (clamp_brokerage_mono (p1 * jnum_val (dget br ("rate_" ++ side_value side)) 0)
                (p2 * jnum_val (dget br ("rate_" ++ side_value side)) 0)
                (jnum_val (dget br ("const_" ++ side_value side)) 0)
                (match dget br ("cap_" ++ side_value side) with
                 | Some v => Some (jnum_val (Some v) 0)
                 | None => None
                 end)
                (Qmult_le_compat_r _ _ _ Hp (jnum_val_nonneg _ _ Nb))) as HM.
  unfold components_of, c_total. fold br reg. cbn [c_brokerage c_etc c_sebi c_stamp c_gst c_stt].
  set (B1 := clamp_brokerage _ _ _) in *.
  set (B2 := clamp_brokerage (p2 * _) _ _) in *.
  split; [exact HB|].
  pose proof (Hmul "etc_rate") as He. pose proof (Hmul "sebi_rate") as Hs.
  pose proof (Hmul "stamp_duty_rate") as Hst.
  pose proof (Hmul "stt_delivery") as Hd. pose proof (Hmul "stt_intraday") as Hi.
  assert (HG : (B1 + p1 * jnum_val (dget reg "etc_rate") 0 + p1 * jnum_val (dget reg "sebi_rate") 0)
                 * jnum_val (dget reg "gst_rate") 0 <=
               (B2 + p2 * jnum_val (dget reg "etc_rate") 0 + p2 * jnum_val (dget reg "sebi_rate") 0)
                 * jnum_val (dget reg "gst_rate") 0).
  { apply Qmult_le_compat_r; [lra | exact Hg]. }
  destruct side, holding; lra.
Qed.

(** ** Fee claims *)

(** C6: when every configured rate, constant fee and cap is non-negative,
    the brokerage of a stocks trade is never negative (unrounded and as
    returned), and for principals [0 < p1 <= p2] with the same rates, side
    and holding type the total fee at [p1] is at most the total fee at
    [p2], both the unrounded [total_fees] and the returned rounded TOTAL. *)
Theorem fees_nonneg_and_monotone : forall p1 p2 side holding rates,
  rates_nonneg rates = true -> 0 < p1 -> p1 <= p2 ->
  exists c1 c2 b1 b2,
    stocks_components p1 side holding rates = Ok c1 /\
    stocks_components p2 side holding rates = Ok c2 /\
    calculate_stocks_fees p1 side holding rates = Ok b1 /\
    calculate_stocks_fees p2 side holding rates = Ok b2 /\
    0 <= c_brokerage c1 /\ 0 <= bd_brokerage b1 /\
    c_total c1 <= c_total c2 /\ bd_total b1 <= bd_total b2.
Proof.
  intros p1 p2 side holding rates H _ Hp.
  pose proof (rates_nonneg_numeric _ H) as Hn.
  destruct (components_of_mono p1 p2 side holding rates H Hp) as [HB HT].
  do 4 eexists. split; [apply (stocks_components_closed _ _ _ _ Hn)|].
  split; [apply (stocks_components_closed _ _ _ _ Hn)|].
  split; [apply (calculate_stocks_fees_closed _ _ _ _ Hn)|].
  split; [apply (calculate_stocks_fees_closed _ _ _ _ Hn)|].
  cbn [bd_brokerage bd_total].
  split; [exact HB|]. split; [apply round2_nonneg; exact HB|].
  split; [exact HT | apply round2_mono; exact HT].
Qed.

Lemma fees_nonneg_and_monotone_witness :
  rates_nonneg demo_rates = true /\ 0 < 1000 /\ 1000 <= 2000 /\
  exists c1 c2 b1 b2,
    stocks_components 1000 TS_SELL DELIVERY demo_rates = Ok c1 /\
    stocks_components 2000 TS_SELL DELIVERY demo_rates = Ok c2 /\
    calculate_stocks_fees 1000 TS_SELL DELIVERY demo_rates = Ok b1 /\
    calculate_stocks_fees 2000 TS_SELL DELIVERY demo_rates = Ok b2 /\
    0 <= c_brokerage c1 /\ 0 <= bd_brokerage b1 /\
    c_total c1 <= c_total c2 /\ bd_total b1 <= bd_total b2.
Proof.
  split; [reflexivity|]. split; [lra|]. split; [lra|].
  apply (fees_nonneg_and_monotone 1000 2000 TS_SELL DELIVERY demo_rates);
    [reflexivity | lra | lra].
Defined.

(** C4: for rate sections of numbers, the STT entry of the returned stocks
    breakdown is the STT rule of the specification (0 for UNKNOWN holding
    and for a DELIVERY buy, principal * stt_delivery for a DELIVERY sell,
    principal * stt_intraday for INTRADAY on either side, a missing rate
    read as 0) rounded to 2 decimal places; the unrounded STT component is
    the rule itself. *)
Theorem stt_component_rounded : forall p side holding rates,
  rates_numeric rates = true ->
  exists b c,
    calculate_stocks_fees p side holding rates = Ok b /\
    bd_stt b = round2 (spec_stt p side holding rates) /\
    stocks_components p side holding rates = Ok c /\
    c_stt c = spec_stt p side holding rates.
Proof.
  intros p side holding rates H.
  do 2 eexists. split; [apply (calculate_stocks_fees_closed _ _ _ _ H)|].
  split; [|split; [apply (stocks_components_closed _ _ _ _ H)|]];
  cbv zeta; cbn [bd_stt]; unfold components_of, spec_stt; cbn [c_stt];
  destruct side, holding; reflexivity.
Qed.

Lemma stt_component_rounded_witness :
  rates_numeric demo_rates = true /\
  exists b c,
    calculate_stocks_fees 1234 TS_SELL DELIVERY demo_rates = Ok b /\
    bd_stt b = round2 (spec_stt 1234 TS_SELL DELIVERY demo_rates) /\
    stocks_components 1234 TS_SELL DELIVERY demo_rates = Ok c /\
    c_stt c = spec_stt 1234 TS_SELL DELIVERY demo_rates.
Proof.
  split; [reflexivity|].
  apply (stt_component_rounded 1234 TS_SELL DELIVERY demo_rates). reflexivity.
Defined.




(** ** Sharpe ratio *)

(** C3: a run over three flat bars records the equity curve [1000; 1000],
    which has a single daily return; its sample standard deviation is NaN,
    the guard [std() == 0 or len(...) == 0] does not fire, and the Sharpe
    ratio is NaN, not 0. *)
Theorem sharpe_single_return_nan :
  Sharpe.calculate_sharpe_ratio
    (equity_curve (run demo_calc (fresh_backtester 1000) flat_bars)) 0 = Sharpe.SNaN.
Proof. vm_compute. reflexivity. Qed.

(** ** Holding type *)

(** C8: two well-formed timestamps, one without and one with a UTC offset,
    make the classifier raise [TypeError] from the unguarded [sell_dt <=
    buy_dt] comparison instead of returning a holding type. *)
Theorem holding_type_mixed_offsets_raise :
  determine_holding_type IsoFormat.parse
    (Some "2025-10-09T10:00:00") (Some "2025-10-10T10:00:00+05:30")
  = Raise (TypeError "can't compare offset-naive and offset-aware datetimes").
Proof. vm_compute. reflexivity. Qed.

(** * Further properties of the code *)

(** ** Dict operations *)

Lemma dget_dset : forall d k v k',
  dget (dset d k v) k' = if String.eqb k' k then Some v else dget d k'.
Proof.
  induction d as [|[k1 v1] d IH]; intros k v k'; simpl; [reflexivity|].
  destruct (String.eqb k k1) eqn:E1.
  - apply String.eqb_eq in E1. subst k1. simpl.
    destruct (String.eqb k' k); reflexivity.
  - simpl. destruct (String.eqb k' k1) eqn:E2.
    + apply String.eqb_eq in E2. subst k'. rewrite String.eqb_sym, E1. reflexivity.
    + apply IH.
Qed.

Lemma dmem_dset : forall d k v k',
  dmem (dset d k v) k' = String.eqb k' k || dmem d k'.
Proof.
  intros d k v k'. unfold dmem. rewrite dget_dset. destruct (String.eqb k' k); reflexivity.
Qed.

Lemma dget_dupdate : forall e d k,
  nodup_keys e = true ->
  dget (dupdate d e) k = match dget e k with Some v => Some v | None => dget d k end.
Proof.
  induction e as [|[k1 v1] e IH]; intros d k H; [reflexivity|].
  simpl in H. apply andb_true_iff in H as [H1 H2].
  change (dget (dupdate (dset d k1 v1) e) k
          = match dget ((k1, v1) :: e) k with Some v => Some v | None => dget d k end).
  rewrite (IH _ _ H2), dget_dset. simpl.
  destruct (String.eqb k k1) eqn:E; [|reflexivity].
  apply String.eqb_eq in E. subst k1. unfold dmem in H1.
  destruct (dget e k); [discriminate | reflexivity].
Qed.

Lemma dget_ddel : forall d k k',
  dget (ddel d k) k' = if String.eqb k' k then None else dget d k'.
Proof.
  unfold ddel. induction d as [|[k1 v1] d IH]; intros k k'; simpl;
    [destruct (String.eqb k' k); reflexivity|].
  destruct (String.eqb k1 k) eqn:E1; simpl.
  - apply String.eqb_eq in E1. subst k1. rewrite IH.
    destruct (String.eqb k' k); reflexivity.
  - rewrite IH. destruct (String.eqb k' k1) eqn:E2; [|reflexivity].
    apply String.eqb_eq in E2. subst k'. rewrite E1. reflexivity.
Qed.

Lemma nodup_dset : forall d k v, nodup_keys d = true -> nodup_keys (dset d k v) = true.
Proof.
  induction d as [|[k1 v1] d IH]; intros k v H; simpl; [reflexivity|].
  simpl in H. apply andb_true_iff in H as [H1 H2].
  destruct (String.eqb k k1) eqn:E; simpl; rewrite ?H1, ?H2; [reflexivity|].
  rewrite dmem_dset, String.eqb_sym, E, (IH _ _ H2). simpl. rewrite H1. reflexivity.
Qed.

Lemma nodup_dupdate : forall e d, nodup_keys d = true -> nodup_keys (dupdate d e) = true.
Proof.
  induction e as [|[k1 v1] e IH]; intros d H; [exact H|].
  change (nodup_keys (dupdate (dset d k1 v1) e) = true).
  apply IH, nodup_dset, H.
Qed.

Lemma sget_nodup : forall cfg s d,
  sched_nodup cfg = true -> sget cfg s = Some d -> nodup_keys d = true.
Proof.
  induction cfg as [|[k1 d1] cfg IH]; intros s d H E; simpl in *; [discriminate|].
  apply andb_true_iff in H as [H1 H2].
  destruct (String.eqb s k1); [injection E as <-; exact H1 | exact (IH _ _ H2 E)].
Qed.

(** ** [UtilsDict.get_val_list] *)

Lemma list_set_length : forall {A} (l : list A) idx v,
  List.length (list_set l idx v) = List.length l.
Proof.
  induction l as [|x l IH]; intros [|idx] v; simpl; rewrite ?IH; reflexivity.
Qed.

Lemma firstn_list_set : forall {A} (l : list A) idx v,
  (idx < List.length l)%nat ->
  firstn (S idx) (list_set l idx v) = (firstn idx l ++ [v])%list.
Proof.
  induction l as [|x l IH]; intros [|idx] v H; simpl in *; try lia; [reflexivity|].
  rewrite IH by lia. reflexivity.
Qed.

Lemma get_val_list_loop_spec : forall d keys ret idx,
  List.length ret = (idx + List.length keys)%nat ->
  get_val_list_loop d ret idx keys
  = match find (fun k => negb (dmem d k)) keys with
    | Some k => Raise (KeyError k)
    | None => Ok (firstn idx ret ++
                  map (fun k => match dget d k with Some v => v | None => JNull end) keys)%list
    end.
Proof.
  intros d keys. induction keys as [|k keys IH]; intros ret idx H; simpl in *.
  - rewrite app_nil_r, firstn_all2 by lia. reflexivity.
  - unfold dmem. destruct (dget d k) as [v|] eqn:E; simpl; [|reflexivity].
    rewrite IH by (rewrite list_set_length; lia).
    destruct (find _ keys); [reflexivity|].
    rewrite firstn_list_set by lia. rewrite <- app_assoc. reflexivity.
Qed.

(** ** [ConfigManager.recursive_add_config] *)

Lemma recursive_add_loop_closed : forall n cfg s d0,
  (3 <= n)%nat -> sched_nodup cfg = true -> sget cfg s = Some d0 ->
  ConfigManager.recursive_add_loop n cfg [] [] (JStr s) =
  Some (match dget d0 "base_id" with
        | None | Some JNull => Ok d0
        | Some (JStr p) =>
            if String.eqb p s then Ok d0
            else match sget cfg p with
                 | Some d1 => Ok (dupdate d1 d0)
                 | None => Raise (ValueError "Config ID not found")
                 end
        | Some (JArr _) | Some (JObj _) => Raise (TypeError "unhashable type")
        | Some _ => Raise (ValueError "Config ID not found")
        end).
Proof.
  intros n cfg s d0 Hn Hcfg Hs.
  destruct n as [|[|[|n]]]; try lia. cbn [ConfigManager.recursive_add_loop existsb]. rewrite Hs.
  change (dupdate d0 []) with d0.
  destruct (dget d0 "base_id") as [[| | |p| |]|] eqn:Eb; try reflexivity.
  cbn [ConfigManager.recursive_add_loop existsb]. rewrite orb_false_r.
  destruct (String.eqb p s) eqn:Eps; [reflexivity|].
  destruct (sget cfg p) as [d1|] eqn:Ep; [|reflexivity].
  rewrite (dget_dupdate _ _ _ (sget_nodup _ _ _ Hcfg Hs)), Eb.
  cbn [ConfigManager.recursive_add_loop existsb]. rewrite String.eqb_refl. reflexivity.
Qed.

(** [recursive_add_config] is the loop itself: three iterations reach its
    exit. *)
Lemma recursive_add_config_loop : forall n cfg s,
  (3 <= n)%nat -> sched_nodup cfg = true ->
  ConfigManager.recursive_add_loop n cfg [] [] (JStr s)
  = Some (ConfigManager.recursive_add_config cfg (Some s)).
Proof.
  intros n cfg s Hn Hcfg. unfold ConfigManager.recursive_add_config.
  destruct (sget cfg s) as [d0|] eqn:Hs.
  - rewrite (recursive_add_loop_closed n cfg s d0 Hn Hcfg Hs).
    rewrite (recursive_add_loop_closed 3 cfg s d0 (le_n 3) Hcfg Hs). reflexivity.
  - destruct n as [|[|[|n]]]; try lia. cbn [ConfigManager.recursive_add_loop existsb]. rewrite Hs.
    reflexivity.
Qed.

Lemma chain_loop_prefix : forall fuel cfg ident chain cur depth c,
  Merge.chain_loop fuel cfg ident chain cur depth = Merge.LBreak c ->
  exists r, c = (chain ++ r)%list.
Proof.
  induction fuel as [|fuel IH]; intros cfg ident chain cur depth c H; simpl in H;
    [discriminate|].
  destruct (Nat.ltb _ _); [discriminate|].
  destruct (existsb _ _); [discriminate|].
  destruct (dget _ ident) as [[| | |p| |]|]; try discriminate.
  - injection H as <-. exists []. rewrite app_nil_r. reflexivity.
  - destruct (smem cfg p); [|discriminate].
    destruct (IH _ _ _ _ _ _ H) as [r ->]. exists (p :: r). rewrite <- app_assoc. reflexivity.
  - injection H as <-. exists []. rewrite app_nil_r. reflexivity.
Qed.

Lemma deep_merge_cons : forall b k v o,
  deep_merge b ((k, v) :: o)
  = deep_merge (dset b k (match dget b k with
                          | Some old => deep_merge_v old v
                          | None => v
                          end)) o.
Proof. reflexivity. Qed.

(** ** Extra properties: [src/src/utils.py] *)

(** [get_val_list] returns the values of the keys in order when every key
    is present, and otherwise raises [KeyError] naming the first missing
    key. *)
Theorem get_val_list_spec : forall d keys,
  get_val_list d keys
  = match find (fun k => negb (dmem d k)) keys with
    | Some k => Raise (KeyError k)
    | None => Ok (map (fun k => match dget d k with Some v => v | None => JNull end) keys)
    end.
Proof.
  intros d keys. unfold get_val_list.
  rewrite get_val_list_loop_spec by (rewrite repeat_length; reflexivity).
  reflexivity.
Qed.

(** With a (non-empty) [base_key_id], [get_merged_section] returns the base
    section overridden by the derived one: a key of the derived section
    has the derived value, any other key the base value. *)
Theorem merged_section_direct_lookup : forall cfg derived_key base_key ident ds bs,
  base_key <> "" -> sget cfg derived_key = Some ds -> sget cfg base_key = Some bs ->
  nodup_keys ds = true ->
  exists m, Merge.get_merged_section cfg derived_key (Some base_key) ident = Ok m /\
    forall k, dget m k = match dget ds k with Some v => Some v | None => dget bs k end.
Proof.
  intros cfg dk bk ident ds bs Hbk Hd Hb Hn.
  unfold Merge.get_merged_section, Merge.get_merged_section_fuel.
  rewrite Hd. unfold Merge.str_truthy.
  destruct (String.eqb_spec bk ""); [contradiction|]. simpl. rewrite Hb.
  eexists. split; [reflexivity|]. intros k. apply dget_dupdate, Hn.
Qed.

Lemma merged_section_direct_lookup_witness :
  exists m, Merge.get_merged_section
              [("d", [("a", JNum 1)]); ("b", [("a", JNum 2); ("c", JNum 3)])]
              "d" (Some "b") None = Ok m /\
    forall k, dget m k = match dget [("a", JNum 1)] k with
                         | Some v => Some v
                         | None => dget [("a", JNum 2); ("c", JNum 3)] k
                         end.
Proof.
  apply (merged_section_direct_lookup _ "d" "b" None); try reflexivity. discriminate.
Defined.

(** Along an inheritance chain ([base_key_identifier] given), the merged
    section never holds the identifier key, and every other key of the
    derived section keeps the derived value. *)
Theorem merged_section_chain_lookup : forall cfg derived_key ident ds m,
  ident <> "" -> sget cfg derived_key = Some ds -> nodup_keys ds = true ->
  Merge.get_merged_section cfg derived_key None (Some ident) = Ok m ->
  dget m ident = None /\
  forall k v, k <> ident -> dget ds k = Some v -> dget m k = Some v.
Proof.
  intros cfg dk ident ds m Hid Hd Hn H.
  unfold Merge.get_merged_section, Merge.get_merged_section_fuel, Merge.chain_merge in H.
  rewrite Hd in H. unfold Merge.str_truthy in H.
  destruct (String.eqb_spec ident ""); [contradiction|]. simpl negb in H. cbv iota in H.
  destruct (Merge.chain_loop _ _ _ _ _ _) as [c| |] eqn:E; try discriminate.
  injection H as <-. destruct (chain_loop_prefix _ _ _ _ _ _ _ E) as [r ->].
  unfold Merge.merge_chain. rewrite rev_app_distr, fold_left_app. cbn [rev app fold_left].
  rewrite Hd.
  match goal with |- context [fold_left ?f (rev r) []] => set (pre := fold_left f (rev r) []) end.
  assert (Hl : forall k, dget (dupdate pre ds) k
                         = match dget ds k with Some v => Some v | None => dget pre k end)
    by (intros k; apply dget_dupdate, Hn).
  destruct (dmem (dupdate pre ds) ident) eqn:Em; split.
  - rewrite dget_ddel, String.eqb_refl. reflexivity.
  - intros k v Hk Hv. rewrite dget_ddel.
    destruct (String.eqb_spec k ident); [contradiction|]. rewrite Hl, Hv. reflexivity.
  - unfold dmem in Em. destruct (dget (dupdate pre ds) ident); [discriminate|reflexivity].
  - intros k v Hk Hv. rewrite Hl, Hv. reflexivity.
Qed.

Lemma merged_section_chain_lookup_witness :
  exists m, Merge.get_merged_section demo_schedule "zerodha" None (Some "inherits_from") = Ok m /\
  dget m "inherits_from" = None /\
  forall k v, k <> "inherits_from" -> dget [("inherits_from", JStr "base")] k = Some v ->
              dget m k = Some v.
Proof.
  eexists. split; [vm_compute; reflexivity|].
  apply (merged_section_chain_lookup demo_schedule "zerodha" "inherits_from"
           [("inherits_from", JStr "base")]);
    [discriminate | reflexivity | reflexivity | vm_compute; reflexivity].
Defined.

(** [deep_merge] keeps every key of the base; a key of the override gets
    the override value, except that two dict values are merged
    recursively. *)
Theorem deep_merge_lookup : forall o b k,
  nodup_keys o = true ->
  dget (deep_merge b o) k
  = match dget o k, dget b k with
    | None, bv => bv
    | Some (JObj ov), Some (JObj bv) => Some (JObj (deep_merge bv ov))
    | Some v, _ => Some v
    end.
Proof.
  induction o as [|[k1 v1] o IH]; intros b k H; [reflexivity|].
  simpl in H. apply andb_true_iff in H as [H1 H2].
  rewrite deep_merge_cons, (IH _ _ H2), dget_dset.
  change (dget ((k1, v1) :: o) k) with (if String.eqb k k1 then Some v1 else dget o k).
  destruct (String.eqb k k1) eqn:E.
  - apply String.eqb_eq in E. subst k1. unfold dmem in H1.
    destruct (dget o k); [discriminate|].
    destruct (dget b k) as [old|]; [destruct old, v1|destruct v1]; reflexivity.
  - reflexivity.
Qed.

Lemma deep_merge_lookup_witness :
  nodup_keys [("broker", JObj [("rate_1", JNum 0)])] = true /\
  dget (deep_merge [("broker", JObj [("rate_1", JNum 1); ("const_2", JNum 20)])]
                   [("broker", JObj [("rate_1", JNum 0)])]) "broker"
  = match dget [("broker", JObj [("rate_1", JNum 0)])] "broker",
          dget [("broker", JObj [("rate_1", JNum 1); ("const_2", JNum 20)])] "broker" with
    | None, bv => bv
    | Some (JObj ov), Some (JObj bv) => Some (JObj (deep_merge bv ov))
    | Some v, _ => Some v
    end.
Proof. split; [reflexivity|]. apply deep_merge_lookup. reflexivity. Defined.

(** ** Extra properties: [src/src/config_manager.py] *)

(** [ConfigManager._get_merged_section] raises exactly when the requested
    section is missing or empty: it then opens the debugger
    ([pdb.set_trace()]), and the exception is the one that ends the
    debugger session ([BdbQuit] without an interactive stdin), or the
    [ValueError] when the session is continued.  Otherwise a key of the
    section has the section's value and any other key the value of the
    default section. *)
Theorem cm_merged_section_spec : forall set_trace cfg sid dk,
  nodup_keys (match sget cfg sid with Some d => d | None => [] end) = true ->
  match ConfigManager.get_merged_section set_trace cfg (JStr sid) dk with
  | Ok m =>
      match sget cfg sid with Some (_ :: _) => True | _ => False end /\
      forall k, dget m k = match dget (match sget cfg sid with Some d => d | None => [] end) k with
                           | Some v => Some v
                           | None => dget (match sget cfg dk with Some d => d | None => [] end) k
                           end
  | Raise e =>
      match sget cfg sid with Some (_ :: _) => False | _ => True end /\
      e = match set_trace with
          | Ok _ => ValueError "Section ID not found in the configuration."
          | Raise e' => e'
          end
  end.
Proof.
  intros set_trace cfg sid dk Hn.
  unfold ConfigManager.get_merged_section, ConfigManager.section_get.
  cbn [res_bind].
  destruct (sget cfg sid) as [[|kv d]|]; cbn iota.
  - destruct set_trace; cbn [res_bind]; split; [exact I | reflexivity | exact I | reflexivity].
  - split; [exact I|]. intros k. apply dget_dupdate, Hn.
  - destruct set_trace; cbn [res_bind]; split; [exact I | reflexivity | exact I | reflexivity].
Qed.

Lemma cm_merged_section_spec_witness :
  match ConfigManager.get_merged_section (Ok tt)
          [("default_strategy", [("a", JNum 1)]); ("s1", [("b", JNum 2)])] (JStr "s1")
          "default_strategy" with
  | Ok m =>
      match sget [("default_strategy", [("a", JNum 1)]); ("s1", [("b", JNum 2)])] "s1" with
      | Some (_ :: _) => True | _ => False end /\
      forall k, dget m k = match dget [("b", JNum 2)] k with
                           | Some v => Some v
                           | None => dget [("a", JNum 1)] k
                           end
  | Raise e =>
      match sget [("default_strategy", [("a", JNum 1)]); ("s1", [("b", JNum 2)])] "s1" with
      | Some (_ :: _) => False | _ => True end /\
      e = match @Ok unit tt with
          | Ok _ => ValueError "Section ID not found in the configuration."
          | Raise e' => e'
          end
  end.
Proof.
  exact (cm_merged_section_spec (Ok tt) [("default_strategy", [("a", JNum 1)]); ("s1", [("b", JNum 2)])]
           "s1" "default_strategy" eq_refl).
Defined.

(** [recursive_add_config] merges the start section with at most its
    direct base: the base's own [base_id] is never followed, so a
    grandparent section never contributes.  A missing start id raises
    [ValueError], a list or dict [base_id] raises [TypeError]. *)
Theorem recursive_add_config_one_level : forall cfg s,
  sched_nodup cfg = true ->
  ConfigManager.recursive_add_config cfg (Some s)
  = match sget cfg s with
    | None => Raise (ValueError "Config ID not found")
    | Some d0 =>
        match dget d0 "base_id" with
        | None | Some JNull => Ok d0
        | Some (JStr p) =>
            if String.eqb p s then Ok d0
            else match sget cfg p with
                 | Some d1 => Ok (dupdate d1 d0)
                 | None => Raise (ValueError "Config ID not found")
                 end
        | Some (JArr _) | Some (JObj _) => Raise (TypeError "unhashable type")
        | Some _ => Raise (ValueError "Config ID not found")
        end
    end.
Proof.
  intros cfg s Hcfg. unfold ConfigManager.recursive_add_config.
  destruct (sget cfg s) as [d0|] eqn:Hs.
  - rewrite (recursive_add_loop_closed 3 cfg s d0 (le_n 3) Hcfg Hs). reflexivity.
  - cbn [ConfigManager.recursive_add_loop existsb]. rewrite Hs. reflexivity.
Qed.

Lemma recursive_add_config_one_level_witness :
  sched_nodup three_level_runs = true /\
  ConfigManager.recursive_add_config three_level_runs (Some "r2")
  = match sget three_level_runs "r2" with
    | None => Raise (ValueError "Config ID not found")
    | Some d0 =>
        match dget d0 "base_id" with
        | None | Some JNull => Ok d0
        | Some (JStr p) =>
            if String.eqb p "r2" then Ok d0
            else match sget three_level_runs p with
                 | Some d1 => Ok (dupdate d1 d0)
                 | None => Raise (ValueError "Config ID not found")
                 end
        | Some (JArr _) | Some (JObj _) => Raise (TypeError "unhashable type")
        | Some _ => Raise (ValueError "Config ID not found")
        end
    end.
Proof. split; [reflexivity|]. apply recursive_add_config_one_level. reflexivity. Defined.

Lemma recursive_add_config_nodup : forall cfg s rc,
  sched_nodup cfg = true ->
  ConfigManager.recursive_add_config cfg (Some s) = Ok rc -> nodup_keys rc = true.
Proof.
  intros cfg s rc Hcfg H. unfold ConfigManager.recursive_add_config in H.
  destruct (sget cfg s) as [d0|] eqn:Hs.
  - rewrite (recursive_add_loop_closed 3 cfg s d0 (le_n 3) Hcfg Hs) in H.
    pose proof (sget_nodup _ _ _ Hcfg Hs) as N0.
    destruct (dget d0 "base_id") as [[| | |p| |]|]; try discriminate;
      try (injection H as <-; exact N0).
    destruct (String.eqb p s); [injection H as <-; exact N0|].
    destruct (sget cfg p) as [d1|] eqn:Hp; [|discriminate].
    injection H as <-. apply nodup_dupdate, (sget_nodup _ _ _ Hcfg Hp).
  - cbn [ConfigManager.recursive_add_loop existsb] in H. rewrite Hs in H. discriminate.
Qed.

Lemma cm_merged_section_nodup : forall st cfg sid dk m,
  sched_nodup cfg = true ->
  ConfigManager.get_merged_section st cfg sid dk = Ok m -> nodup_keys m = true.
Proof.
  intros st cfg sid dk m Hcfg H. unfold ConfigManager.get_merged_section in H.
  destruct (ConfigManager.section_get cfg sid); [|discriminate]. cbn [res_bind] in H.
  destruct a as [|kv a]; [destruct st; discriminate|]. injection H as <-. apply (nodup_dupdate (kv :: a)).
  destruct (sget cfg dk) eqn:E; [exact (sget_nodup _ _ _ Hcfg E) | reflexivity].
Qed.

Lemma cm_merged_section_lookup : forall st cfg sid dk m,
  sched_nodup cfg = true ->
  ConfigManager.get_merged_section st cfg (JStr sid) dk = Ok m ->
  forall k, dget m k = match dget (match sget cfg sid with Some d => d | None => [] end) k with
                       | Some v => Some v
                       | None => dget (match sget cfg dk with Some d => d | None => [] end) k
                       end.
Proof.
  intros st cfg sid dk m Hcfg H k. unfold ConfigManager.get_merged_section in H.
  cbn [ConfigManager.section_get res_bind] in H.
  destruct (sget cfg sid) as [[|kv d]|] eqn:E; try (destruct st; discriminate).
  injection H as <-. exact (dget_dupdate (kv :: d) _ k (sget_nodup _ _ _ Hcfg E)).
Qed.

(** [load_combined_config] succeeds only with a [ticker] and a
    [strategy_id] in the result and an [indicators] dict; every other key
    has the value of the merged strategy section when it has one, and
    otherwise the value of the merged run configuration. *)
Theorem load_combined_config_lookup : forall set_trace runs strats inds rid c,
  sched_nodup runs = true -> sched_nodup strats = true ->
  ConfigManager.load_combined_config set_trace runs strats inds rid = Ok c ->
  exists rc ms params,
    ConfigManager.recursive_add_config runs (Some rid) = Ok rc /\
    ConfigManager.get_merged_section set_trace strats
      (match dget rc "strategy_id" with Some v => v | None => JNull end)
      "default_strategy" = Ok ms /\
    dget c "indicators" = Some (JObj params) /\
    dmem c "ticker" = true /\ dmem c "strategy_id" = true /\
    forall k, k <> "indicators" ->
      dget c k = match dget ms k with Some v => Some v | None => dget rc k end.
Proof.
  intros set_trace runs strats inds rid c Hr Hs H.
  unfold ConfigManager.load_combined_config in H.
  destruct (ConfigManager.recursive_add_config runs (Some rid)) as [rc|e] eqn:Erc;
    [|discriminate]. cbn [res_bind] in H.
  destruct (negb (truthy _)); [discriminate|].
  destruct (ConfigManager.get_merged_section set_trace strats _ _) as [ms|e] eqn:Ems;
    [|discriminate]. cbn [res_bind] in H.
  destruct (ConfigManager.iter_ids _) as [ids|e]; [|discriminate]. cbn [res_bind] in H.
  destruct (ConfigManager.merge_indicator_params set_trace ids inds) as [mip|e] eqn:Emip;
    [|discriminate]. cbn [res_bind] in H.
  unfold ConfigManager.merge_indicator_params in Emip.
  destruct (ConfigManager.merge_indicator_loop set_trace ids inds []) as [mp|e]; [|discriminate].
  injection Emip as <-.
  unfold ConfigManager.validate_and_setdefault in H.
  destruct (dmem _ "ticker") eqn:Et; [|discriminate].
  destruct (dmem _ "strategy_id") eqn:Ei; [|discriminate].
  injection H as <-.
  pose proof (recursive_add_config_nodup _ _ _ Hr Erc) as Nrc.
  pose proof (cm_merged_section_nodup _ _ _ _ _ Hs Ems) as Nms.
  exists rc, ms, mp. repeat split; try assumption; try reflexivity.
  - rewrite dget_dset, String.eqb_refl. reflexivity.
  - intros k Hk. rewrite dget_dset.
    destruct (String.eqb_spec k "indicators"); [contradiction|].
    rewrite (dget_dupdate _ _ _ Nms), (dget_dupdate _ _ _ Nrc).
    destruct (dget ms k); [reflexivity|]. destruct (dget rc k); reflexivity.
Qed.

Lemma load_combined_config_lookup_witness :
  ConfigManager.load_combined_config (Ok tt) demo_runs demo_strategies demo_indicators "run1"
  = Ok (dupdate (dupdate (dupdate [] [("strategy_id", JStr "rsi"); ("ticker", JStr "TCS");
                                      ("base_id", JStr "run0")])
                          [("indicator_ids", JArr [JStr "rsi14"]); ("ticker", JStr "SBIN");
                           ("threshold", JNum 50)])
                [("indicators", JObj [("rsi14", JObj [("window", JNum 14)])])]) /\
  exists rc ms params,
    ConfigManager.recursive_add_config demo_runs (Some "run1") = Ok rc /\
    ConfigManager.get_merged_section (Ok tt) demo_strategies
      (match dget rc "strategy_id" with Some v => v | None => JNull end)
      "default_strategy" = Ok ms /\
    dget (dupdate (dupdate (dupdate [] [("strategy_id", JStr "rsi"); ("ticker", JStr "TCS");
                                        ("base_id", JStr "run0")])
                            [("indicator_ids", JArr [JStr "rsi14"]); ("ticker", JStr "SBIN");
                             ("threshold", JNum 50)])
                  [("indicators", JObj [("rsi14", JObj [("window", JNum 14)])])])
      "indicators" = Some (JObj params) /\
    dmem (dupdate (dupdate (dupdate [] [("strategy_id", JStr "rsi"); ("ticker", JStr "TCS");
                                        ("base_id", JStr "run0")])
                            [("indicator_ids", JArr [JStr "rsi14"]); ("ticker", JStr "SBIN");
                             ("threshold", JNum 50)])
                  [("indicators", JObj [("rsi14", JObj [("window", JNum 14)])])]) "ticker" = true /\
    dmem (dupdate (dupdate (dupdate [] [("strategy_id", JStr "rsi"); ("ticker", JStr "TCS");
                                        ("base_id", JStr "run0")])
                            [("indicator_ids", JArr [JStr "rsi14"]); ("ticker", JStr "SBIN");
                             ("threshold", JNum 50)])
                  [("indicators", JObj [("rsi14", JObj [("window", JNum 14)])])])
      "strategy_id" = true /\
    forall k, k <> "indicators" ->
      dget (dupdate (dupdate (dupdate [] [("strategy_id", JStr "rsi"); ("ticker", JStr "TCS");
                                          ("base_id", JStr "run0")])
                              [("indicator_ids", JArr [JStr "rsi14"]); ("ticker", JStr "SBIN");
                               ("threshold", JNum 50)])
                    [("indicators", JObj [("rsi14", JObj [("window", JNum 14)])])]) k
      = match dget ms k with Some v => Some v | None => dget rc k end.
Proof.
  assert (E : ConfigManager.load_combined_config (Ok tt) demo_runs demo_strategies demo_indicators "run1"
  = Ok (dupdate (dupdate (dupdate [] [("strategy_id", JStr "rsi"); ("ticker", JStr "TCS");
                                      ("base_id", JStr "run0")])
                          [("indicator_ids", JArr [JStr "rsi14"]); ("ticker", JStr "SBIN");
                           ("threshold", JNum 50)])
                [("indicators", JObj [("rsi14", JObj [("window", JNum 14)])])]))
    by (vm_compute; reflexivity).
  split; [exact E|].
  exact (load_combined_config_lookup (Ok tt) demo_runs demo_strategies demo_indicators "run1" _
           eq_refl eq_refl E).
Defined.

(** ** Extra properties: [src/src/commission.py] *)

Ltac peel_binds H :=
  repeat match type of H with
  | context [res_bind ?m _] =>
      let E := fresh "E" in
      destruct m eqn:E; cbn [res_bind side_eqb holding_eqb andb] in H; [|discriminate]
  end.

Lemma stocks_components_sell_stamp : forall p h rates c,
  stocks_components p TS_SELL h rates = Ok c -> c_stamp c = 0.
Proof.
  intros p h rates c H. unfold stocks_components in H. cbn [side_eqb] in H.
  peel_binds H. injection H as <-. reflexivity.
Qed.

Lemma stocks_components_no_stt : forall p side h rates c,
  (h = UNKNOWN \/ (h = DELIVERY /\ side = TS_BUY)) ->
  stocks_components p side h rates = Ok c -> c_stt c = 0.
Proof.
  intros p side h rates c Hh H. unfold stocks_components in H.
  destruct Hh as [-> | [-> ->]]; cbn [side_eqb holding_eqb andb] in H;
    [destruct side|]; peel_binds H; injection H as <-; reflexivity.
Qed.

Lemma holding_type_same_awareness_step : forall bd sd,
  is_aware bd = is_aware sd ->
  exists diff,
    dt_sub sd bd = Ok diff /\ dt_le sd bd = Ok (diff <=? 0)%Z.
Proof.
  intros bd sd H. unfold dt_sub, dt_le, is_aware in *.
  destruct (dt_offset bd) as [ob|], (dt_offset sd) as [os|]; try discriminate;
    eexists; split; try reflexivity; f_equal;
    [destruct (Z.leb_spec (utc_usec sd os) (utc_usec bd ob));
     destruct (Z.leb_spec (utc_usec sd os - utc_usec bd ob) 0); lia
    |destruct (Z.leb_spec (local_usec sd) (local_usec bd));
     destruct (Z.leb_spec (local_usec sd - local_usec bd) 0); lia].
Qed.

(** [_determine_holding_type] raises only when both timestamps parse and
    exactly one of them carries a UTC offset, and the exception is then
    the [TypeError] of the [<=] comparison. *)
Theorem holding_type_raises_only_mixed : forall f b s e,
  determine_holding_type f b s = Raise e ->
  exists bs ss bd sd,
    b = Some bs /\ s = Some ss /\ f bs = Some bd /\ f ss = Some sd /\
    is_aware bd <> is_aware sd /\
    e = TypeError "can't compare offset-naive and offset-aware datetimes".
Proof.
  intros f b s e H. unfold determine_holding_type in H.
  destruct (_ || _); [discriminate|].
  destruct b as [bs|], s as [ss|]; try discriminate.
  destruct (f bs) as [bd|] eqn:Eb, (f ss) as [sd|] eqn:Es; try discriminate.
  exists bs, ss, bd, sd. do 2 (split; [reflexivity|]). do 2 (split; [assumption|]).
  destruct (Bool.bool_dec (is_aware bd) (is_aware sd)) as [Hs|Hs].
  - destruct (holding_type_same_awareness_step bd sd Hs) as [diff [E1 E2]].
    rewrite E2 in H. cbn [res_bind] in H.
    destruct (diff <=? 0)%Z; [discriminate|]. rewrite E1 in H. cbn [res_bind] in H.
    destruct (_ || _)%bool; discriminate.
  - split; [exact Hs|]. unfold dt_le in H. unfold is_aware in Hs.
    destruct (dt_offset sd), (dt_offset bd); try (exfalso; apply Hs; reflexivity);
      cbn [res_bind] in H; injection H as <-; reflexivity.
Qed.

Lemma holding_type_raises_only_mixed_witness :
  exists bs ss bd sd,
    Some "2025-10-09T10:00:00" = Some bs /\ Some "2025-10-10T10:00:00+05:30" = Some ss /\
    IsoFormat.parse bs = Some bd /\ IsoFormat.parse ss = Some sd /\
    is_aware bd <> is_aware sd /\
    TypeError "can't compare offset-naive and offset-aware datetimes"
    = TypeError "can't compare offset-naive and offset-aware datetimes".
Proof.
  apply (holding_type_raises_only_mixed IsoFormat.parse
           (Some "2025-10-09T10:00:00") (Some "2025-10-10T10:00:00+05:30")).
  vm_compute. reflexivity.
Defined.

(** For two non-empty timestamps that parse and are both naive or both
    aware, the holding type is [DELIVERY] exactly when the sell comes at
    least one day after the buy and on another calendar date, and
    [INTRADAY] otherwise (including a sell at or before the buy). *)
Theorem holding_type_same_awareness : forall f bs ss bd sd,
  bs <> "" -> ss <> "" -> f bs = Some bd -> f ss = Some sd ->
  is_aware bd = is_aware sd ->
  exists diff, dt_sub sd bd = Ok diff /\
    determine_holding_type f (Some bs) (Some ss)
    = Ok (if (usec_per_day <=? diff)%Z && negb (dt_ordinal bd =? dt_ordinal sd)%Z
          then DELIVERY else INTRADAY).
Proof.
  intros f bs ss bd sd Hb Hs Eb Es Ha.
  destruct (holding_type_same_awareness_step bd sd Ha) as [diff [E1 E2]].
  exists diff. split; [exact E1|]. unfold determine_holding_type, opt_str_truthy.
  apply String.eqb_neq in Hb, Hs. rewrite Hb, Hs. cbn [negb orb].
  rewrite Eb, Es, E2. cbn [res_bind].
  destruct (Z.leb_spec diff 0).
  - destruct (Z.leb_spec usec_per_day diff); [unfold usec_per_day in *; lia|]. reflexivity.
  - rewrite E1. cbn [res_bind].
    destruct (dt_ordinal bd =? dt_ordinal sd)%Z; cbn [negb orb andb];
      [destruct (usec_per_day <=? diff)%Z; reflexivity|].
    destruct (Z.ltb_spec diff usec_per_day), (Z.leb_spec usec_per_day diff);
      reflexivity || lia.
Qed.

Lemma holding_type_same_awareness_witness :
  exists diff, dt_sub (demo_sell_dt)
                      (demo_buy_dt) = Ok diff /\
    determine_holding_type IsoFormat.parse (Some "2025-10-09T10:00:00")
      (Some "2025-10-10T10:00:00")
    = Ok (if (usec_per_day <=? diff)%Z
             && negb (dt_ordinal (demo_buy_dt)
                      =? dt_ordinal (demo_sell_dt))%Z
          then DELIVERY else INTRADAY).
Proof.
  apply (holding_type_same_awareness IsoFormat.parse); try discriminate;
    vm_compute; reflexivity.
Defined.

Lemma round2_zero : round2 0 == 0.
Proof. vm_compute. reflexivity. Qed.

Lemma calculate_stocks_fees_zero_parts : forall p side h rates b,
  calculate_stocks_fees p side h rates = Ok b ->
  (side = TS_SELL -> bd_stamp b == 0) /\
  (h = UNKNOWN \/ (h = DELIVERY /\ side = TS_BUY) -> bd_stt b == 0).
Proof.
  intros p side h rates b H. unfold calculate_stocks_fees in H.
  destruct (stocks_components p side h rates) as [c|e] eqn:Ec; [|discriminate].
  injection H as <-. cbn [bd_stamp bd_stt]. split.
  - intros ->. rewrite (stocks_components_sell_stamp _ _ _ _ Ec). apply round2_zero.
  - intros Hh. rewrite (stocks_components_no_stt _ _ _ _ _ Hh Ec). apply round2_zero.
Qed.

(** [_calculate_stocks_fees] never charges stamp duty on a sell, and
    charges no STT on a delivery buy or when the holding type is
    unknown. *)
Theorem stocks_fees_no_stamp_no_stt : forall p side h rates b,
  calculate_stocks_fees p side h rates = Ok b ->
  (side = TS_SELL -> bd_stamp b == 0) /\
  (h = UNKNOWN \/ (h = DELIVERY /\ side = TS_BUY) -> bd_stt b == 0).
Proof. exact calculate_stocks_fees_zero_parts. Qed.

Lemma stocks_fees_no_stamp_no_stt_witness :
  exists b, calculate_stocks_fees 50000 TS_SELL UNKNOWN capped_rates = Ok b /\
  (TS_SELL = TS_SELL -> bd_stamp b == 0) /\
  (UNKNOWN = UNKNOWN \/ (UNKNOWN = DELIVERY /\ TS_SELL = TS_BUY) -> bd_stt b == 0).
Proof.
  destruct (calculate_stocks_fees 50000 TS_SELL UNKNOWN capped_rates) as [b|e] eqn:E.
  - exists b. split; [reflexivity|]. exact (stocks_fees_no_stamp_no_stt _ _ _ _ _ E).
  - vm_compute in E. discriminate.
Defined.

(** A missing or empty buy or sell timestamp gives the holding type
    [UNKNOWN], so a stock fee breakdown then carries no STT. *)
Theorem missing_timestamp_no_stt : forall f cfg bk p side bdt sdt b,
  negb (opt_str_truthy bdt) || negb (opt_str_truthy sdt) = true ->
  calculate_commission_fees f cfg bk p side STOCKS bdt sdt = Ok (FeeBreakdown b) ->
  bd_holding b = UNKNOWN /\ bd_stt b == 0.
Proof.
  intros f cfg bk p side bdt sdt b Ht H. unfold calculate_commission_fees in H.
  destruct (Qle_bool p 0); [discriminate|].
  destruct (get_effective_fees cfg bk STOCKS) as [rates|[]]; try discriminate.
  unfold determine_holding_type in H. rewrite Ht in H. cbn [res_bind] in H.
  destruct (calculate_stocks_fees p side UNKNOWN rates) as [b'|e] eqn:Eb; [|discriminate].
  cbn [res_bind] in H. injection H as <-. split.
  - unfold calculate_stocks_fees in Eb.
    destruct (stocks_components p side UNKNOWN rates); [|discriminate].
    injection Eb as <-. reflexivity.
  - apply (calculate_stocks_fees_zero_parts _ _ _ _ _ Eb). left. reflexivity.
Qed.

Lemma missing_timestamp_no_stt_witness :
  demo_calc 50000 TS_SELL None (Some "2025-10-10T10:00:00")
  = Ok (FeeBreakdown (mkBreakdown TS_SELL UNKNOWN (round2 50000) (round2 20) (round2 0)
                        (round2 0) (round2 0) (round2 0) (round2 0) (round2 20))) /\
  bd_holding (mkBreakdown TS_SELL UNKNOWN (round2 50000) (round2 20) (round2 0)
                (round2 0) (round2 0) (round2 0) (round2 0) (round2 20)) = UNKNOWN /\
  bd_stt (mkBreakdown TS_SELL UNKNOWN (round2 50000) (round2 20) (round2 0)
            (round2 0) (round2 0) (round2 0) (round2 0) (round2 20)) == 0.
Proof.
  assert (E : demo_calc 50000 TS_SELL None (Some "2025-10-10T10:00:00")
    = Ok (FeeBreakdown (mkBreakdown TS_SELL UNKNOWN (round2 50000) (round2 20) (round2 0)
                          (round2 0) (round2 0) (round2 0) (round2 0) (round2 20))))
    by (vm_compute; reflexivity).
  split; [exact E|].
  exact (missing_timestamp_no_stt IsoFormat.parse demo_schedule "zerodha" 50000 TS_SELL None
           (Some "2025-10-10T10:00:00") _ eq_refl E).
Defined.

(** A schedule without a ["base"] section makes [calculate_commission_fees]
    raise [KeyError] for a positive principal whenever the broker's own
    section resolves: the lookup [self.master_schedule["base"]] is outside
    the [try] that turns errors into an error dict. *)
Theorem missing_base_raises_key_error : forall f cfg bk p side asset bdt sdt m,
  sget cfg "base" = None -> 0 < p ->
  Merge.get_merged_section cfg bk None (Some "inherits_from") = Ok m ->
  calculate_commission_fees f cfg bk p side asset bdt sdt = Raise (KeyError "base").
Proof.
  intros f cfg bk p side asset bdt sdt m Hb Hp Hm. unfold calculate_commission_fees.
  destruct (Qle_bool p 0) eqn:E; [apply Qle_bool_iff in E; lra|].
  unfold get_effective_fees. rewrite Hm. cbn [res_bind]. rewrite Hb. reflexivity.
Qed.

Lemma missing_base_raises_key_error_witness :
  calculate_commission_fees IsoFormat.parse [("zerodha", [("stocks", JObj [])])] "zerodha"
    50000 TS_BUY STOCKS None None = Raise (KeyError "base").
Proof.
  apply (missing_base_raises_key_error IsoFormat.parse [("zerodha", [("stocks", JObj [])])]
           "zerodha" 50000 TS_BUY STOCKS None None [("stocks", JObj [])]);
    [reflexivity | reflexivity | vm_compute; reflexivity].
Defined.

(** With numeric broker rates, the brokerage is the larger of the
    rate-based amount and the constant fee, lowered to the cap when a cap
    is configured and exceeded. *)
Theorem brokerage_max_then_cap : forall p side h rates c,
  rates_numeric rates = true -> stocks_components p side h rates = Ok c ->
  let br := section_of rates "broker" in
  let pct := p * jnum_val (dget br ("rate_" ++ side_value side)) 0 in
  let cst := jnum_val (dget br ("const_" ++ side_value side)) 0 in
  let m := if qlt pct cst then cst else pct in
  pct <= m /\ cst <= m /\
  c_brokerage c = match dget br ("cap_" ++ side_value side) with
                  | Some v => if qlt (jnum_val (Some v) 0) m then jnum_val (Some v) 0 else m
                  | None => m
                  end /\
  match dget br ("cap_" ++ side_value side) with
  | Some v => c_brokerage c <= jnum_val (Some v) 0
  | None => True
  end.
Proof.
  intros p side h rates c Hr H. rewrite (stocks_components_closed _ _ _ _ Hr) in H.
  injection H as <-. cbv zeta. unfold components_of, clamp_brokerage. cbn [c_brokerage].
  destruct (dget _ ("cap_" ++ side_value side)) as [v|]; qlt_cases;
    repeat split; try reflexivity; try lra.
Qed.

Lemma brokerage_max_then_cap_witness :
  exists c, stocks_components 50000 TS_BUY DELIVERY capped_rates = Ok c /\
  let br := section_of capped_rates "broker" in
  let pct := 50000 * jnum_val (dget br ("rate_" ++ side_value TS_BUY)) 0 in
  let cst := jnum_val (dget br ("const_" ++ side_value TS_BUY)) 0 in
  let m := if qlt pct cst then cst else pct in
  pct <= m /\ cst <= m /\
  c_brokerage c = match dget br ("cap_" ++ side_value TS_BUY) with
                  | Some v => if qlt (jnum_val (Some v) 0) m then jnum_val (Some v) 0 else m
                  | None => m
                  end /\
  match dget br ("cap_" ++ side_value TS_BUY) with
  | Some v => c_brokerage c <= jnum_val (Some v) 0
  | None => True
  end.
Proof.
  destruct (stocks_components 50000 TS_BUY DELIVERY capped_rates) as [c|e] eqn:E.
  - exists c. split; [reflexivity|].
    exact (brokerage_max_then_cap 50000 TS_BUY DELIVERY capped_rates c eq_refl E).
  - vm_compute in E. discriminate.
Defined.

(** ** Extra properties: [src/src/backtester.py] *)

Lemma last_opt_snoc : forall {A} (l : list A) x, last_opt (l ++ [x])%list = Some x.
Proof.
  intros A l x. induction l as [|y l IH]; [reflexivity|].
  destruct l as [|z l]; [reflexivity|]. exact IH.
Qed.

Lemma update_last_snoc : forall {A} (f : A -> A) (l : list A) x,
  update_last f (l ++ [x])%list = (l ++ [f x])%list.
Proof.
  intros A f l x. induction l as [|y l IH]; [reflexivity|].
  destruct l as [|z l]; [reflexivity|].
  change (update_last f (y :: ((z :: l) ++ [x]))%list = (y :: ((z :: l) ++ [f x]))%list).
  change (y :: update_last f ((z :: l) ++ [x])%list = (y :: ((z :: l) ++ [f x]))%list).
  rewrite IH. reflexivity.
Qed.

Lemma completed_rows_app : forall l1 l2,
  completed_rows (l1 ++ l2)%list = (completed_rows l1 ++ completed_rows l2)%list.
Proof.
  induction l1 as [|t l1 IH]; intros l2; [reflexivity|].
  simpl. destruct (t_exit t); rewrite IH; reflexivity.
Qed.

Lemma total_net_pl_snoc : forall l t,
  total_net_pl (l ++ [t])%list
  == total_net_pl l + match t_exit t with Some x => ct_net_pl (complete t x) | None => 0 end.
Proof.
  intros l t. unfold total_net_pl. rewrite completed_rows_app, fold_left_app.
  destruct (t_exit t) as [x|] eqn:E; cbn [completed_rows]; rewrite E; cbn [fold_left].
  - reflexivity.
  - symmetry. apply Qplus_0_r.
Qed.

Lemma long_entry_state : forall calc st b,
  position st = P_NOT_HELD -> b_signal b = BUY_ENTRY ->
  position (transition calc st b) = P_BUY ->
  let f1 := get_trade_fees calc (cash st) TS_BUY (Some (b_ts b)) None in
  let sh := (cash st - f1) / b_close b in
  0 < cash st - f1 /\
  transition calc st b
  = mkSim 0 sh P_BUY (trades st ++ [mkTrade (b_ts b) (b_close b) Long sh f1 None])%list
      (Some (b_ts b)).
Proof.
  intros calc st b Hp Hs Hb. cbv zeta. unfold transition in *. rewrite Hp, Hs in *.
  cbv zeta in *.
  destruct (qlt 0 _) eqn:Q; [|rewrite Hp in Hb; discriminate].
  apply qlt_true in Q. split; [exact Q | reflexivity].
Qed.

Lemma short_entry_state : forall calc st b,
  position st = P_NOT_HELD -> b_signal b = SELL_ENTRY ->
  let sts := cash st / b_close b in
  let f1 := get_trade_fees calc (sts * b_close b) TS_SELL None (Some (b_ts b)) in
  transition calc st b
  = mkSim (cash st + (sts * b_close b - f1)) (- sts) P_SELL
      (trades st ++ [mkTrade (b_ts b) (b_close b) Short sts f1 None])%list
      (Some (b_ts b)).
Proof.
  intros calc st b Hp Hs. unfold transition. rewrite Hp, Hs. reflexivity.
Qed.

Lemma long_exit_state : forall calc st b t,
  position st = P_BUY -> b_signal b = BUY_EXIT ->
  last_opt (trades st) = Some t -> has_exit t = false ->
  let f2 := get_trade_fees calc (shares st * b_close b) TS_SELL
              (Some (t_entry_date t)) (Some (b_ts b)) in
  transition calc st b
  = mkSim (cash st + (shares st * b_close b - f2)) 0 P_NOT_HELD
      (update_last (close_trade (mkExit (b_ts b) (b_close b) f2)) (trades st)) None.
Proof.
  intros calc st b t Hp Hs Hl Hx. unfold transition. rewrite Hp, Hs, Hl, Hx. reflexivity.
Qed.

Lemma short_exit_state : forall calc st b t,
  position st = P_SELL -> b_signal b = SELL_EXIT ->
  last_opt (trades st) = Some t -> has_exit t = false ->
  let f2 := get_trade_fees calc (Qabs (shares st) * b_close b) TS_BUY
              (Some (t_entry_date t)) (Some (b_ts b)) in
  transition calc st b
  = mkSim (cash st - (Qabs (shares st) * b_close b + f2)) 0 P_NOT_HELD
      (update_last (close_trade (mkExit (b_ts b) (b_close b) f2)) (trades st)) None.
Proof.
  intros calc st b t Hp Hs Hl Hx. unfold transition. rewrite Hp, Hs, Hl, Hx. reflexivity.
Qed.

(** A long round trip, an accepted [BUY_ENTRY] at a positive price and
    the [BUY_EXIT] that follows, adds one completed trade and changes the
    cash by exactly that trade's net P/L. *)
Theorem long_round_trip_cash : forall calc st b1 b2,
  position st = P_NOT_HELD -> b_signal b1 = BUY_ENTRY -> b_signal b2 = BUY_EXIT ->
  0 < b_close b1 -> position (transition calc st b1) = P_BUY ->
  position (transition calc (transition calc st b1) b2) = P_NOT_HELD /\
  exists c, completed_rows (trades (transition calc (transition calc st b1) b2))
            = (completed_rows (trades st) ++ [c])%list /\
            cash (transition calc (transition calc st b1) b2) == cash st + ct_net_pl c.
Proof.
  intros calc st b1 b2 Hp H1 H2 Hpr Hb.
  destruct (long_entry_state calc st b1 Hp H1 Hb) as [Q E]. rewrite E.
  set (f1 := get_trade_fees calc (cash st) TS_BUY (Some (b_ts b1)) None) in *.
  set (sh := (cash st - f1) / b_close b1).
  erewrite (long_exit_state calc _ b2);
    [|reflexivity|exact H2|apply last_opt_snoc|reflexivity].
  cbn [position trades cash shares]. split; [reflexivity|].
  rewrite update_last_snoc, completed_rows_app. eexists. split; [reflexivity|].
  cbn [cash ct_net_pl complete close_trade t_shares t_type t_entry_price t_fees_entry x_price
       x_fees].
  assert (Hsh : 0 < sh) by (apply Qlt_shift_div_l; lra).
  assert (Hm : sh * b_close b1 == cash st - f1)
    by (unfold sh; field; intro Hz; rewrite Hz in Hpr; apply (Qlt_irrefl 0); exact Hpr).
  rewrite (Qabs_pos sh) by lra.
  set (f2 := get_trade_fees calc (sh * b_close b2) TS_SELL (Some (b_ts b1)) (Some (b_ts b2))).
  assert (Hc : cash st == sh * b_close b1 + f1) by (rewrite Hm; ring).
  rewrite Hc. ring.
Qed.

Lemma long_round_trip_cash_witness :
  position (fst (sim_loop demo_calc (sim_of (fresh_backtester 1000)) [])) = P_NOT_HELD /\
  b_signal (nth 0 round_trip_bars (mkBar "" 0 NO_ACTION)) = BUY_ENTRY /\
  position (transition demo_calc (transition demo_calc (sim_of (fresh_backtester 1000))
              (nth 0 round_trip_bars (mkBar "" 0 NO_ACTION)))
              (nth 1 round_trip_bars (mkBar "" 0 NO_ACTION))) = P_NOT_HELD /\
  exists c, completed_rows (trades (transition demo_calc (transition demo_calc
              (sim_of (fresh_backtester 1000)) (nth 0 round_trip_bars (mkBar "" 0 NO_ACTION)))
              (nth 1 round_trip_bars (mkBar "" 0 NO_ACTION))))
            = (completed_rows (trades (sim_of (fresh_backtester 1000))) ++ [c])%list /\
            cash (transition demo_calc (transition demo_calc (sim_of (fresh_backtester 1000))
              (nth 0 round_trip_bars (mkBar "" 0 NO_ACTION)))
              (nth 1 round_trip_bars (mkBar "" 0 NO_ACTION)))
            == cash (sim_of (fresh_backtester 1000)) + ct_net_pl c.
Proof.
  split; [reflexivity|]. split; [reflexivity|].
  apply (long_round_trip_cash demo_calc (sim_of (fresh_backtester 1000))
           (nth 0 round_trip_bars (mkBar "" 0 NO_ACTION))
           (nth 1 round_trip_bars (mkBar "" 0 NO_ACTION)));
    try reflexivity; vm_compute; reflexivity.
Defined.

(** A short round trip, a [SELL_ENTRY] at a positive price and the
    [SELL_EXIT] that follows, adds one completed trade and changes the
    cash by that trade's net P/L plus [cash - |cash|] of the entry cash:
    exactly the net P/L when the entry cash is not negative, and twice
    the (negative) cash less when it is. *)
Theorem short_round_trip_cash : forall calc st b1 b2,
  position st = P_NOT_HELD -> b_signal b1 = SELL_ENTRY -> b_signal b2 = SELL_EXIT ->
  0 < b_close b1 ->
  position (transition calc (transition calc st b1) b2) = P_NOT_HELD /\
  exists c, completed_rows (trades (transition calc (transition calc st b1) b2))
            = (completed_rows (trades st) ++ [c])%list /\
            cash (transition calc (transition calc st b1) b2)
            == cash st + ct_net_pl c + (cash st - Qabs (cash st)).
Proof.
  intros calc st b1 b2 Hp H1 H2 Hpr.
  rewrite (short_entry_state calc st b1 Hp H1).
  set (sts := cash st / b_close b1).
  set (f1 := get_trade_fees calc (sts * b_close b1) TS_SELL None (Some (b_ts b1))).
  erewrite (short_exit_state calc _ b2);
    [|reflexivity|exact H2|apply last_opt_snoc|reflexivity].
  cbn [position trades cash shares]. split; [reflexivity|].
  rewrite update_last_snoc, completed_rows_app. eexists. split; [reflexivity|].
  cbn [cash ct_net_pl complete close_trade t_shares t_type t_entry_price t_fees_entry x_price
       x_fees].
  match goal with |- context [get_trade_fees calc ?a TS_BUY ?b ?c] =>
    set (f2 := get_trade_fees calc a TS_BUY b c) end.
  assert (Hnz : ~ b_close b1 == 0)
    by (intro Hz; rewrite Hz in Hpr; apply (Qlt_irrefl 0); exact Hpr).
  assert (Hm : sts * b_close b1 == cash st) by (unfold sts; field; exact Hnz).
  assert (Ha : Qabs (- sts) == Qabs sts) by (apply Qabs_opp).
  rewrite Ha, Hm.
  destruct (Qlt_le_dec (cash st) 0) as [Hneg|Hpos].
  - assert (Hs : sts < 0) by (unfold sts; apply Qlt_shift_div_r; lra).
    rewrite (Qabs_neg sts) by lra. rewrite (Qabs_neg (cash st)) by lra.
    assert (Hc : b_close b1 * - sts == - cash st) by (rewrite <- Hm; ring).
    setoid_replace ((b_close b1 - b_close b2) * - sts)
      with (- cash st - b_close b2 * - sts) by (rewrite <- Hc; ring).
    ring.
  - assert (Hs : 0 <= sts) by (unfold sts; apply Qle_shift_div_l; lra).
    rewrite (Qabs_pos sts) by lra. rewrite (Qabs_pos (cash st)) by lra.
    assert (Hc : b_close b1 * sts == cash st) by (rewrite <- Hm; ring).
    setoid_replace ((b_close b1 - b_close b2) * sts)
      with (cash st - b_close b2 * sts) by (rewrite <- Hc; ring).
    ring.
Qed.

Lemma short_round_trip_cash_witness :
  position (transition demo_calc (transition demo_calc (sim_of (fresh_backtester 1000))
              (mkBar "2025-10-02T00:00:00" 100 SELL_ENTRY))
              (mkBar "2025-10-03T00:00:00" 110 SELL_EXIT)) = P_NOT_HELD /\
  exists c, completed_rows (trades (transition demo_calc (transition demo_calc
              (sim_of (fresh_backtester 1000)) (mkBar "2025-10-02T00:00:00" 100 SELL_ENTRY))
              (mkBar "2025-10-03T00:00:00" 110 SELL_EXIT)))
            = (completed_rows (trades (sim_of (fresh_backtester 1000))) ++ [c])%list /\
            cash (transition demo_calc (transition demo_calc (sim_of (fresh_backtester 1000))
              (mkBar "2025-10-02T00:00:00" 100 SELL_ENTRY))
              (mkBar "2025-10-03T00:00:00" 110 SELL_EXIT))
            == cash (sim_of (fresh_backtester 1000)) + ct_net_pl c
               + (cash (sim_of (fresh_backtester 1000))
                  - Qabs (cash (sim_of (fresh_backtester 1000)))).
Proof.
  apply (short_round_trip_cash demo_calc (sim_of (fresh_backtester 1000))
           (mkBar "2025-10-02T00:00:00" 100 SELL_ENTRY)
           (mkBar "2025-10-03T00:00:00" 110 SELL_EXIT));
    reflexivity.
Defined.

Lemma long_inv_step : forall calc c0 st b,
  b_signal b <> SELL_ENTRY -> 0 < b_close b ->
  long_inv c0 st -> long_inv c0 (transition calc st b).
Proof.
  intros calc c0 st b Hs Hpr Hi. unfold long_inv in Hi.
  destruct (position st) eqn:Hp.
  - destruct (b_signal b) eqn:Hsig;
      try (unfold transition; rewrite Hp, Hsig; unfold long_inv; rewrite Hp; exact Hi);
      [|contradiction].
    destruct (position (transition calc st b)) eqn:Hb.
    + assert (E : transition calc st b = st).
      { unfold transition in Hb |- *. rewrite Hp, Hsig in *. cbv zeta in *.
        destruct (qlt 0 _); [discriminate | reflexivity]. }
      rewrite E. unfold long_inv. rewrite Hp. exact Hi.
    + destruct (long_entry_state calc st b Hp Hsig Hb) as [Q E]. rewrite E.
      unfold long_inv. cbn [position trades cash shares].
      eexists _, _. split; [reflexivity|]. cbn [t_exit t_type t_shares t_entry_price
                                               t_fees_entry].
      set (f1 := get_trade_fees calc (cash st) TS_BUY (Some (b_ts b)) None) in *.
      assert (Hnz : ~ b_close b == 0)
        by (intro Hz; rewrite Hz in Hpr; apply (Qlt_irrefl 0); exact Hpr).
      split; [reflexivity|]. split; [reflexivity|]. split; [reflexivity|].
      split; [apply Qlt_shift_div_l; lra|]. split; [reflexivity|].
      rewrite <- Hi. field. exact Hnz.
    + unfold transition in Hb. rewrite Hp, Hsig in Hb. cbv zeta in Hb.
      destruct (qlt 0 _); cbn [position] in Hb; congruence.
  - destruct Hi as [pre [t [Ht [Hx [Hty [Hsh [Hpos [Hc Hq]]]]]]]].
    destruct (b_signal b) eqn:Hsig;
      try (unfold transition; rewrite Hp, Hsig; unfold long_inv; rewrite Hp;
           exists pre, t; repeat split; assumption).
    assert (Hl : last_opt (trades st) = Some t) by (rewrite Ht; apply last_opt_snoc).
    assert (Hhx : has_exit t = false) by (unfold has_exit; rewrite Hx; reflexivity).
    rewrite (long_exit_state calc st b t Hp Hsig Hl Hhx).
    unfold long_inv. cbn [position trades cash shares].
    rewrite Ht, update_last_snoc, total_net_pl_snoc.
    unfold complete, close_trade.
    cbn [ct_net_pl t_shares t_type t_entry_price t_fees_entry t_exit x_price x_fees].
    rewrite Hty, Hsh.
    match goal with |- context [get_trade_fees calc ?a ?s ?b ?c] =>
      set (f2 := get_trade_fees calc a s b c) end.
    rewrite (Qabs_pos (t_shares t)) by lra. rewrite Hc, Qplus_assoc, <- Hq. ring.
  - contradiction.
Qed.

Lemma long_inv_loop : forall calc c0 bars st,
  (forall b, In b bars -> b_signal b <> SELL_ENTRY /\ 0 < b_close b) ->
  long_inv c0 st -> long_inv c0 (fst (sim_loop calc st bars)).
Proof.
  intros calc c0 bars. induction bars as [|b bars IH]; intros st Hb Hi; [exact Hi|].
  rewrite sim_loop_cons. cbn [fst]. apply IH.
  - intros b' Hin. apply Hb. right. exact Hin.
  - destruct (Hb b (or_introl eq_refl)) as [H1 H2]. apply long_inv_step; assumption.
Qed.

(** In a run whose bars after the first carry no [SELL_ENTRY] signal and
    have positive closes, a run that ends flat ends with the initial
    capital plus the sum of the net P/L of the completed records of the
    ledger (the rows [get_trades] keeps). *)
Theorem long_only_cash_accounting : forall calc bt df,
  (forall b, In b (tl df) -> b_signal b <> SELL_ENTRY /\ 0 < b_close b) ->
  bt_position (run calc bt df) = P_NOT_HELD ->
  bt_cash (run calc bt df) == initial_capital bt + total_net_pl (bt_trades (run calc bt df)).
Proof.
  intros calc bt df Hb Hp.
  pose proof (long_inv_loop calc (initial_capital bt) (tl df) (sim_of (reset_state bt)) Hb)
    as Hi.
  rewrite run_unfold in Hp |- *.
  destruct (sim_loop calc (sim_of (reset_state bt)) (tl df)) as [st es] eqn:E.
  cbn [fst] in Hi. cbn [bt_position bt_cash bt_trades] in *.
  assert (H0 : long_inv (initial_capital bt) (sim_of (reset_state bt))).
  { unfold long_inv. cbn. unfold total_net_pl. cbn. symmetry. apply Qplus_0_r. }
  specialize (Hi H0). unfold long_inv in Hi. rewrite Hp in Hi. exact Hi.
Qed.

Lemma long_only_cash_accounting_witness :
  (forall b, In b (tl demo_bars) -> b_signal b <> SELL_ENTRY /\ 0 < b_close b) /\
  bt_position (run demo_calc (fresh_backtester 1000) demo_bars) = P_NOT_HELD /\
  bt_cash (run demo_calc (fresh_backtester 1000) demo_bars)
  == initial_capital (fresh_backtester 1000)
     + total_net_pl (bt_trades (run demo_calc (fresh_backtester 1000) demo_bars)).
Proof.
  assert (Hb : forall b, In b (tl demo_bars) -> b_signal b <> SELL_ENTRY /\ 0 < b_close b).
  { intros b Hin. vm_compute in Hin.
    repeat (destruct Hin as [<-|Hin]; [split; [discriminate | reflexivity]|]).
    contradiction. }
  assert (Hp : bt_position (run demo_calc (fresh_backtester 1000) demo_bars) = P_NOT_HELD)
    by (vm_compute; reflexivity).
  split; [exact Hb|]. split; [exact Hp|].
  exact (long_only_cash_accounting demo_calc (fresh_backtester 1000) demo_bars Hb Hp).
Defined.

Lemma sim_loop_length : forall calc bars st,
  List.length (snd (sim_loop calc st bars)) = List.length bars.
Proof.
  intros calc bars. induction bars as [|b bars IH]; intros st; [reflexivity|].
  rewrite sim_loop_cons. cbn [snd List.length]. rewrite IH. reflexivity.
Qed.

(** [run] records one equity value per bar after the first, and its
    final equity is the last recorded value (the initial capital when
    nothing was recorded), whatever position the run ends in. *)
Theorem run_curve_and_final_equity : forall calc bt df,
  exists curve, equity_curve (run calc bt df) = Some curve /\
    List.length curve = (List.length df - 1)%nat /\
    final_equity (run calc bt df)
    = match last_opt curve with Some v => v | None => initial_capital bt end.
Proof.
  intros calc bt df. rewrite run_unfold.
  pose proof (sim_loop_length calc (tl df) (sim_of (reset_state bt))) as Hl.
  destruct (sim_loop calc (sim_of (reset_state bt)) (tl df)) as [st es] eqn:E.
  exists es. cbn [equity_curve final_equity snd] in *. split; [reflexivity|]. split.
  - rewrite Hl. destruct df; simpl; lia.
  - destruct (negb _ && negb _); [|reflexivity]. destruct (last_opt es); reflexivity.
Qed.

(** ** Extra properties: [Backtester._calculate_max_drawdown] *)

Lemma drawdown_step_bounds : forall e m,
  0 < e -> e <= m -> -1 < (e - m) / m /\ (e - m) / m <= 0.
Proof.
  intros e m He Hm. split.
  - apply Qlt_shift_div_l; lra.
  - apply Qle_shift_div_r; lra.
Qed.

Lemma qmax_bounds : forall a b, a <= qmax a b /\ b <= qmax a b.
Proof. intros a b. unfold qmax. qlt_cases; lra. Qed.

Lemma drawdowns_from_bounds : forall l m,
  0 < m -> (forall x, In x l -> 0 < x) ->
  forall d, In d (map2 (fun e m => (e - m) / m) l (cummax_from m l)) -> -1 < d /\ d <= 0.
Proof.
  induction l as [|x l IH]; intros m Hm Hl d Hd; [destruct Hd|].
  cbn [cummax_from map2 In] in Hd. destruct (qmax_bounds m x) as [H1 H2].
  destruct Hd as [<-|Hd].
  - apply drawdown_step_bounds; [apply Hl; left; reflexivity | exact H2].
  - apply (IH (qmax m x)); [lra | intros y Hy; apply Hl; right; exact Hy | exact Hd].
Qed.

Lemma fold_qmin_preserves : forall (P : Q -> Prop) l acc,
  P acc -> (forall d, In d l -> P d) -> P (fold_left qmin l acc).
Proof.
  intros P l. induction l as [|d l IH]; intros acc Ha Hl; [exact Ha|].
  cbn [fold_left]. apply IH; [|intros y Hy; apply Hl; right; exact Hy].
  unfold qmin. destruct (qlt d acc); [apply Hl; left; reflexivity | exact Ha].
Qed.

Lemma max_drawdown_cons : forall x l,
  calculate_max_drawdown (Some (x :: l))
  = fold_left qmin (map2 (fun e m => (e - m) / m) l (cummax_from x l)) ((x - x) / x) * 100.
Proof. reflexivity. Qed.

Lemma drawdown_min_bounds : forall x l,
  0 < x -> (forall y, In y l -> 0 < y) ->
  -1 < fold_left qmin (map2 (fun e m => (e - m) / m) l (cummax_from x l)) ((x - x) / x)
  /\ fold_left qmin (map2 (fun e m => (e - m) / m) l (cummax_from x l)) ((x - x) / x) <= 0.
Proof.
  intros x l Hx Hl.
  apply (fold_qmin_preserves (fun d => -1 < d /\ d <= 0)).
  - apply drawdown_step_bounds; lra.
  - apply drawdowns_from_bounds; assumption.
Qed.

(** For a non-empty equity curve of positive values, the maximum drawdown
    lies in (-100, 0]. *)
Theorem max_drawdown_bounds : forall c,
  c <> [] -> (forall x, In x c -> 0 < x) ->
  -100 < calculate_max_drawdown (Some c) /\ calculate_max_drawdown (Some c) <= 0.
Proof.
  intros [|x l] Hne Hpos; [contradiction|]. rewrite max_drawdown_cons.
  assert (Hx : 0 < x) by (apply Hpos; left; reflexivity).
  pose proof (drawdown_min_bounds x l Hx (fun y Hy => Hpos y (or_intror Hy))). lra.
Qed.

Lemma max_drawdown_bounds_witness :
  [1000; 1100; 990; 1050] <> [] /\ (forall x, In x [1000; 1100; 990; 1050] -> 0 < x) /\
  -100 < calculate_max_drawdown (Some [1000; 1100; 990; 1050]) /\
  calculate_max_drawdown (Some [1000; 1100; 990; 1050]) <= 0.
Proof.
  assert (Hn : [1000; 1100; 990; 1050] <> []) by discriminate.
  assert (Hp : forall x, In x [1000; 1100; 990; 1050] -> 0 < x).
  { intros x Hx. repeat (destruct Hx as [<-|Hx]; [reflexivity|]). contradiction. }
  split; [exact Hn|]. split; [exact Hp|]. exact (max_drawdown_bounds _ Hn Hp).
Defined.

Lemma nondecreasing_head_eq : forall a b l,
  a == b -> nondecreasing (a :: l) = nondecreasing (b :: l).
Proof.
  intros a b [|y l] H; [reflexivity|]. cbn [nondecreasing].
  assert (E : Qle_bool a y = Qle_bool b y).
  { apply Bool.eq_iff_eq_true. rewrite !Qle_bool_iff. split; intro; lra. }
  rewrite E. reflexivity.
Qed.

Lemma drawdowns_nonneg_iff : forall l m,
  0 < m -> (forall x, In x l -> 0 < x) ->
  ((forall d, In d (map2 (fun e m => (e - m) / m) l (cummax_from m l)) -> 0 <= d)
   <-> nondecreasing (m :: l) = true).
Proof.
  induction l as [|x l IH]; intros m Hm Hl.
  - split; [reflexivity | intros _ d []].
  - cbn [cummax_from map2 In]. change (nondecreasing (m :: x :: l))
      with (Qle_bool m x && nondecreasing (x :: l)).
    assert (Hx : 0 < x) by (apply Hl; left; reflexivity).
    assert (Hl' : forall y, In y l -> 0 < y) by (intros y Hy; apply Hl; right; exact Hy).
    destruct (Qle_bool m x) eqn:E; cbn [andb].
    + apply Qle_bool_iff in E.
      assert (HM : qmax m x == x) by (unfold qmax; qlt_cases; lra).
      rewrite <- (nondecreasing_head_eq _ _ l HM).
      rewrite <- (IH (qmax m x)) by (try exact Hl'; lra).
      split.
      * intros H d Hd. apply H. right. exact Hd.
      * intros H d [<-|Hd]; [|apply H; exact Hd].
        apply Qle_shift_div_l; lra.
    + split; [|discriminate]. intros H. exfalso.
      assert (E' : x < m) by (apply Qnot_le_lt; intro C; apply Qle_bool_iff in C; congruence).
      assert (HM : qmax m x = m) by (unfold qmax; qlt_cases; [lra | reflexivity]).
      specialize (H _ (or_introl eq_refl)). rewrite HM in H.
      assert (Hn : (x - m) / m < 0) by (apply Qlt_shift_div_r; lra). lra.
Qed.

Lemma fold_qmin_nonneg_iff : forall l acc,
  0 <= fold_left qmin l acc <-> 0 <= acc /\ (forall d, In d l -> 0 <= d).
Proof.
  induction l as [|d l IH]; intros acc; cbn [fold_left].
  - split; [intros H; split; [exact H | intros _ []] | intros [H _]; exact H].
  - rewrite IH. unfold qmin. split.
    + intros [H1 H2]. revert H1. qlt_cases; intros H1.
      * split; [lra|]. intros y [<-|Hy]; [lra | apply H2; exact Hy].
      * split; [lra|]. intros y [<-|Hy]; [lra | apply H2; exact Hy].
    + intros [H1 H2]. split; [|intros y Hy; apply H2; right; exact Hy].
      destruct (qlt d acc); [apply H2; left; reflexivity | exact H1].
Qed.

(** For a non-empty equity curve of positive values, the maximum drawdown
    is 0 exactly when the curve never decreases. *)
Theorem max_drawdown_zero_iff : forall c,
  c <> [] -> (forall x, In x c -> 0 < x) ->
  (calculate_max_drawdown (Some c) == 0 <-> nondecreasing c = true).
Proof.
  intros [|x l] Hne Hpos; [contradiction|]. rewrite max_drawdown_cons.
  assert (Hx : 0 < x) by (apply Hpos; left; reflexivity).
  assert (Hl : forall y, In y l -> 0 < y) by (intros y Hy; apply Hpos; right; exact Hy).
  pose proof (drawdown_min_bounds x l Hx Hl) as [_ Hle].
  rewrite <- (drawdowns_nonneg_iff l x Hx Hl).
  set (mn := fold_left qmin _ _) in *.
  assert (Hz : 0 <= (x - x) / x) by (apply Qle_shift_div_l; lra).
  transitivity (0 <= mn).
  - split; intros H; lra.
  - unfold mn. rewrite fold_qmin_nonneg_iff. split; [intros [_ H]; exact H | split; assumption].
Qed.

Lemma max_drawdown_zero_iff_witness :
  [1000; 1000; 1200] <> [] /\ (forall x, In x [1000; 1000; 1200] -> 0 < x) /\
  (calculate_max_drawdown (Some [1000; 1000; 1200]) == 0
   <-> nondecreasing [1000; 1000; 1200] = true).
Proof.
  assert (Hn : [1000; 1000; 1200] <> []) by discriminate.
  assert (Hp : forall x, In x [1000; 1000; 1200] -> 0 < x).
  { intros x Hx. repeat (destruct Hx as [<-|Hx]; [reflexivity|]). contradiction. }
  split; [exact Hn|]. split; [exact Hp|]. exact (max_drawdown_zero_iff _ Hn Hp).
Defined.

Lemma fold_Qplus_repeat : forall c m a,
  fold_left Qplus (repeat c m) a == a + inject_Z (Z.of_nat m) * c.
Proof.
  intros c m. induction m as [|m IH]; intros a; cbn [repeat fold_left].
  - cbn. ring.
  - rewrite IH, Nat2Z.inj_succ, <- Z.add_1_r, inject_Z_plus. cbn [inject_Z]. ring.
Qed.

Lemma sample_variance_repeat_zero : forall c m,
  c == 0 -> Sharpe.sample_variance (repeat c m) == 0.
Proof.
  intros c m Hc. unfold Sharpe.sample_variance, Sharpe.qsum.
  rewrite repeat_length, map_repeat.
  assert (Havg : fold_left Qplus (repeat c m) 0 / inject_Z (Z.of_nat m) == 0).
  { rewrite fold_Qplus_repeat, Hc. unfold Qdiv. ring. }
  rewrite fold_Qplus_repeat, Havg, Hc. unfold Qdiv. ring.
Qed.

Lemma pct_change_from_repeat : forall v n,
  Sharpe.pct_change_from v (repeat v n) = repeat (Sharpe.pct v v) n.
Proof. intros v n. induction n as [|n IH]; cbn; [reflexivity | rewrite IH; reflexivity]. Qed.

Lemma dropna_repeat_fin : forall c n,
  Sharpe.dropna (repeat (Sharpe.Fin c) n) = repeat (Sharpe.Fin c) n.
Proof. intros c n. unfold Sharpe.dropna. induction n as [|n IH]; cbn; [reflexivity | rewrite IH; reflexivity]. Qed.

Lemma dropna_repeat_nan : forall n, Sharpe.dropna (repeat Sharpe.NaN n) = [].
Proof. intros n. unfold Sharpe.dropna. induction n as [|n IH]; cbn; [reflexivity | exact IH]. Qed.

Lemma dropna_pct_change_repeat : forall v n,
  Sharpe.dropna (Sharpe.pct_change (v :: repeat v n)) =
  if Qeq_bool v 0 then [] else repeat (Sharpe.Fin (v / v - 1)) n.
Proof.
  intros v n. unfold Sharpe.pct_change. rewrite pct_change_from_repeat.
  change (Sharpe.dropna (Sharpe.NaN :: repeat (Sharpe.pct v v) n))
    with (Sharpe.dropna (repeat (Sharpe.pct v v) n)).
  unfold Sharpe.pct. destruct (Qeq_bool v 0).
  - apply dropna_repeat_nan.
  - apply dropna_repeat_fin.
Qed.

Lemma all_fin_repeat : forall c n,
  Sharpe.all_fin (repeat (Sharpe.Fin c) n) = Some (repeat c n).
Proof. intros c n. induction n as [|n IH]; cbn; [reflexivity | rewrite IH; reflexivity]. Qed.

Lemma std_sq_repeat : forall c n,
  Sharpe.std_sq (repeat (Sharpe.Fin c) (S (S n))) =
  Some (Sharpe.sample_variance (repeat c (S (S n)))).
Proof.
  intros c n. unfold Sharpe.std_sq. rewrite repeat_length, all_fin_repeat. reflexivity.
Qed.

(** The Sharpe ratio of a constant equity curve is 0, except for a curve of
    exactly two equal non-zero values, whose single daily return has an
    undefined standard deviation, so the ratio is NaN. *)
Theorem sharpe_constant_curve : forall v n rf,
  Sharpe.calculate_sharpe_ratio (Some (repeat v n)) rf =
  if ((n =? 2)%nat && negb (Qeq_bool v 0))%bool then Sharpe.SNaN else Sharpe.SNum 0%R.
Proof.
  intros v [|n] rf; [reflexivity|].
  unfold Sharpe.calculate_sharpe_ratio. cbn [repeat].
  rewrite dropna_pct_change_repeat.
  destruct (Qeq_bool v 0) eqn:Ev.
  - rewrite Bool.andb_false_r. reflexivity.
  - destruct n as [|[|n]]; [reflexivity | reflexivity |].
    rewrite std_sq_repeat.
    assert (Hc : v / v - 1 == 0).
    { assert (Hv : ~ v == 0) by (intro C; apply Qeq_bool_iff in C; congruence).
      unfold Qdiv. rewrite Qmult_inv_r by exact Hv. ring. }
    rewrite (proj2 (Qeq_bool_iff _ _) (sample_variance_repeat_zero _ _ Hc)).
    reflexivity.
Qed.

(** ** Extra properties: strategy signals fed to the backtester *)

Lemma run_position : forall calc bt df,
  bt_position (run calc bt df) = position (fst (sim_loop calc (sim_of (reset_state bt)) (tl df))).
Proof.
  intros calc bt df. rewrite run_unfold. destruct (sim_loop _ _ _); reflexivity.
Qed.

Lemma strategy_step_tracks : forall calc st b r p,
  (position st = p \/ (position st = P_NOT_HELD /\ p = P_BUY)) ->
  (position st <> P_NOT_HELD -> no_open_last (trades st) = false) ->
  b_signal b = snd (four_state_step p r) ->
  (position (transition calc st b) = fst (four_state_step p r)
   \/ (position (transition calc st b) = P_NOT_HELD /\ fst (four_state_step p r) = P_BUY)) /\
  (position (transition calc st b) <> P_NOT_HELD ->
   no_open_last (trades (transition calc st b)) = false).
Proof.
  intros calc st b r p Hr Ho Hs. destruct Hr as [<-|[Hp ->]].
  - unfold transition. destruct (position st) eqn:Hp; unfold four_state_step in Hs |- *.
    + destruct (buy_entry r); [|destruct (sell_entry r)]; cbn [snd fst] in Hs |- *;
        rewrite Hs; cbv zeta.
      * destruct (qlt _ _).
        -- split; [left; reflexivity|]. intros _. unfold no_open_last.
           cbn [trades]. rewrite last_opt_snoc. reflexivity.
        -- split; [right; split; [exact Hp | reflexivity] | rewrite Hp; exact Ho].
      * split; [left; reflexivity|]. intros _. unfold no_open_last.
        cbn [trades]. rewrite last_opt_snoc. reflexivity.
      * split; [left; exact Hp | rewrite Hp; exact Ho].
    + assert (Hn : no_open_last (trades st) = false) by (apply Ho; discriminate).
      unfold no_open_last in Hn.
      destruct (long_exit r); cbn [snd fst] in Hs |- *; rewrite Hs.
      * destruct (last_opt (trades st)) as [x|]; [|discriminate]. rewrite Hn.
        split; [left; reflexivity | intros C; contradiction C; reflexivity].
      * split; [left; exact Hp | rewrite Hp; exact Ho].
    + assert (Hn : no_open_last (trades st) = false) by (apply Ho; discriminate).
      unfold no_open_last in Hn.
      destruct (short_exit r); cbn [snd fst] in Hs |- *; rewrite Hs.
      * destruct (last_opt (trades st)) as [x|]; [|discriminate]. rewrite Hn.
        split; [left; reflexivity | intros C; contradiction C; reflexivity].
      * split; [left; exact Hp | rewrite Hp; exact Ho].
  - unfold transition. rewrite Hp. unfold four_state_step in Hs |- *.
    destruct (long_exit r); cbn [snd fst] in Hs |- *; rewrite Hs.
    + split; [left; exact Hp | exact Ho].
    + split; [right; split; [exact Hp | reflexivity] | exact Ho].
Qed.

Lemma strategy_loop_tracks : forall calc rows bars st p,
  map b_signal bars = four_state_loop p rows ->
  (position st = p \/ (position st = P_NOT_HELD /\ p = P_BUY)) ->
  (position st <> P_NOT_HELD -> no_open_last (trades st) = false) ->
  position (fst (sim_loop calc st bars)) = four_state_position p rows
  \/ (position (fst (sim_loop calc st bars)) = P_NOT_HELD
      /\ four_state_position p rows = P_BUY).
Proof.
  intros calc rows. induction rows as [|r rows IH]; intros bars st p Hm Hr Ho.
  - destruct bars; [exact Hr | discriminate].
  - cbn [four_state_loop four_state_position] in Hm |- *.
    destruct (four_state_step p r) as [p' s] eqn:Es.
    destruct bars as [|b bars]; [discriminate|]. injection Hm as Hs Hm.
    rewrite sim_loop_cons. cbn [fst].
    assert (Hs' : b_signal b = snd (four_state_step p r)) by (rewrite Es; exact Hs).
    destruct (strategy_step_tracks calc st b r p Hr Ho Hs') as [Hr' Ho'].
    rewrite Es in Hr'. cbn [fst] in Hr'. exact (IH bars _ p' Hm Hr' Ho').
Qed.

(** When the bars' signals are the ['Signal'] column of the four-state
    strategy logic, the backtester ends in the position the strategy ends
    in, except that it may be out of the market where the strategy is
    long: a long entry the cash cannot pay for is skipped, and the
    strategy's later long exit is then ignored. In particular the
    backtester is short exactly when the strategy is. *)
Theorem strategy_backtester_positions : forall calc bt rows df,
  map b_signal df = apply_four_state_strategy_logic rows ->
  bt_position (run calc bt df) = four_state_position P_NOT_HELD (tl rows)
  \/ (bt_position (run calc bt df) = P_NOT_HELD
      /\ four_state_position P_NOT_HELD (tl rows) = P_BUY).
Proof.
  intros calc bt rows df Hm. rewrite run_position.
  destruct rows as [|r rows]; destruct df as [|b df]; try discriminate.
  - left. reflexivity.
  - injection Hm as _ Hm. cbn [tl].
    apply (strategy_loop_tracks calc rows df _ P_NOT_HELD Hm).
    + left. reflexivity.
    + intros C. contradiction C. reflexivity.
Qed.

Lemma strategy_backtester_positions_witness :
  map b_signal strategy_bars = apply_four_state_strategy_logic strategy_rows /\
  (bt_position (run demo_calc (fresh_backtester 1000) strategy_bars)
     = four_state_position P_NOT_HELD (tl strategy_rows)
   \/ (bt_position (run demo_calc (fresh_backtester 1000) strategy_bars) = P_NOT_HELD
       /\ four_state_position P_NOT_HELD (tl strategy_rows) = P_BUY)).
Proof.
  split; [reflexivity|]. apply strategy_backtester_positions. reflexivity.
Defined.

(** ** Extra properties: [Strategy.apply_rsi_ema_crossover] *)

Lemma four_state_position_app : forall l1 l2 p,
  four_state_position p (l1 ++ l2) = four_state_position (four_state_position p l1) l2.
Proof.
  induction l1 as [|r l1 IH]; intros l2 p; [reflexivity|]. cbn [app four_state_position].
  apply IH.
Qed.

Lemma qlt_asym_b : forall a b, qlt a b = true -> qlt b a = false.
Proof.
  intros a b H. unfold qlt in *. apply negb_true_iff in H. apply negb_false_iff.
  apply Qle_bool_iff. apply Qlt_le_weak. apply Qnot_le_lt. intros C.
  apply Qle_bool_iff in C. congruence.
Qed.

Lemma rsi_entries_exclusive : forall rsi ma thr,
  (qlt ma rsi && qlt thr rsi) && (qlt rsi ma && qlt rsi thr) = false.
Proof.
  intros rsi ma thr. destruct (qlt ma rsi) eqn:E; [|reflexivity].
  rewrite (qlt_asym_b _ _ E). rewrite !andb_false_r. reflexivity.
Qed.

Ltac rsi_cases :=
  repeat match goal with H : ?x = ?x -> _ |- _ => specialize (H eq_refl) end;
  try discriminate; cbn; intuition congruence.

Lemma rsi_from_step : forall thr rows pb ps p pre r suf,
  rsi_rows_from pb ps rows thr = (pre ++ r :: suf)%list ->
  (p = P_BUY -> pb = true) -> (p = P_SELL -> ps = true) ->
  (fst (four_state_step (four_state_position p pre) r) = P_BUY
     <-> buy_entry r = true /\ four_state_position p pre <> P_SELL) /\
  (fst (four_state_step (four_state_position p pre) r) = P_SELL
     <-> sell_entry r = true /\ four_state_position p pre <> P_BUY).
Proof.
  intros thr rows. induction rows as [|[rsi ma] rows IH];
    intros pb ps p pre r suf H Hb Hs.
  - destruct pre; discriminate.
  - cbn [rsi_rows_from] in H.
    pose proof (rsi_entries_exclusive rsi ma thr) as Hx.
    remember (qlt ma rsi && qlt thr rsi) as be eqn:Hbe.
    remember (qlt rsi ma && qlt rsi thr) as se eqn:Hse. clear Hbe Hse.
    destruct pre as [|r0 pre].
    + injection H as <- _. cbn [four_state_position].
      destruct p, pb, ps, be, se; rsi_cases.
    + injection H as <- H. cbn [four_state_position].
      apply (IH be se _ pre r suf H); destruct p, pb, ps, be, se; rsi_cases.
Qed.

(** In the RSI strategy, from the second row on, the position after a row
    is long exactly when the row's long entry condition holds (RSI above
    its moving average and above the threshold) and the position before
    it was not short; symmetrically it is short exactly when the short
    entry condition holds and the position before was not long. So a long
    is closed on the first row whose long entry condition fails, and a
    short exit never opens a long on the same row. *)
Theorem rsi_position_follows_entries : forall rows thr pre r suf,
  tl (rsi_rows rows thr) = (pre ++ r :: suf)%list ->
  (four_state_position P_NOT_HELD (pre ++ [r]) = P_BUY
     <-> buy_entry r = true /\ four_state_position P_NOT_HELD pre <> P_SELL) /\
  (four_state_position P_NOT_HELD (pre ++ [r]) = P_SELL
     <-> sell_entry r = true /\ four_state_position P_NOT_HELD pre <> P_BUY).
Proof.
  intros rows thr pre r suf H. unfold rsi_rows in H.
  destruct rows as [|[rsi ma] rows]; [destruct pre; discriminate|].
  cbn [rsi_rows_from tl] in H.
  rewrite four_state_position_app. cbn [four_state_position].
  apply (rsi_from_step thr rows _ _ P_NOT_HELD pre r suf H); discriminate.
Qed.

Lemma rsi_position_follows_entries_witness :
  tl (rsi_rows [(40, 45); (60, 50); (55, 58)] 50)
    = ([mkRow true false false true] ++ mkRow false false true false :: [])%list /\
  (four_state_position P_NOT_HELD ([mkRow true false false true] ++ [mkRow false false true false]) = P_BUY
     <-> buy_entry (mkRow false false true false) = true
         /\ four_state_position P_NOT_HELD [mkRow true false false true] <> P_SELL) /\
  (four_state_position P_NOT_HELD ([mkRow true false false true] ++ [mkRow false false true false]) = P_SELL
     <-> sell_entry (mkRow false false true false) = true
         /\ four_state_position P_NOT_HELD [mkRow true false false true] <> P_BUY).
Proof.
  assert (H : tl (rsi_rows [(40, 45); (60, 50); (55, 58)] 50)
    = ([mkRow true false false true] ++ mkRow false false true false :: [])%list)
    by reflexivity.
  split; [exact H|]. exact (rsi_position_follows_entries _ _ _ _ _ H).
Defined.

(** ** Extra properties: [Backtester.analyze_performance] *)

Lemma fold_Qplus_shift : forall l a,
  fold_left Qplus l a == a + fold_left Qplus l 0.
Proof.
  induction l as [|x l IH]; intros a; cbn [fold_left]; [ring|].
  rewrite (IH (a + x)), (IH (0 + x)). ring.
Qed.

Lemma qsum_cons : forall x l, Sharpe.qsum (x :: l) == x + Sharpe.qsum l.
Proof.
  intros x l. unfold Sharpe.qsum. cbn [fold_left]. rewrite fold_Qplus_shift. ring.
Qed.

Lemma qsum_pos : forall l, l <> [] -> (forall x, In x l -> 0 < x) -> 0 < Sharpe.qsum l.
Proof.
  induction l as [|x l IH]; intros Hne H; [contradiction|]. rewrite qsum_cons.
  assert (Hx : 0 < x) by (apply H; left; reflexivity).
  destruct l as [|y l].
  - unfold Sharpe.qsum. cbn. lra.
  - assert (0 < Sharpe.qsum (y :: l)).
    { apply IH; [discriminate | intros z Hz; apply H; right; exact Hz]. }
    lra.
Qed.

Lemma qsum_nonpos : forall l, (forall x, In x l -> x <= 0) -> Sharpe.qsum l <= 0.
Proof.
  induction l as [|x l IH]; intros H; [unfold Sharpe.qsum; cbn; lra|]. rewrite qsum_cons.
  assert (x <= 0) by (apply H; left; reflexivity).
  assert (Sharpe.qsum l <= 0) by (apply IH; intros z Hz; apply H; right; exact Hz).
  lra.
Qed.

Lemma length_filter_partition : forall {A} (f : A -> bool) l,
  (List.length (filter (fun x => negb (f x)) l) + List.length (filter f l))%nat = List.length l.
Proof.
  intros A f l. induction l as [|x l IH]; [reflexivity|]. cbn [filter List.length].
  destruct (f x); cbn [negb List.length]; lia.
Qed.

Lemma inject_nat_pos : forall n, (0 < n)%nat -> 0 < inject_Z (Z.of_nat n).
Proof.
  intros n H. unfold Qlt. cbn. lia.
Qed.

Lemma inject_nat_le : forall a b, (a <= b)%nat -> inject_Z (Z.of_nat a) <= inject_Z (Z.of_nat b).
Proof.
  intros a b H. rewrite <- Zle_Qle. lia.
Qed.

Lemma get_trades_ok : forall ts l,
  get_trades ts = Ok l ->
  l = completed_rows ts /\ (ts = [] \/ existsb has_exit ts = true).
Proof.
  intros [|t ts] l H; cbn [get_trades] in H.
  - injection H as <-. split; [reflexivity | left; reflexivity].
  - destruct (existsb has_exit (t :: ts)) eqn:E; [|discriminate].
    injection H as <-. split; [reflexivity | right; reflexivity].
Qed.

Lemma get_trades_raise : forall ts e,
  get_trades ts = Raise e ->
  e = KeyError "['Exit_Price', 'Fees_Exit']" /\ ts <> [] /\ existsb has_exit ts = false.
Proof.
  intros [|t ts] e H; cbn [get_trades] in H; [discriminate|].
  destruct (existsb has_exit (t :: ts)) eqn:E; [discriminate|].
  injection H as <-. split; [reflexivity | split; [discriminate | reflexivity]].
Qed.

Lemma single_open_record : forall l,
  (open_count l <= 1)%nat -> l <> [] -> existsb has_exit l = false ->
  (1 <= open_count l)%nat /\ exists t, l = [t] /\ has_exit t = false.
Proof.
  intros [|t [|t' l]] H1 Hn He; [contradiction| |].
  - cbn [existsb] in He. rewrite orb_false_r in He.
    rewrite open_count_cons in *. rewrite He.
    split; [lia | exists t; split; [reflexivity | exact He]].
  - cbn [existsb] in He. apply orb_false_iff in He as [Ht He].
    apply orb_false_iff in He as [Ht' _].
    rewrite !open_count_cons, Ht, Ht' in H1. lia.
Qed.

(** In the metrics of [analyze_performance], the number of trades is the
    number of completed trades in the ledger, and every one of them is
    counted once, as winning (net P/L above 0) or as losing (net P/L at
    most 0); the win rate lies in [0, 100]; the average winning trade is
    positive when there is a winning trade, and the average losing trade
    is never positive. *)
Theorem analyze_performance_counts : forall bt,
  match analyze_performance bt with
  | PerfMetrics m =>
      m_number_of_trades m = List.length (completed_rows (bt_trades bt)) /\
      (m_winning_trades m + m_losing_trades m)%nat = m_number_of_trades m /\
      0 <= m_win_rate_pct m <= 100 /\
      ((0 < m_winning_trades m)%nat -> 0 < m_average_winning_trade m) /\
      m_average_losing_trade m <= 0
  | _ => True
  end.
Proof.
  intros bt. unfold analyze_performance.
  destruct (equity_curve bt) as [[|e c]|]; [exact I | | exact I]. cbv zeta.
  destruct (get_trades (bt_trades bt)) as [td|ex] eqn:Eg; [|exact I].
  apply get_trades_ok in Eg as [-> _].
  set (pl := map ct_net_pl (completed_rows (bt_trades bt))).
  assert (Hn : List.length pl = List.length (completed_rows (bt_trades bt))) by apply length_map.
  assert (Hp : (List.length (filter (fun x => qlt 0 x) pl)
                + List.length (filter (fun x => Qle_bool x 0) pl))%nat = List.length pl)
    by exact (length_filter_partition (fun x => Qle_bool x 0) pl).
  destruct (0 <? List.length (completed_rows (bt_trades bt)))%nat eqn:E0;
    cbv beta iota delta [m_number_of_trades m_winning_trades m_losing_trades
                         m_win_rate_pct m_average_winning_trade m_average_losing_trade].
  - apply Nat.ltb_lt in E0.
    set (w := filter (fun x => qlt 0 x) pl) in *.
    set (l := filter (fun x => Qle_bool x 0) pl) in *.
    split; [reflexivity|]. split; [lia|]. split; [split|split].
    + apply Qmult_le_0_compat; [|discriminate].
      apply Qle_shift_div_l; [apply inject_nat_pos; exact E0|].
      rewrite Qmult_0_l. unfold Qle; cbn. lia.
    + assert (Hd : inject_Z (Z.of_nat (List.length w))
                   / inject_Z (Z.of_nat (List.length (completed_rows (bt_trades bt)))) <= 1).
      { apply Qle_shift_div_r; [apply inject_nat_pos; exact E0|].
        rewrite Qmult_1_l. apply inject_nat_le. lia. }
      lra.
    + intros Hw. apply Nat.ltb_lt in Hw as Hw'. rewrite Hw'.
      unfold qmean. apply Qlt_shift_div_l; [apply inject_nat_pos; exact Hw|].
      rewrite Qmult_0_l. apply qsum_pos.
      * intros C. rewrite C in Hw. cbn in Hw. lia.
      * intros x Hx. unfold w in Hx. apply filter_In in Hx as [_ Hx].
        unfold qlt in Hx. apply Qnot_le_lt. intros C. apply Qle_bool_iff in C.
        rewrite C in Hx. discriminate.
    + destruct (0 <? List.length l)%nat eqn:El; [|lra].
      apply Nat.ltb_lt in El.
      unfold qmean. apply Qle_shift_div_r; [apply inject_nat_pos; exact El|].
      rewrite Qmult_0_l. apply qsum_nonpos.
      intros x Hx. unfold l in Hx. apply filter_In in Hx as [_ Hx].
      apply Qle_bool_iff. exact Hx.
  - apply Nat.ltb_ge in E0.
    split; [reflexivity|]. split; [cbn; lia|]. split; [split; lra | split; [lia | lra]].
Qed.

(** After [run] over a frame [df], [analyze_performance] reports the
    ["Error"] dict exactly when [df] has at most one row.  Otherwise
    [get_trades] raises [KeyError] exactly when the ledger is a single
    open record (the run ends holding a position); in every other case
    the metrics are returned, and the total return is not a finite number
    (inf or NaN, from the numpy division) exactly when the initial
    capital is 0. *)
Theorem analyze_after_run : forall calc bt df,
  match analyze_performance (run calc bt df) with
  | PerfError _ => (List.length df <= 1)%nat
  | PerfRaise e =>
      (2 <= List.length df)%nat /\ e = KeyError "['Exit_Price', 'Fees_Exit']" /\
      bt_position (run calc bt df) <> P_NOT_HELD /\
      exists t, bt_trades (run calc bt df) = [t] /\ has_exit t = false
  | PerfMetrics m =>
      (2 <= List.length df)%nat /\
      (bt_trades (run calc bt df) = [] \/ existsb has_exit (bt_trades (run calc bt df)) = true) /\
      (initial_capital bt == 0 <->
       match m_total_return_pct m with Sharpe.Fin _ => False | _ => True end)
  end.
Proof.
  intros calc bt df. unfold analyze_performance.
  rewrite run_curve, run_initial_capital, run_position, run_trades.
  pose proof (sim_loop_length calc (tl df) (sim_of (reset_state bt))) as Hl.
  pose proof (sim_loop_inv calc (tl df) _ (reset_inv bt)) as [Hi1 Hi2].
  destruct (snd (sim_loop calc (sim_of (reset_state bt)) (tl df))) as [|e es].
  - destruct df as [|b df]; cbn in Hl |- *; lia.
  - assert (H2 : (2 <= List.length df)%nat)
      by (destruct df as [|b df]; cbn in Hl |- *; lia).
    cbv zeta.
    destruct (get_trades (trades (fst (sim_loop calc (sim_of (reset_state bt)) (tl df)))))
      as [td|ex] eqn:Eg.
    2:{ apply get_trades_raise in Eg as [-> [Hne Hno]].
        destruct (single_open_record _ Hi1 Hne Hno) as [Ho Ht].
        split; [exact H2|]. split; [reflexivity|]. split; [|exact Ht].
        intros Hp. apply Hi2 in Hp. lia. }
    apply get_trades_ok in Eg as [-> Hc].
    destruct (0 <? _)%nat; cbv beta iota delta [m_total_return_pct];
      (split; [exact H2|]); (split; [exact Hc|]); unfold fl_div;
      (destruct (Qeq_bool (initial_capital bt) 0) eqn:Ez;
       [ destruct (Qeq_bool (_ - _) 0); cbn [fl_mul];
         (split; [intros _; exact I | intros _; apply Qeq_bool_iff; exact Ez])
       | cbn [fl_mul];
         split; [intros C; apply Qeq_bool_iff in C; congruence | intros []] ]).
Qed.
